(** * Static-shape generation pipelines of openvino.genai

    A shallow embedding of [src/cpp/src/llm_pipeline_npu.cpp] (the NPU text
    pipeline) and of [src/cpp/src/whisper_pipeline_static.cpp] (the static
    Whisper pipeline), and the properties of their cache bookkeeping, stop
    conditions and logit suppression.

    Conventions.
    - Fixed-width integers are [Z] with the wrap-around written out
      ([u32], [u64], [i32]).
    - A tensor of integers is the list of its elements in memory order.
    - The inference engine is outside the repository: a compiled graph is a
      function from the tensors bound to its inputs to the tensors it writes.
    - A call ends in one of three ways, see [Outcome]: it returns, it throws,
      or it reaches a statement without defined behaviour in C++ (an access
      outside a buffer); the embedding stops there.
    - What a call does to the outside (inference submissions, writes to the
      cache descriptor, tokens handed to the streamer) is recorded, in order,
      in a list of events returned next to the result. *)

From Stdlib Require Import ZArith Lia Bool String DecimalString.
From stdpp Require Import base option list list_numbers strings gmap.

Open Scope string_scope.
Open Scope list_scope.
Open Scope Z_scope.

(** ** Machine integers *)

Definition u32 (z : Z) : Z := z mod 2 ^ 32.
Definition u64 (z : Z) : Z := z mod 2 ^ 64.
Definition i32 (z : Z) : Z := (z + 2 ^ 31) mod 2 ^ 32 - 2 ^ 31.

(** [get_size]: number of elements of a tensor. *)
Definition get_size {A : Type} (t : list A) : Z := Z.of_nat (length t).

(** [std::to_string] on an unsigned value. *)
Definition to_string (z : Z) : string := NilEmpty.string_of_uint (N.to_uint (Z.to_N z)).

(** ** Ways a call can end *)

Inductive Exception : Type :=
| OvException (what : string)       (* OPENVINO_THROW, OPENVINO_ASSERT, engine errors *)
| IntException (value : Z).         (* [throw 1;] *)

Inductive Fault : Type :=
| OutOfBounds (buffer : string) (index : Z)
| BadRange (algorithm : string).

Inductive Outcome (A : Type) : Type :=
| Returned (a : A)
| Thrown (e : Exception)
| Undefined (f : Fault).

Arguments Returned {A} a.
Arguments Thrown {A} e.
Arguments Undefined {A} f.

#[global] Instance outcome_ret : MRet Outcome := fun A a => Returned a.

#[global] Instance outcome_bind : MBind Outcome := fun A B k m =>
  match m with
  | Returned a => k a
  | Thrown e => Thrown e
  | Undefined f => Undefined f
  end.

Definition is_returned {A : Type} (o : Outcome A) : Prop :=
  match o with Returned _ => True | _ => False end.

(** [buf[idx] = v] through a raw pointer. *)
Definition poke {A : Type} (name : string) (buf : list A) (idx : Z) (v : A) : Outcome (list A) :=
  if (0 <=? idx) && (idx <? get_size buf)
  then Returned (<[Z.to_nat idx := v]> buf)
  else Undefined (OutOfBounds name idx).

(** ** Floating-point logits

    Only comparisons and the constant negative infinity are used on logits.
    A finite binary32 value is an integer multiple of 2^-149: [Fin m] stands
    for m * 2^-149 (both zeros are [Fin 0]), which keeps the order exact. *)

Inductive f32 : Type := NaN | NInf | Fin (m : Z) | PInf.

(** The comparison [a < b] of the hardware: false when either side is NaN. *)
Definition f32_lt (a b : f32) : bool :=
  match a, b with
  | NaN, _ | _, NaN => false
  | NInf, NInf => false
  | NInf, _ => true
  | Fin x, Fin y => x <? y
  | Fin _, PInf => true
  | Fin _, NInf => false
  | PInf, _ => false
  end.

(** A logits tensor has shape [batch, sequence, vocabulary]. *)
Record Logits : Type := mkLogits {
  batch : Z;
  seq_len : Z;
  vocab_size : Z;
  data : list f32
}.

(** Offset of the row that [suppress_tokens] and [argmax] work on: the last
    sequence position of row [batch_idx]. *)
Definition row_offset (t : Logits) (batch_idx : Z) : Z :=
  u64 (u64 (batch_idx * seq_len t) * vocab_size t) + u64 ((seq_len t - 1) * vocab_size t).

(** Left-to-right maximum scan keeping the first occurrence. *)
Fixpoint max_scan (best_i : nat) (best : f32) (i : nat) (l : list f32) : nat :=
  match l with
  | [] => best_i
  | x :: l' => if f32_lt best x then max_scan i x (S i) l' else max_scan best_i best (S i) l'
  end.

Definition max_element (l : list f32) : nat :=
  match l with
  | [] => 0%nat
  | x :: l' => max_scan 0 x 1 l'
  end.

(** Modelled from the spec: [utils::argmax] is declared in [utils.hpp], which
    is not among the sources. Spec 4.3 and 4.5: the highest-scoring vocabulary
    index at the last sequence position of the given batch row, ties resolved
    to the lowest index (first occurrence under a left-to-right scan). *)
Definition argmax (t : Logits) (batch_idx : Z) : Z :=
  Z.of_nat (max_element (take (Z.to_nat (vocab_size t))
                              (drop (Z.to_nat (row_offset t batch_idx)) (data t)))).

(** A logits tensor of one row whose maximum is at [tok]: used by the
    example graphs below. *)
Definition one_hot (vocab : nat) (tok : Z) : Logits :=
  mkLogits 1 1 (Z.of_nat vocab) (<[Z.to_nat tok := Fin 1]> (replicate vocab (Fin 0))).

(** * The NPU text pipeline ([llm_pipeline_npu.cpp]) *)

Module NPU.

(** [KVCacheDesc { total_size, num_stored_tokens }], both [uint32_t]. *)
Record KVCacheDesc : Type := mkDesc {
  total_size : Z;
  num_stored_tokens : Z
}.

(** What the pipeline reads of a [GenerationConfig]. The class is declared
    outside the sources, so the values of its members are taken as given:
    [validate] is the message [validate()] throws ([None] when it returns),
    [get_max_new_tokens] maps the prompt length to a [size_t]. *)
Record GenerationConfig : Type := mkConfig {
  eos_token_id : Z;
  validate : option string;
  is_greedy_decoding : bool;
  get_max_new_tokens : Z -> Z
}.

Definition set_eos_token_id (c : GenerationConfig) (eos : Z) : GenerationConfig :=
  mkConfig eos (validate c) (is_greedy_decoding c) (get_max_new_tokens c).

(** An [int64] tensor handed in by the caller. *)
Record IntTensor : Type := mkTensor {
  shape : list Z;
  elems : list Z
}.

(** [EncodedInputs]: a bare tensor of token ids, or [TokenizedInputs]. *)
Inductive EncodedInputs : Type :=
| FromTensor (ids : IntTensor)
| FromTokenized (ids mask : IntTensor).

(** A streamer answers [put(token)] with "stop". Whatever state it keeps, its
    answer is a function of the tokens it has been given during the call, the
    current one last. [None] is the null [streamer_ptr]. *)
Definition StreamerVariant : Type := option (list Z -> bool).

Record EncodedResults : Type := mkResults {
  tokens : list (list Z);
  scores : list f32
}.

Inductive Graph : Type := Prefill | Kvcache.

Inductive Event : Type :=
| Stored (n : Z)          (* [m_kvcache_desc.num_stored_tokens] becomes [n] *)
| Infer (g : Graph)       (* [infer()] on the request of graph [g] *)
| MaskWrite (idx : Z)     (* [attention_mask_data[idx] = 1u] of the decode loop *)
| Put (tok : Z).          (* [streamer_ptr->put(tok)] *)

Section Pipeline.

(** Contents of the key/value tensors of a request, opaque to the pipeline,
    and the helper [utils::init_attention_mask] of [utils.hpp]. *)
Context {KV : Type}.
Variable init_attention_mask : IntTensor -> IntTensor.

(** An infer request: the compiled graph and the tensors bound to it. For the
    generate graph the key/value outputs are bound to the key/value inputs
    before its first inference (lines 266-274), so one field holds both. *)
Record InferRequest : Type := mkRequest {
  compiled_model : list Z -> list Z -> list Z -> KV -> Logits * KV;
  input_ids : list Z;
  attention_mask : list Z;
  position_ids : list Z;
  kv : KV;
  logits : Logits
}.

Definition set_inputs (r : InferRequest) (ids mask pos : list Z) : InferRequest :=
  mkRequest (compiled_model r) ids mask pos (kv r) (logits r).

Definition set_kv (r : InferRequest) (k : KV) : InferRequest :=
  mkRequest (compiled_model r) (input_ids r) (attention_mask r) (position_ids r) k (logits r).

Definition infer (r : InferRequest) : InferRequest :=
  let out := compiled_model r (input_ids r) (attention_mask r) (position_ids r) (kv r) in
  mkRequest (compiled_model r) (input_ids r) (attention_mask r) (position_ids r) (snd out) (fst out).

Record NPULLMPipelineImpl : Type := mkPipeline {
  m_generation_config : GenerationConfig;
  m_pad_token_id : Z;                      (* [m_tokenizer.get_pad_token_id()] *)
  m_kvcache_desc : KVCacheDesc;
  m_prefill_request : InferRequest;
  m_kvcache_request : InferRequest
}.

Definition set_requests (p : NPULLMPipelineImpl) (d : KVCacheDesc) (pre kvc : InferRequest)
  : NPULLMPipelineImpl :=
  mkPipeline (m_generation_config p) (m_pad_token_id p) d pre kvc.

(** [fill_tensor], lines 79-82. *)
Definition fill_tensor (tensor : list Z) (fill_val : Z) : list Z :=
  replicate (length tensor) fill_val.

(** [copy_with_left_offset], lines 84-91: [std::copy] of [orig] to
    [padded_data + kLeftOffset]. *)
Definition copy_with_left_offset (orig padded : list Z) : Outcome (list Z) :=
  let kLeftOffset := u64 (get_size padded - get_size orig) in
  if kLeftOffset + get_size orig <=? get_size padded
  then Returned (take (Z.to_nat kLeftOffset) padded ++ orig)
  else Undefined (OutOfBounds "padded" (get_size padded)).

(** [std::iota(data + first, data + last, value)] with an [unsigned] value. *)
Definition iota (buf : list Z) (first last value : Z) : Outcome (list Z) :=
  if (first <=? last) && (last <=? get_size buf)
  then Returned (take (Z.to_nat first) buf
                 ++ (u32 <$> seqZ value (last - first))
                 ++ drop (Z.to_nat last) buf)
  else Undefined (BadRange "std::iota").

(** [prepare_for_new_conversation], lines 160-166. *)
Definition prepare_for_new_conversation (p : NPULLMPipelineImpl) : NPULLMPipelineImpl :=
  let pre := m_prefill_request p in
  let kvc := m_kvcache_request p in
  set_requests p
    (mkDesc (total_size (m_kvcache_desc p)) 0)
    (set_inputs pre (fill_tensor (input_ids pre) (m_pad_token_id p))
                    (fill_tensor (attention_mask pre) 0)
                    (fill_tensor (position_ids pre) 0))
    (set_inputs kvc (input_ids kvc) (fill_tensor (attention_mask kvc) 0) (position_ids kvc)).

(** The constructor, lines 108-152, once the two graphs are compiled: the
    descriptor is [{1024, 0}], the prefill tensors have [total_size] slots,
    the generate graph one slot of input and position ids and [total_size]
    slots of attention mask ([reshape_to_static], lines 54-77). *)
Definition new_pipeline (config : GenerationConfig) (pad : Z)
    (prefill_model kvcache_model : list Z -> list Z -> list Z -> KV -> Logits * KV)
    (kv0 : KV) : NPULLMPipelineImpl :=
  let zeros := replicate 1024 0 in
  let empty := mkLogits 0 0 0 [] in
  prepare_for_new_conversation
    (mkPipeline config pad (mkDesc 1024 0)
       (mkRequest prefill_model zeros zeros zeros kv0 empty)
       (mkRequest kvcache_model [0] zeros [0] kv0 empty)).

(** Lines 238-246: the prompt is copied into the tail of the prefill buffers
    and the position ids are written. *)
Definition pad_prompt (ids mask : list Z) (p : NPULLMPipelineImpl) : Outcome NPULLMPipelineImpl :=
  let pre := m_prefill_request p in
  let prompt_len := get_size ids in
  padded_input_ids ← copy_with_left_offset ids (input_ids pre);
  padded_attention_mask ← copy_with_left_offset mask (attention_mask pre);
  padded_position_ids ←
    iota (position_ids pre)
         (u64 (total_size (m_kvcache_desc p) - prompt_len + 1))
         (get_size (position_ids pre)) 0;
  mret (set_requests p (m_kvcache_desc p)
          (set_inputs pre padded_input_ids padded_attention_mask padded_position_ids)
          (m_kvcache_request p)).

(** [streamer_ptr && streamer_ptr->put(tok)], after [streamed] earlier tokens. *)
Definition put (streamer : StreamerVariant) (streamed : list Z) (tok : Z) : bool :=
  match streamer with
  | None => false
  | Some sink => sink (streamed ++ [tok])
  end.

Definition put_events (streamer : StreamerVariant) (tok : Z) : list Event :=
  match streamer with
  | None => []
  | Some _ => [Put tok]
  end.

Definition put_log (streamer : StreamerVariant) (streamed : list Z) (tok : Z) : list Z :=
  match streamer with
  | None => streamed
  | Some _ => streamed ++ [tok]
  end.

(** The variables the decode loop carries from one iteration to the next. *)
Record LoopState : Type := mkLoop {
  pipeline : NPULLMPipelineImpl;
  last_token : Z;
  results : EncodedResults;
  streamed : list Z;
  events : list Event
}.

Definition push_token (r : EncodedResults) (tok : Z) : EncodedResults :=
  mkResults (alter (fun row => row ++ [tok]) 0%nat (tokens r)) (<[0%nat := Fin 0]> (scores r)).

(** The three writes that open an iteration, lines 282-284. *)
Definition write_step_inputs (p : NPULLMPipelineImpl) (tok : Z) : Outcome InferRequest :=
  let d := m_kvcache_desc p in
  let r := m_kvcache_request p in
  ids ← poke "input_ids" (input_ids r) 0 tok;
  pos ← poke "position_ids" (position_ids r) 0 (num_stored_tokens d);
  mask ← poke "attention_mask" (attention_mask r)
              (u32 (total_size d - num_stored_tokens d - 1)) 1;
  mret (set_inputs r ids mask pos).

(** One iteration of the loop of lines 281-306; [true] stands for [break]. *)
Definition loop_body (streamer : StreamerVariant) (s : LoopState) : Outcome bool * LoopState :=
  let p := pipeline s in
  let d := m_kvcache_desc p in
  match write_step_inputs p (last_token s) with
  | Returned r =>
      let r' := infer r in
      let stored := u32 (num_stored_tokens d + 1) in
      let tok := argmax (logits r') 0 in
      let s' := mkLoop (set_requests p (mkDesc (total_size d) stored) (m_prefill_request p) r')
                       tok
                       (push_token (results s) tok)
                       (put_log streamer (streamed s) tok)
                       (events s
                        ++ [MaskWrite (u32 (total_size d - num_stored_tokens d - 1));
                            Infer Kvcache; Stored stored]
                        ++ put_events streamer tok) in
      if put streamer (streamed s) tok then (Returned true, s')
      else if tok =? eos_token_id (m_generation_config p) then (Returned true, s')
      else if stored =? total_size d then (Returned true, s')
      else (Returned false, s')
  | Thrown e => (Thrown e, s)
  | Undefined f => (Undefined f, s)
  end.

(** [for (int i = 0; i < max_tokens - 1; ++i)]: [n] is the number of
    iterations the header still allows. The counter is not read in the body. *)
Fixpoint decode_loop (n : nat) (streamer : StreamerVariant) (s : LoopState)
  : Outcome unit * LoopState :=
  match n with
  | O => (Returned tt, s)
  | S n' =>
      match loop_body streamer s with
      | (Returned false, s') => decode_loop n' streamer s'
      | (Returned true, s') => (Returned tt, s')
      | (Thrown e, s') => (Thrown e, s')
      | (Undefined f, s') => (Undefined f, s')
      end
  end.

Definition batch_error : Exception :=
  OvException "Currently only batch size=1 is supported for NPU device".

Definition greedy_error : Exception :=
  OvException "Currently only greedy decoding is supported for NPU device".

Definition capacity_error (total : Z) : Exception :=
  OvException (String.append "Currently NPU device may only process up to "
                 (String.append (to_string total) " tokens")).

(** Lines 193-199. *)
Definition unpack_inputs (inputs : EncodedInputs) : IntTensor * IntTensor :=
  match inputs with
  | FromTensor ids => (ids, init_attention_mask ids)
  | FromTokenized ids mask => (ids, mask)
  end.

(** Lines 205-208: the call's configuration, its [eos_token_id] taken from the
    pipeline's when it is -1. *)
Definition effective_config (p : NPULLMPipelineImpl) (generation_config : option GenerationConfig)
  : GenerationConfig :=
  let config := default (m_generation_config p) generation_config in
  if eos_token_id config =? -1
  then set_eos_token_id config (eos_token_id (m_generation_config p))
  else config.

(** Lines 248-306, entered once the prompt is padded. *)
Definition run (config : GenerationConfig) (streamer : StreamerVariant) (prompt_len : Z)
    (p : NPULLMPipelineImpl) : Outcome EncodedResults * NPULLMPipelineImpl * list Event :=
  let results0 := mkResults [[]] [Fin 0] in
  let pre := infer (m_prefill_request p) in
  let d := m_kvcache_desc p in
  let stored := u32 (num_stored_tokens d + prompt_len) in
  let first_token := argmax (logits pre) 0 in
  let evs := [Infer Prefill; Stored stored] ++ put_events streamer first_token in
  if put streamer [] first_token
  then (Returned results0,
        set_requests p (mkDesc (total_size d) stored) pre (m_kvcache_request p), evs)
  else
    let kvc := m_kvcache_request p in
    let kvc' := set_kv (set_inputs kvc (input_ids kvc) (attention_mask pre) (position_ids kvc))
                       (kv pre) in
    let max_tokens := get_max_new_tokens config prompt_len in
    let s0 := mkLoop (set_requests p (mkDesc (total_size d) stored) pre kvc')
                     first_token results0 (put_log streamer [] first_token) evs in
    let '(o, s) := decode_loop (Z.to_nat (u64 (max_tokens - 1))) streamer s0 in
    (_ ← o; mret (results s), pipeline s, events s).

(** [generate(const EncodedInputs&, OptionalGenerationConfig, StreamerVariant)],
    lines 185-308. *)
Definition generate (inputs : EncodedInputs) (generation_config : option GenerationConfig)
    (streamer : StreamerVariant) (p : NPULLMPipelineImpl)
  : Outcome EncodedResults * NPULLMPipelineImpl * list Event :=
  let '(ids, mask) := unpack_inputs inputs in
  match shape ids with
  | [] => (Thrown (OvException "std::out_of_range"), p, [])
  | b :: _ =>
      if 1 <? b then (Thrown batch_error, p, []) else
      let config := effective_config p generation_config in
      match validate config with
      | Some msg => (Thrown (OvException msg), p, [])
      | None =>
          if negb (is_greedy_decoding config) then (Thrown greedy_error, p, []) else
          let prompt_len := get_size (elems ids) in
          if total_size (m_kvcache_desc p) <? prompt_len
          then (Thrown (capacity_error (total_size (m_kvcache_desc p))), p, [])
          else
            let p1 := prepare_for_new_conversation p in
            match pad_prompt (elems ids) (elems mask) p1 with
            | Returned p2 =>
                let '(o, p3, evs) := run config streamer prompt_len p2 in
                (o, p3, Stored 0 :: evs)
            | Thrown e => (Thrown e, p1, [Stored 0])
            | Undefined f => (Undefined f, p1, [Stored 0])
            end
      end
  end.

(** *** Vocabulary of the statements *)

(** The prompt and the mask a call works on. *)
Definition prompt_of (inputs : EncodedInputs) : list Z := elems (fst (unpack_inputs inputs)).
Definition mask_of (inputs : EncodedInputs) : list Z := elems (snd (unpack_inputs inputs)).

(** The checks of lines 201-222 let the call through. *)
Definition passes_checks (inputs : EncodedInputs) (generation_config : option GenerationConfig)
    (p : NPULLMPipelineImpl) : bool :=
  match shape (fst (unpack_inputs inputs)) with
  | [] => false
  | b :: _ =>
      (b <=? 1)
      && bool_decide (validate (effective_config p generation_config) = None)
      && is_greedy_decoding (effective_config p generation_config)
  end.

(** The buffers have the sizes the constructor gives them. [total_size] is a
    [uint32_t]; below 2^31 the [int] counter of the decode loop cannot
    overflow. *)
Definition well_formed (p : NPULLMPipelineImpl) : bool :=
  let total := total_size (m_kvcache_desc p) in
  (0 <? total) && (total <? 2 ^ 31)
  && (get_size (input_ids (m_prefill_request p)) =? total)
  && (get_size (attention_mask (m_prefill_request p)) =? total)
  && (get_size (position_ids (m_prefill_request p)) =? total)
  && (get_size (input_ids (m_kvcache_request p)) =? 1)
  && (get_size (position_ids (m_kvcache_request p)) =? 1)
  && (get_size (attention_mask (m_kvcache_request p)) =? total).

(** What the decode loop relies on when an iteration starts. *)
Definition loop_ready (p : NPULLMPipelineImpl) : Prop :=
  let d := m_kvcache_desc p in
  let r := m_kvcache_request p in
  0 < total_size d < 2 ^ 31
  /\ get_size (input_ids r) = 1
  /\ get_size (position_ids r) = 1
  /\ get_size (attention_mask r) = total_size d
  /\ 0 <= num_stored_tokens d <= total_size d.

(** The token selected from the prefill logits, when the call gets there. *)
Definition first_token (inputs : EncodedInputs) (p : NPULLMPipelineImpl) : option Z :=
  match pad_prompt (prompt_of inputs) (mask_of inputs) (prepare_for_new_conversation p) with
  | Returned p2 => Some (argmax (logits (infer (m_prefill_request p2))) 0)
  | _ => None
  end.

End Pipeline.

Definition is_put (e : Event) : bool :=
  match e with Put _ => true | _ => false end.

(** The events of a call without the deliveries to the streamer. *)
Definition bookkeeping (evs : list Event) : list Event :=
  List.filter (fun e => negb (is_put e)) evs.

(** The tokens handed to the streamer, in order. *)
Definition puts (evs : list Event) : list Z :=
  omap (fun e => match e with Put tok => Some tok | _ => None end) evs.

(** The bookkeeping of [k] generate steps that start with [stored] tokens in
    a cache of [total] slots. *)
Fixpoint steps (total stored : Z) (k : nat) : list Event :=
  match k with
  | O => []
  | S k' => MaskWrite (total - stored - 1) :: Infer Kvcache :: Stored (stored + 1)
            :: steps total (stored + 1) k'
  end.

(** The values [num_stored_tokens] takes, in order. *)
Definition stored_values (evs : list Event) : list Z :=
  omap (fun e => match e with Stored n => Some n | _ => None end) evs.

(** Tokens the streamer is given when the loop produces [toks]. *)
Definition delivered (streamer : StreamerVariant) (toks : list Z) : list Z :=
  match streamer with Some _ => toks | None => [] end.

Arguments InferRequest : clear implicits.
Arguments NPULLMPipelineImpl : clear implicits.
Arguments LoopState : clear implicits.

(** *** A concrete pipeline for the examples

    The prefill graph selects token 7; the generate graph selects the token
    (position id mod 10) + 1. The vocabulary has 16 entries, the key/value
    tensors are left out ([unit]). *)

Definition ones_mask (ids : IntTensor) : IntTensor :=
  mkTensor (shape ids) (replicate (length (elems ids)) 1).

Definition example_prefill (ids mask pos : list Z) (k : unit) : Logits * unit :=
  (one_hot 16 7, tt).

Definition example_kvcache (ids mask pos : list Z) (k : unit) : Logits * unit :=
  (one_hot 16 (List.hd 0 pos mod 10 + 1), tt).

Definition example_config (max_new_tokens eos : Z) (greedy : bool) : GenerationConfig :=
  mkConfig eos None greedy (fun _ => max_new_tokens).

(** The pipeline as constructed, with default [eos_token_id] [eos]. *)
Definition example_pipeline (eos : Z) : NPULLMPipelineImpl unit :=
  new_pipeline (example_config 20 eos true) 0 example_prefill example_kvcache tt.

(** A prompt of [n] tokens with its mask. *)
Definition example_prompt (n : nat) : EncodedInputs :=
  FromTokenized (mkTensor [1; Z.of_nat n] (replicate n 5))
                (mkTensor [1; Z.of_nat n] (replicate n 1)).

(** A streamer that asks to stop on the [n]-th token it is given. *)
Definition stop_at (n : nat) : StreamerVariant := Some (fun toks => Nat.eqb (length toks) n).

End NPU.

(** * The static Whisper pipeline ([whisper_pipeline_static.cpp]) *)

Module Whisper.

(** What the pipeline reads of a [WhisperGenerationConfig] (declared outside
    the sources): [validate] is the message [validate()] throws, if any, and
    [get_max_new_tokens] the value of [config.get_max_new_tokens()]. *)
Module Config.
Record WhisperGenerationConfig : Type := mkConfig {
  eos_token_id : Z;
  begin_suppress_tokens : list Z;
  suppress_tokens : list Z;
  validate : option string;
  get_max_new_tokens : Z
}.
End Config.
Export Config(WhisperGenerationConfig).

(** What the pipeline reads of the [WhisperFeatureExtractor]. *)
Record WhisperFeatureExtractor : Type := mkExtractor {
  n_samples : Z;
  feature_size : Z;
  nb_max_frames : Z;
  extract : list f32 -> list f32
}.

Definition StreamerVariant : Type := option (list Z -> bool).

Inductive Request : Type := Encoder | Decoder | DecoderWithPast.

Inductive Event : Type :=
| Infer (r : Request)          (* [infer()] on a request *)
| CopyCrossAttn                (* a call of [copy_cross_attn_key_value] *)
| UpdatePast (kv_pos : Z)      (* a call of [update_past_key_value] *)
| Put (tok : Z).               (* [streamer->put(tok)] *)

(** [name.find(pattern) != std::string::npos]. *)
Definition contains (pattern name : string) : bool :=
  bool_decide (is_Some (String.index 0 pattern name)).

(** [std::regex_replace(name, std::regex("present"), "past")]: every
    occurrence, left to right; [skip] characters of a match are still to be
    dropped. *)
Fixpoint present_to_past_from (skip : nat) (name : string) : string :=
  match name with
  | EmptyString => EmptyString
  | String c rest =>
      match skip with
      | S k => present_to_past_from k rest
      | O => if String.prefix "present" name
             then String.append "past" (present_to_past_from 6 rest)
             else String c (present_to_past_from 0 rest)
      end
  end.

Definition present_to_past (name : string) : string := present_to_past_from 0 name.

(** [suppress_tokens], lines 35-46: the loop over the token list. *)
Fixpoint suppress_loop (logits_data : list f32) (offset : Z) (toks : list Z)
  : Outcome (list f32) :=
  match toks with
  | [] => Returned logits_data
  | supress_token :: rest =>
      d ← poke "logits_data" logits_data (offset + supress_token) NInf;
      suppress_loop d offset rest
  end.

Definition suppress_tokens (logits : Logits) (batch_idx : Z) (toks : list Z) : Outcome Logits :=
  if batch logits <? batch_idx
  then Thrown (OvException "logits batch size doesn't match the number of beams")
  else
    d ← suppress_loop (data logits) (row_offset logits batch_idx) toks;
    mret (mkLogits (batch logits) (seq_len logits) (vocab_size logits) d).

Section Pipeline.

(** [Slab]: what a key/value tensor holds at one position of its
    sequence-length axis (axis 2); a key/value tensor is the list of its
    slabs. [array_data_bin]: the floats that [decode] reads from the file of
    that name. *)
Context {Slab : Type}.
Variable array_data_bin : list f32.

Record Tensors : Type := mkTensors {
  input_features : list f32;
  last_hidden_state : list f32;
  encoder_hidden_states : list f32;
  input_ids : list Z;
  position_ids : list Z;
  attention_mask : list Z;               (* float16 in the source, 0 or 1 *)
  logits : Logits;
  key_values : gmap string (list Slab)
}.

(** A request: the names of the outputs of its compiled graph, the graph as
    a function on the bound tensors, and the tensors. *)
Record InferRequest : Type := mkRequest {
  outputs : list string;
  compiled_model : Tensors -> Tensors;
  tensors : Tensors
}.

Definition set_tensors (r : InferRequest) (t : Tensors) : InferRequest :=
  mkRequest (outputs r) (compiled_model r) t.

Record WhisperInitializedModels : Type := mkModels {
  encoder : InferRequest;
  decoder : InferRequest;
  decoder_with_past : InferRequest
}.

Definition get_request (m : WhisperInitializedModels) (id : Request) : InferRequest :=
  match id with
  | Encoder => encoder m
  | Decoder => decoder m
  | DecoderWithPast => decoder_with_past m
  end.

Definition set_request (m : WhisperInitializedModels) (id : Request) (r : InferRequest)
  : WhisperInitializedModels :=
  match id with
  | Encoder => mkModels r (decoder m) (decoder_with_past m)
  | Decoder => mkModels (encoder m) r (decoder_with_past m)
  | DecoderWithPast => mkModels (encoder m) (decoder m) r
  end.

(** The state a generation call works on: the three requests and the tokens
    handed to the streamer so far. *)
Record World : Type := mkWorld {
  models : WhisperInitializedModels;
  streamed : list Z
}.

(** Computations on the world that may throw or go wrong, with the events
    they cause. *)
Definition M (A : Type) : Type := World -> Outcome A * World * list Event.

#[global] Instance M_ret : MRet M := fun A a w => (Returned a, w, []).

#[global] Instance M_bind : MBind M := fun A B k m w =>
  match m w with
  | (Returned a, w', evs) => let '(o, w'', evs') := k a w' in (o, w'', evs ++ evs')
  | (Thrown e, w', evs) => (Thrown e, w', evs)
  | (Undefined f, w', evs) => (Undefined f, w', evs)
  end.

Definition lift {A : Type} (o : Outcome A) : M A := fun w => (o, w, []).
Definition raise {A : Type} (e : Exception) : M A := lift (Thrown e).
Definition emit (e : Event) : M unit := fun w => (Returned tt, w, [e]).
Definition tensors_of (id : Request) : M Tensors :=
  fun w => (Returned (tensors (get_request (models w) id)), w, []).
Definition outputs_of (id : Request) : M (list string) :=
  fun w => (Returned (outputs (get_request (models w) id)), w, []).
Definition bind_tensors (id : Request) (t : Tensors) : M unit :=
  fun w => (Returned tt,
            mkWorld (set_request (models w) id (set_tensors (get_request (models w) id) t))
                    (streamed w), []).

(** [request.infer()]. *)
Definition infer (id : Request) : M unit :=
  fun w => let r := get_request (models w) id in
           (Returned tt,
            mkWorld (set_request (models w) id (set_tensors r (compiled_model r (tensors r))))
                    (streamed w), [Infer id]).

(** [request.get_tensor(name)] on a key/value tensor: an engine error when
    the graph has no tensor of that name. *)
Definition get_key_value (id : Request) (name : string) : M (list Slab) :=
  t ← tensors_of id;
  match key_values t !! name with
  | Some kv => mret kv
  | None => raise (OvException "get_tensor: no such tensor")
  end.

Definition set_key_value (id : Request) (name : string) (kv : list Slab) : M unit :=
  t ← tensors_of id;
  bind_tensors id (mkTensors (input_features t) (last_hidden_state t) (encoder_hidden_states t)
                      (input_ids t) (position_ids t) (attention_mask t) (logits t)
                      (<[name := kv]> (key_values t))).

(** [streamer && streamer->put(tok)]. *)
Definition put (streamer : StreamerVariant) (tok : Z) : M bool :=
  match streamer with
  | None => mret false
  | Some sink => fun w => (Returned (sink (streamed w ++ [tok])),
                           mkWorld (models w) (streamed w ++ [tok]), [Put tok])
  end.

(** The message of the assertion of lines 52-59. *)
Definition mel_size_error (feature_size nb_max_frames actual : Z) : Exception :=
  OvException
    (String.append "Mel spectrogram required size: "
       (String.append (to_string feature_size)
          (String.append " * "
             (String.append (to_string nb_max_frames)
                (String.append ". Actual size: "
                   (String.append (to_string actual) ".")))))).

(** [encode], lines 48-64. *)
Definition encode (mel_data : list f32) (feature_size nb_max_frames : Z) : M (list f32) :=
  if get_size mel_data =? u64 (feature_size * nb_max_frames) then
    t ← tensors_of Encoder;
    bind_tensors Encoder (mkTensors mel_data (last_hidden_state t) (encoder_hidden_states t)
                            (input_ids t) (position_ids t) (attention_mask t) (logits t)
                            (key_values t));;
    infer Encoder;;
    t' ← tensors_of Encoder;
    mret (last_hidden_state t')
  else raise (mel_size_error feature_size nb_max_frames (get_size mel_data)).

(** [make_tensor_slice] on axis 2 followed by [copy_to], lines 67-73 and 124:
    [src] overwrites [dst[:, :, start_pos:end_pos, :]]; the engine refuses a
    region that leaves the tensor. *)
Definition copy_to_slice (src dst : list Slab) (start_pos end_pos : Z) : Outcome (list Slab) :=
  if (start_pos <=? end_pos) && (end_pos <=? get_size dst)
  then Returned (take (Z.to_nat start_pos) dst ++ src ++ drop (Z.to_nat end_pos) dst)
  else Thrown (OvException "ROI tensor out of bounds").

(** [copy_cross_attn_key_value], lines 75-97: the loop over the output names
    of [source]. *)
Fixpoint copy_cross_attn_loop (names : list string) (source dest : Request) : M unit :=
  match names with
  | [] => mret tt
  | source_output_name :: rest =>
      (if contains "encoder" source_output_name then
         src_kv_tensor ← get_key_value source source_output_name;
         _ ← get_key_value dest (present_to_past source_output_name);
         set_key_value dest (present_to_past source_output_name) src_kv_tensor
       else mret tt);;
      copy_cross_attn_loop rest source dest
  end.

Definition copy_cross_attn_key_value (source dest : Request) : M unit :=
  emit CopyCrossAttn;;
  names ← outputs_of source;
  copy_cross_attn_loop names source dest.

(** [update_past_key_value], lines 99-126. *)
Fixpoint update_past_loop (names : list string) (source dest : Request) (kv_pos : Z) : M unit :=
  match names with
  | [] => mret tt
  | source_output_name :: rest =>
      (if contains "decoder" source_output_name then
         src_kv_tensor ← get_key_value source source_output_name;
         dst_kv_tensor ← get_key_value dest (present_to_past source_output_name);
         let kv_size := get_size src_kv_tensor in
         updated ← lift (copy_to_slice src_kv_tensor dst_kv_tensor kv_pos (u64 (kv_pos + kv_size)));
         set_key_value dest (present_to_past source_output_name) updated
       else mret tt);;
      update_past_loop rest source dest kv_pos
  end.

Definition update_past_key_value (source dest : Request) (kv_pos : Z) : M unit :=
  emit (UpdatePast kv_pos);;
  names ← outputs_of source;
  update_past_loop names source dest kv_pos.

Definition set_logits (id : Request) (lg : Logits) : M unit :=
  t ← tensors_of id;
  bind_tensors id (mkTensors (input_features t) (last_hidden_state t) (encoder_hidden_states t)
                      (input_ids t) (position_ids t) (attention_mask t) lg (key_values t)).

(** Lines 144-146 of [decode]: a buffer of 1 * 1500 * 384 zeros, overwritten
    from its start with the floats of the file, as far as they go. *)
Definition encoder_data : list f32 :=
  take (Z.to_nat (1 * 1500 * 384))
       (array_data_bin ++ replicate (Z.to_nat (1 * 1500 * 384)) (Fin 0)).

(** [decode], lines 138-220. The hidden state handed in is overwritten with
    that buffer before it is used. The diagnostic output is not modelled,
    but the [get_tensor] of line 180 is. *)
Definition decode (encoder_hidden_state : list f32) (ids : list Z)
    (config : WhisperGenerationConfig) (do_suppress_tokens : bool) : M Z :=
  let encoder_hidden_state := encoder_data in
  t ← tensors_of Decoder;
  bind_tensors Decoder (mkTensors (input_features t) (last_hidden_state t) encoder_hidden_state
                          ids (position_ids t) (replicate (length ids) 1) (logits t)
                          (key_values t));;
  infer Decoder;;
  _ ← get_key_value Decoder "present_key_values.0.encoder.value";
  t' ← tensors_of Decoder;
  output_tensor ←
    (if do_suppress_tokens then
       lift (lg ← suppress_tokens (logits t') 0 (Config.begin_suppress_tokens config);
             suppress_tokens lg 0 (Config.suppress_tokens config))
     else mret (logits t'));
  set_logits Decoder output_tensor;;
  mret (argmax output_tensor 0).

(** [decode_with_past], lines 222-283. The statement [throw 1;] of line 281
    stands before the [return]. *)
Definition decode_with_past (input_id position_id : Z) (config : WhisperGenerationConfig) : M Z :=
  t ← tensors_of DecoderWithPast;
  ids ← lift (poke "input_ids" (input_ids t) 0 (i32 input_id));
  pos ← lift (poke "position_ids" (position_ids t) 0 (i32 position_id));
  mask ← lift (poke "attention_mask" (attention_mask t) (position_id - 1) 1);
  bind_tensors DecoderWithPast
    (mkTensors (input_features t) (last_hidden_state t) (encoder_hidden_states t)
       ids pos mask (logits t) (key_values t));;
  _ ← get_key_value DecoderWithPast "past_key_values.0.encoder.value";
  infer DecoderWithPast;;
  t' ← tensors_of DecoderWithPast;
  output_tensor ← lift (suppress_tokens (logits t') 0 (Config.suppress_tokens config));
  set_logits DecoderWithPast output_tensor;;
  let output_token := argmax output_tensor 0 in
  (raise (IntException 1) : M unit);;
  mret output_token.

(** [prepare_decoder_with_past], lines 285-295. *)
Definition prepare_decoder_with_past : M unit :=
  t ← tensors_of DecoderWithPast;
  mask ← lift (if 4 <=? get_size (attention_mask t)
               then Returned ([1; 1; 1] ++ replicate (length (attention_mask t) - 4) 0 ++ [1])
               else Undefined (BadRange "std::fill"));
  bind_tensors DecoderWithPast
    (mkTensors (input_features t) (last_hidden_state t) (encoder_hidden_states t)
       (input_ids t) (position_ids t) mask (logits t) (key_values t));;
  copy_cross_attn_key_value Decoder DecoderWithPast;;
  update_past_key_value Decoder DecoderWithPast 0.

(** The prompt of special tokens of line 303. *)
Definition prompt_ids : list Z := [50258; 50259; 50359; 50363].

(** The loop of lines 316-329; [n] iterations are left, [i] is the counter. *)
Fixpoint full_decode_loop (n : nat) (i : Z) (config : WhisperGenerationConfig)
    (streamer : StreamerVariant) (output_tokens : list Z) : M (bool * list Z) :=
  match n with
  | O => mret (false, output_tokens)
  | S n' =>
      output_token ← decode_with_past (List.last output_tokens 0)
                                      (u64 (i + get_size prompt_ids)) config;
      update_past_key_value DecoderWithPast DecoderWithPast (u64 (i + get_size prompt_ids));;
      if output_token =? Config.eos_token_id config then mret (false, output_tokens)
      else
        stop ← put streamer output_token;
        if (stop : bool) then mret (true, output_tokens ++ [output_token])
        else full_decode_loop n' (i + 1) config streamer (output_tokens ++ [output_token])
  end.

(** [full_decode], lines 297-332. *)
Definition full_decode (encoder_hidden_state : list f32) (config : WhisperGenerationConfig)
    (max_new_tokens : Z) (streamer : StreamerVariant) : M (bool * list Z) :=
  output_token ← decode encoder_hidden_state prompt_ids config true;
  stop ← put streamer output_token;
  if (stop : bool) then mret (true, [output_token])
  else if max_new_tokens =? 1 then mret (false, [output_token])
  else
    prepare_decoder_with_past;;
    full_decode_loop (Z.to_nat (u64 (max_new_tokens - 1))) 0 config streamer [output_token].

(** The chunk loop of lines 389-412. Every frame adds at least one token, so
    no more than [max_new_tokens] frames pass the test of line 390: [fuel]
    counts them down (see [chunk_loop_fuel]). *)
Fixpoint chunk_loop (fuel : nat) (fe : WhisperFeatureExtractor) (raw_speech_input : list f32)
    (config : WhisperGenerationConfig) (streamer : StreamerVariant) (max_new_tokens : Z)
    (chunk_offset : Z) (output_tokens : list Z) : M (list Z) :=
  match fuel with
  | O => mret output_tokens
  | S fuel' =>
      if negb (chunk_offset <? get_size raw_speech_input) then mret output_tokens
      else if max_new_tokens <=? get_size output_tokens then mret output_tokens
      else
        let copy_size := Z.min (get_size raw_speech_input - chunk_offset) (u64 (n_samples fe)) in
        let input_features_sub_chunk :=
          take (Z.to_nat copy_size) (drop (Z.to_nat chunk_offset) raw_speech_input) in
        let input_features := extract fe input_features_sub_chunk in
        hidden_state_tensor ← encode input_features (feature_size fe) (nb_max_frames fe);
        '(cancelled, chunk_output_tokens) ←
          full_decode hidden_state_tensor config
                      (max_new_tokens - get_size output_tokens) streamer;
        let output_tokens := output_tokens ++ chunk_output_tokens in
        if (cancelled : bool) then mret output_tokens
        else chunk_loop fuel' fe raw_speech_input config streamer max_new_tokens
                        (u64 (chunk_offset + n_samples fe)) output_tokens
  end.

(** [m] leaves the streamer alone and causes the events [shape], or an
    initial segment of them when it does not return. *)
Definition emits {A : Type} (m : M A) (shape : list Event) : Prop :=
  forall w, streamed (snd (fst (m w))) = streamed w
            /\ snd (m w) `prefix_of` shape
            /\ (is_returned (fst (fst (m w))) -> snd (m w) = shape).

(** [StaticWhisperPipeline]: the members [generate] uses. *)
Record StaticWhisperPipeline : Type := mkPipeline {
  m_generation_config : WhisperGenerationConfig;
  m_feature_extractor : WhisperFeatureExtractor;
  m_models : WhisperInitializedModels
}.

(** [StaticWhisperPipeline::generate], lines 371-416, up to the token list
    that is handed to the tokenizer for decoding. *)
Definition generate (raw_speech_input : list f32)
    (generation_config : option WhisperGenerationConfig) (streamer : StreamerVariant)
    (p : StaticWhisperPipeline) : Outcome (list Z) * StaticWhisperPipeline * list Event :=
  let config := default (m_generation_config p) generation_config in
  match Config.validate config with
  | Some msg => (Thrown (OvException msg), p, [])
  | None =>
      let max_new_tokens := Config.get_max_new_tokens config in
      let '(o, w, evs) :=
        chunk_loop (Z.to_nat max_new_tokens) (m_feature_extractor p) raw_speech_input
                   config streamer max_new_tokens 0 [] (mkWorld (m_models p) []) in
      (o, mkPipeline (m_generation_config p) (m_feature_extractor p) (models w), evs)
  end.

End Pipeline.

Arguments Tensors : clear implicits.
Arguments InferRequest : clear implicits.
Arguments WhisperInitializedModels : clear implicits.
Arguments World : clear implicits.
Arguments M : clear implicits.
Arguments StaticWhisperPipeline : clear implicits.

(** *** Vocabulary of the statements *)

Definition is_put (e : Event) : bool :=
  match e with Put _ => true | _ => false end.

(** The events of a call without the deliveries to the streamer. *)
Definition bookkeeping (evs : list Event) : list Event :=
  List.filter (fun e => negb (is_put e)) evs.

(** The tokens handed to the streamer, in order. *)
Definition puts (evs : list Event) : list Z :=
  omap (fun e => match e with Put tok => Some tok | _ => None end) evs.





(** The bookkeeping of a frame after its encoder inference: the first
    decode, the two copies of [prepare_decoder_with_past], and the first
    inference of the decode-with-past graph, which ends in [throw 1;]. *)
Definition frame_shape : list Event :=
  [Infer Decoder; CopyCrossAttn; UpdatePast 0; Infer DecoderWithPast].

(** Some delivery in [evs] was answered with "stop" by [sink], which had
    received [streamed] before. *)
Fixpoint stopped (sink : list Z -> bool) (streamed : list Z) (evs : list Event) : bool :=
  match evs with
  | [] => false
  | Put tok :: rest => sink (streamed ++ [tok]) || stopped sink (streamed ++ [tok]) rest
  | _ :: rest => stopped sink streamed rest
  end.

(** The streamer as a function: a missing streamer never asks to stop. *)
Definition sink_of (streamer : StreamerVariant) : list Z -> bool :=
  match streamer with
  | Some sink => sink
  | None => fun _ => false
  end.

(** Nothing follows the first delivery that [sink] answers with "stop". *)
Fixpoint ends_at_stop (sink : list Z -> bool) (streamed : list Z) (evs : list Event) : Prop :=
  match evs with
  | [] => True
  | Put tok :: rest =>
      if sink (streamed ++ [tok]) then rest = []
      else ends_at_stop sink (streamed ++ [tok]) rest
  | _ :: rest => ends_at_stop sink streamed rest
  end.

(** No delivery to the streamer among [evs]. *)
Definition quiet (evs : list Event) : Prop := Forall (fun e => is_put e = false) evs.

(** What a run of a frame-level computation, from a world in which the
    streamer had received [streamed0], has to satisfy: its bookkeeping is an
    initial segment of [shape]; the streamer's log grows by the tokens
    delivered; nothing follows a "stop"; a "stop" makes the computation
    return with the cancelled flag set, and only a "stop" does; the returned
    token list is not empty. *)
Definition frame_run (sink : list Z -> bool) (streamed0 : list Z) (shape : list Event)
    (o : Outcome (bool * list Z)) (streamed1 : list Z) (evs : list Event) : Prop :=
  streamed1 = streamed0 ++ puts evs
  /\ bookkeeping evs `prefix_of` shape
  /\ ends_at_stop sink streamed0 evs
  /\ (stopped sink streamed0 evs = true -> exists toks, o = Returned (true, toks))
  /\ (forall cancelled toks, o = Returned (cancelled, toks) ->
        cancelled = stopped sink streamed0 evs /\ toks <> []).

Definition frame_spec {Slab : Type} (sink : list Z -> bool) (m : M Slab (bool * list Z)%type)
    (shape : list Event) : Prop :=
  forall w, frame_run sink (streamed w) shape
                      (fst (fst (m w))) (streamed (snd (fst (m w)))) (snd (m w)).

(** *** A concrete pipeline for the examples

    Key/value slabs are numbers. The encoder copies its input; the first
    decode selects token 3 and yields four slabs of decoder-side keys; the
    decode-with-past graph puts token 0 first at position 4 and token 2 (the
    [eos_token_id]) elsewhere. Audio frames have 4 samples. *)

Definition empty_tensors : Tensors Z :=
  mkTensors [] [] [] [] [] [] (mkLogits 0 0 0 []) ∅.

Definition example_encoder (t : Tensors Z) : Tensors Z :=
  mkTensors (input_features t) (input_features t) (encoder_hidden_states t) (input_ids t)
            (position_ids t) (attention_mask t) (logits t) (key_values t).

Definition example_decoder (t : Tensors Z) : Tensors Z :=
  mkTensors (input_features t) (last_hidden_state t) (encoder_hidden_states t) (input_ids t)
            (position_ids t) (attention_mask t) (one_hot 8 3)
            (<["present_key_values.0.decoder.key" := [10; 11; 12; 13]]>
               (<["present_key_values.0.encoder.value" := [7; 7]]> (key_values t))).

Definition example_decoder_with_past (t : Tensors Z) : Tensors Z :=
  let pos := List.hd 0 (position_ids t) in
  mkTensors (input_features t) (last_hidden_state t) (encoder_hidden_states t) (input_ids t)
            (position_ids t) (attention_mask t)
            (one_hot 8 (if pos =? 4 then 0 else 2))
            (<["present_key_values.0.decoder.key" := [100 + pos]]> (key_values t)).

Definition example_models : WhisperInitializedModels Z :=
  mkModels
    (mkRequest ["last_hidden_state"] example_encoder empty_tensors)
    (mkRequest ["logits"; "present_key_values.0.decoder.key";
                "present_key_values.0.encoder.value"] example_decoder empty_tensors)
    (mkRequest ["logits"; "present_key_values.0.decoder.key"] example_decoder_with_past
       (mkTensors [] [] [] [0] [0] (replicate 10 0) (mkLogits 0 0 0 [])
          (<["past_key_values.0.decoder.key" := replicate 10 0]>
             (<["past_key_values.0.encoder.value" := [0; 0]]> ∅)))).

Definition example_config (max_new_tokens : Z) : WhisperGenerationConfig :=
  Config.mkConfig 2 [] [1] None max_new_tokens.

Definition example_extractor : WhisperFeatureExtractor :=
  mkExtractor 4 2 2 (fun samples => take 4 (samples ++ replicate 4 (Fin 0))).

Definition example_pipeline : StaticWhisperPipeline Z :=
  mkPipeline (example_config 20) example_extractor example_models.

(** [n] samples of audio. *)
Definition example_audio (n : nat) : list f32 := replicate n (Fin 1).

(** A streamer that asks to stop on the [n]-th token it is given. *)
Definition stop_at (n : nat) : StreamerVariant := Some (fun toks => Nat.eqb (length toks) n).

End Whisper.

(** * Setting up the NPU pipeline ([llm_pipeline_npu.cpp], lines 13-77) *)

Module NPUSetup.
Import NPU.

(** An input of an [ov::Model]: its name and its partial shape, each
    dimension being a length or dynamic ([None]). *)
Record ModelInput : Type := mkInput {
  get_any_name : string;
  get_partial_shape : list (option Z)
}.

(** [partial_shape[i].get_length()]: the engine refuses a dimension that the
    shape does not have or that is dynamic. *)
Definition get_length (partial_shape : list (option Z)) (i : nat) : option Z :=
  partial_shape !! i ≫= id.

(** The body of the loop of [reshape_to_static], lines 59-73: the static
    shape an input is given. The sizes are [uint32_t]. *)
Definition new_shape (input : ModelInput) (input_size kvcache_size : Z) : option (list Z) :=
  let input_name := get_any_name input in
  if Whisper.contains "input_ids" input_name then Some [1; input_size]
  else if Whisper.contains "attention_mask" input_name then Some [1; kvcache_size]
  else if Whisper.contains "position_ids" input_name then Some [1; input_size]
  else
    d1 ← get_length (get_partial_shape input) 1;
    d3 ← get_length (get_partial_shape input) 3;
    Some [1; d1; u32 (kvcache_size - input_size); d3].

(** [std::map::emplace]: a key that is there keeps its value. *)
Definition emplace (key : string) (value : list Z) (m : gmap string (list Z))
  : gmap string (list Z) :=
  match m !! key with
  | Some _ => m
  | None => <[key := value]> m
  end.

Fixpoint reshape_loop (inputs : list ModelInput) (input_size kvcache_size : Z)
    (new_shapes : gmap string (list Z)) : option (gmap string (list Z)) :=
  match inputs with
  | [] => Some new_shapes
  | input :: rest =>
      shape ← new_shape input input_size kvcache_size;
      reshape_loop rest input_size kvcache_size (emplace (get_any_name input) shape new_shapes)
  end.

(** [reshape_to_static], lines 54-77: the map that is handed to
    [model->reshape]; [None] when reading a dimension fails. *)
Definition reshape_to_static (inputs : list ModelInput) (input_size kvcache_size : Z)
  : option (gmap string (list Z)) :=
  reshape_loop inputs input_size kvcache_size ∅.

(** An [opset13::Parameter] of a model with static shapes: the name of its
    output tensor and its shape. *)
Record ParameterOp : Type := mkParameterOp {
  tensor_name : string;
  get_output_shape : list Z
}.

(** The four constants of a [Slice] node ([int32]). *)
Record Slice : Type := mkSlice {
  slice_start : Z;
  slice_stop : Z;
  slice_step : Z;
  slice_axes : Z
}.

(** The body of the loop of [add_slices_to_kvcache_inputs], lines 16-48:
    the parameter that goes into the new model, and the [Slice] node that
    the consumers of the old parameter are connected to, if any. *)
Definition add_slice (param : ParameterOp) : Outcome (ParameterOp * option Slice) :=
  if negb (Whisper.contains "past_key_values" (tensor_name param)) then Returned (param, None)
  else
    match get_output_shape param !! 2%nat with
    | None => Undefined (OutOfBounds "shape" 2)
    | Some d =>
        let shape := <[2%nat := u64 (d + 1)]> (get_output_shape param) in
        Returned (mkParameterOp (tensor_name param) shape,
                  Some (mkSlice 1 (i32 (u64 (d + 1))) 1 2))
    end.

Fixpoint add_slices_to_kvcache_inputs (params : list ParameterOp)
  : Outcome (list (ParameterOp * option Slice)) :=
  match params with
  | [] => Returned []
  | param :: rest =>
      new_param ← add_slice param;
      new_params ← add_slices_to_kvcache_inputs rest;
      mret (new_param :: new_params)
  end.

(** What [Slice] with step 1 selects along its axis, for constants within
    the axis (the operation is the engine's): the positions from
    [slice_start] up to [slice_stop], the latter excluded. *)
Definition sliced {A : Type} (sl : Slice) (along_axis : list A) : list A :=
  take (Z.to_nat (slice_stop sl - slice_start sl)) (drop (Z.to_nat (slice_start sl)) along_axis).

(** [model->reshape(new_shapes)] gave the parameters the shapes of the map
    (the operation is the engine's). *)
Definition reshaped (new_shapes : gmap string (list Z)) (inputs : list ModelInput)
    (params : list ParameterOp) : Prop :=
  Forall2 (fun input param =>
             tensor_name param = get_any_name input
             /\ new_shapes !! get_any_name input = Some (get_output_shape param))
          inputs params.

(** An input that [reshape_to_static] treats as a key/value tensor. *)
Definition is_kv_input (name : string) : bool :=
  negb (Whisper.contains "input_ids" name)
  && negb (Whisper.contains "attention_mask" name)
  && negb (Whisper.contains "position_ids" name).

(** *** Vocabulary for statements about consecutive calls *)

(** Two pipelines built in the same way: they may differ in what earlier
    calls have left in their tensors. *)
Definition same_setup {KV : Type} (p1 p2 : NPULLMPipelineImpl KV) : Prop :=
  m_generation_config p1 = m_generation_config p2
  /\ m_pad_token_id p1 = m_pad_token_id p2
  /\ total_size (m_kvcache_desc p1) = total_size (m_kvcache_desc p2)
  /\ compiled_model (m_prefill_request p1) = compiled_model (m_prefill_request p2)
  /\ compiled_model (m_kvcache_request p1) = compiled_model (m_kvcache_request p2).

(** The prefill graph has no key/value input to read: [reshape_to_static]
    gives its key/value inputs [kvcache_size - input_size = 0] positions. *)
Definition prefill_reads_no_cache {KV : Type} (p : NPULLMPipelineImpl KV) : Prop :=
  forall ids mask pos k k',
    compiled_model (m_prefill_request p) ids mask pos k
    = compiled_model (m_prefill_request p) ids mask pos k'.

End NPUSetup.

(** * Vocabulary for the tokens of the Whisper pipeline *)

Module WhisperTokens.
Import Whisper.

(** Tokens the streamer is given when [toks] are produced. *)
Definition delivered (streamer : StreamerVariant) (toks : list Z) : list Z :=
  match streamer with Some _ => toks | None => [] end.

End WhisperTokens.

(** * Basic facts *)

Lemma poke_in_range {A : Type} name (buf : list A) idx v :
  0 <= idx < get_size buf -> poke name buf idx v = Returned (<[Z.to_nat idx := v]> buf).
Proof.
  intros [H0 H1]. unfold poke.
  destruct (Z.leb_spec 0 idx); [|lia]. destruct (Z.ltb_spec idx (get_size buf)); [|lia]. reflexivity.
Qed.

Lemma poke_out_of_range {A : Type} name (buf : list A) idx v :
  get_size buf <= idx -> poke name buf idx v = Undefined (OutOfBounds name idx).
Proof.
  intros H. unfold poke.
  destruct (Z.ltb_spec idx (get_size buf)); [lia|]. rewrite andb_false_r. reflexivity.
Qed.

Lemma get_size_insert {A : Type} (buf : list A) i v : get_size (<[i := v]> buf) = get_size buf.
Proof. unfold get_size. by rewrite length_insert. Qed.

Lemma u32_small z : 0 <= z < 2 ^ 32 -> u32 z = z.
Proof. intros. unfold u32. by apply Z.mod_small. Qed.

Lemma u64_small z : 0 <= z < 2 ^ 64 -> u64 z = z.
Proof. intros. unfold u64. by apply Z.mod_small. Qed.

Lemma get_size_replicate {A : Type} n (x : A) : get_size (replicate n x) = Z.of_nat n.
Proof. unfold get_size. by rewrite length_replicate. Qed.

Lemma get_size_nonneg {A : Type} (l : list A) : 0 <= get_size l.
Proof. unfold get_size. lia. Qed.

Ltac split_ands := repeat match goal with |- _ /\ _ => split end.

(** * Properties of the NPU pipeline *)

Module NPUProps.
Import NPU.

Section Props.
Context {KV : Type} (init_attention_mask : IntTensor -> IntTensor).
Implicit Types (p : NPULLMPipelineImpl KV) (s : LoopState KV) (streamer : StreamerVariant).

(** The state an iteration that runs to its end leaves behind. *)
Lemma loop_body_running streamer s :
  loop_ready (pipeline s) ->
  num_stored_tokens (m_kvcache_desc (pipeline s)) < total_size (m_kvcache_desc (pipeline s)) ->
  exists brk s',
    loop_body streamer s = (Returned brk, s')
    /\ loop_ready (pipeline s')
    /\ total_size (m_kvcache_desc (pipeline s')) = total_size (m_kvcache_desc (pipeline s))
    /\ num_stored_tokens (m_kvcache_desc (pipeline s'))
       = num_stored_tokens (m_kvcache_desc (pipeline s)) + 1
    /\ m_generation_config (pipeline s') = m_generation_config (pipeline s)
    /\ m_prefill_request (pipeline s') = m_prefill_request (pipeline s)
    /\ results s' = push_token (results s) (last_token s')
    /\ streamed s' = put_log streamer (streamed s) (last_token s')
    /\ events s' = events s
         ++ [MaskWrite (total_size (m_kvcache_desc (pipeline s))
                        - num_stored_tokens (m_kvcache_desc (pipeline s)) - 1);
             Infer Kvcache;
             Stored (num_stored_tokens (m_kvcache_desc (pipeline s)) + 1)]
         ++ put_events streamer (last_token s')
    /\ brk = put streamer (streamed s) (last_token s')
             || (last_token s' =? eos_token_id (m_generation_config (pipeline s)))
             || (num_stored_tokens (m_kvcache_desc (pipeline s)) + 1
                 =? total_size (m_kvcache_desc (pipeline s))).
Proof.
  intros (Ht & Hi & Hp & Hm & Hs) Hlt.
  unfold loop_body, write_step_inputs.
  set (d := m_kvcache_desc (pipeline s)) in *.
  set (r := m_kvcache_request (pipeline s)) in *.
  rewrite (poke_in_range "input_ids") by lia.
  cbn [mbind outcome_bind].
  rewrite (poke_in_range "position_ids") by lia.
  cbn [mbind outcome_bind].
  rewrite (u32_small (total_size d - num_stored_tokens d - 1)) by lia.
  rewrite (poke_in_range "attention_mask") by lia.
  cbn [mbind outcome_bind mret outcome_ret].
  rewrite (u32_small (num_stored_tokens d + 1)) by lia.
  set (r' := infer _).
  set (tok := argmax (logits r') 0).
  set (s' := mkLoop _ _ _ _ _).
  exists (put streamer (streamed s) tok
          || (tok =? eos_token_id (m_generation_config (pipeline s)))
          || (num_stored_tokens d + 1 =? total_size d)), s'.
  split.
  { destruct (put streamer (streamed s) tok); [done|].
    destruct (tok =? _); [done|]. by destruct (_ =? _). }
  repeat split; try done; cbn; rewrite ?get_size_insert; lia.
Qed.

Lemma loop_body_full streamer s :
  loop_ready (pipeline s) ->
  num_stored_tokens (m_kvcache_desc (pipeline s)) = total_size (m_kvcache_desc (pipeline s)) ->
  loop_body streamer s = (Undefined (OutOfBounds "attention_mask" 4294967295), s).
Proof.
  intros (Ht & Hi & Hp & Hm & Hs) Heq.
  unfold loop_body, write_step_inputs.
  rewrite (poke_in_range "input_ids") by lia.
  cbn [mbind outcome_bind].
  rewrite (poke_in_range "position_ids") by lia.
  cbn [mbind outcome_bind].
  rewrite Heq, Z.sub_diag. change (u32 (0 - 1)) with 4294967295.
  rewrite poke_out_of_range; [done | lia].
Qed.

Lemma bookkeeping_app evs evs' : bookkeeping (evs ++ evs') = bookkeeping evs ++ bookkeeping evs'.
Proof. apply List.filter_app. Qed.

Lemma puts_app evs evs' : puts (evs ++ evs') = puts evs ++ puts evs'.
Proof. apply omap_app. Qed.

Lemma bookkeeping_put_events streamer tok : bookkeeping (put_events streamer tok) = [].
Proof. by destruct streamer. Qed.

Lemma puts_put_events streamer tok :
  puts (put_events streamer tok) = put_log streamer [] tok.
Proof. by destruct streamer. Qed.

Lemma put_log_app streamer l tok : put_log streamer l tok = l ++ put_log streamer [] tok.
Proof. destruct streamer; cbn; [done | by rewrite app_nil_r]. Qed.

(** What the decode loop does, whatever the graphs compute. *)
Lemma decode_loop_spec n : forall streamer s o s' row,
  loop_ready (pipeline s) ->
  tokens (results s) = [row] ->
  decode_loop n streamer s = (o, s') ->
  exists toks : list Z,
    (length toks <= n)%nat
    /\ loop_ready (pipeline s')
    /\ total_size (m_kvcache_desc (pipeline s')) = total_size (m_kvcache_desc (pipeline s))
    /\ num_stored_tokens (m_kvcache_desc (pipeline s'))
       = num_stored_tokens (m_kvcache_desc (pipeline s)) + Z.of_nat (length toks)
    /\ m_generation_config (pipeline s') = m_generation_config (pipeline s)
    /\ m_prefill_request (pipeline s') = m_prefill_request (pipeline s)
    /\ tokens (results s') = [row ++ toks]
    /\ bookkeeping (events s')
       = bookkeeping (events s)
         ++ steps (total_size (m_kvcache_desc (pipeline s)))
                  (num_stored_tokens (m_kvcache_desc (pipeline s))) (length toks)
    /\ puts (events s') = puts (events s) ++ delivered streamer toks
    /\ streamed s' = streamed s ++ delivered streamer toks
    /\ (forall i tok, (S i < length toks)%nat -> toks !! i = Some tok ->
          tok <> eos_token_id (m_generation_config (pipeline s))
          /\ put streamer (streamed s ++ delivered streamer (take i toks)) tok = false)
    /\ (o = Returned tt
        \/ o = Undefined (OutOfBounds "attention_mask" 4294967295)
           /\ toks = []
           /\ num_stored_tokens (m_kvcache_desc (pipeline s))
              = total_size (m_kvcache_desc (pipeline s))).
Proof.
  induction n as [|n IH]; intros streamer s o s' row Hready Hrow Hloop.
  - cbn in Hloop. injection Hloop as <- <-. exists [].
    cbn. rewrite !app_nil_r, Z.add_0_r. destruct streamer; cbn; rewrite ?app_nil_r;
      split_ands; auto; intros; lia.
  - cbn [decode_loop] in Hloop.
    destruct (Z.eq_dec (num_stored_tokens (m_kvcache_desc (pipeline s)))
                       (total_size (m_kvcache_desc (pipeline s)))) as [Hfull|Hroom].
    + rewrite loop_body_full in Hloop by done. injection Hloop as <- <-. exists [].
      cbn. rewrite !app_nil_r, Z.add_0_r. destruct streamer; cbn; rewrite ?app_nil_r;
        split_ands; auto; intros; lia.
    + destruct (loop_body_running streamer s Hready) as
        (brk & s1 & Hbody & Hready1 & Htot & Hst & Hcfg & Hpre & Hres & Hstr & Hev & Hbrk).
      { destruct Hready as (_ & _ & _ & _ & ?). lia. }
      rewrite Hbody in Hloop.
      assert (Hrow1 : tokens (results s1) = [row ++ [last_token s1]]).
      { rewrite Hres. unfold push_token. cbn. by rewrite Hrow. }
      assert (Hbk1 : bookkeeping (events s1) = bookkeeping (events s)
                ++ steps (total_size (m_kvcache_desc (pipeline s)))
                         (num_stored_tokens (m_kvcache_desc (pipeline s))) 1).
      { rewrite Hev, !bookkeeping_app, bookkeeping_put_events. cbn. by rewrite ?app_nil_r. }
      assert (Hputs1 : puts (events s1) = puts (events s) ++ delivered streamer [last_token s1]).
      { rewrite Hev, !puts_app, puts_put_events. cbn. by destruct streamer. }
      assert (Hstr1 : streamed s1 = streamed s ++ delivered streamer [last_token s1]).
      { rewrite Hstr, put_log_app. by destruct streamer. }
      destruct brk.
      * injection Hloop as <- <-. exists [last_token s1].
        cbn [length]. split_ands; auto; try lia.
      * destruct (IH streamer s1 o s' _ Hready1 Hrow1 Hloop) as
          (toks & Hlen & Hready' & Htot' & Hst' & Hcfg' & Hpre' & Hres' & Hbk' & Hputs'
           & Hstr' & Hbefore & Hout).
        exists (last_token s1 :: toks). cbn [length].
        symmetry in Hbrk. apply orb_false_elim in Hbrk as [Hbrk Hnotfull].
        apply orb_false_elim in Hbrk as [Hput Heos]. apply Z.eqb_neq in Hnotfull.
        split; [lia|]. split; [done|]. split; [congruence|]. split; [lia|].
        split; [congruence|]. split; [congruence|].
        split; [by rewrite Hres', <- app_assoc|].
        split.
        { rewrite Hbk', Hbk1, <- app_assoc, Htot, Hst. done. }
        split.
        { rewrite Hputs', Hputs1, <- app_assoc. by destruct streamer. }
        split.
        { rewrite Hstr', Hstr1, <- app_assoc. by destruct streamer. }
        split; [|destruct Hout as [->|(_ & _ & Hfull)]; [by left|lia]].
        intros [|i] tok Hi Hlook.
        -- cbn in Hlook. injection Hlook as <-.
           split; [by apply Z.eqb_neq|].
           replace (delivered streamer (take 0 (last_token s1 :: toks))) with (@nil Z)
             by (by destruct streamer).
           by rewrite app_nil_r.
        -- cbn in Hlook. destruct (Hbefore i tok ltac:(lia) Hlook) as [Hne Hnp].
           split; [congruence|].
           rewrite Hstr1 in Hnp. rewrite <- app_assoc in Hnp.
           by destruct streamer.
Qed.

Lemma well_formed_iff p :
  well_formed p = true <->
  0 < total_size (m_kvcache_desc p) < 2 ^ 31
  /\ get_size (input_ids (m_prefill_request p)) = total_size (m_kvcache_desc p)
  /\ get_size (attention_mask (m_prefill_request p)) = total_size (m_kvcache_desc p)
  /\ get_size (position_ids (m_prefill_request p)) = total_size (m_kvcache_desc p)
  /\ get_size (input_ids (m_kvcache_request p)) = 1
  /\ get_size (position_ids (m_kvcache_request p)) = 1
  /\ get_size (attention_mask (m_kvcache_request p)) = total_size (m_kvcache_desc p).
Proof.
  unfold well_formed. rewrite !andb_true_iff, !Z.ltb_lt, !Z.eqb_eq. tauto.
Qed.

Lemma get_size_fill tensor v : get_size (fill_tensor tensor v) = get_size tensor.
Proof. unfold fill_tensor. by rewrite get_size_replicate. Qed.

Lemma prepare_well_formed p :
  well_formed p = true -> well_formed (prepare_for_new_conversation p) = true.
Proof.
  rewrite !well_formed_iff. cbn. rewrite !get_size_fill. tauto.
Qed.

(** [copy_with_left_offset] is defined exactly when [orig] fits, and then it
    overwrites the tail of [padded]. *)
Lemma copy_with_left_offset_fits orig padded :
  get_size orig <= get_size padded < 2 ^ 64 ->
  copy_with_left_offset orig padded
  = Returned (take (length padded - length orig) padded ++ orig).
Proof.
  intros H. unfold copy_with_left_offset.
  pose proof (get_size_nonneg orig).
  rewrite u64_small by lia.
  destruct (Z.leb_spec (get_size padded - get_size orig + get_size orig) (get_size padded)); [|lia].
  do 3 f_equal. unfold get_size in *. lia.
Qed.

Lemma copy_with_left_offset_returned orig padded r :
  get_size padded < 2 ^ 64 ->
  copy_with_left_offset orig padded = Returned r ->
  get_size orig <= get_size padded /\ get_size r = get_size padded.
Proof.
  intros Hp. unfold copy_with_left_offset.
  pose proof (get_size_nonneg orig). pose proof (get_size_nonneg padded).
  assert (0 <= u64 (get_size padded - get_size orig)) by (unfold u64; apply Z.mod_pos_bound; lia).
  destruct (Z.leb_spec (u64 (get_size padded - get_size orig) + get_size orig) (get_size padded));
    [|discriminate].
  intros [= <-]. split; [lia|].
  rewrite u64_small by lia.
  unfold get_size in *. rewrite length_app, length_take. lia.
Qed.

Lemma copy_with_left_offset_not_thrown orig padded e :
  copy_with_left_offset orig padded <> Thrown e.
Proof. unfold copy_with_left_offset. by destruct (_ <=? _). Qed.

Lemma iota_returned buf first last value r :
  0 <= first ->
  iota buf first last value = Returned r ->
  get_size r = get_size buf.
Proof.
  intros H0. unfold iota.
  destruct (Z.leb_spec first last); [|discriminate].
  destruct (Z.leb_spec last (get_size buf)); [|discriminate]. cbn.
  intros [= <-]. unfold get_size in *.
  rewrite !length_app, length_take, length_fmap, length_seqZ, length_drop. lia.
Qed.

Lemma iota_not_thrown buf first last value e : iota buf first last value <> Thrown e.
Proof. unfold iota. by destruct (_ && _). Qed.

Lemma pad_prompt_not_thrown ids mask p e : pad_prompt ids mask p <> Thrown e.
Proof.
  unfold pad_prompt.
  destruct (copy_with_left_offset ids _) eqn:E1; cbn; [|by apply copy_with_left_offset_not_thrown in E1|done].
  destruct (copy_with_left_offset mask _) eqn:E2; cbn; [|by apply copy_with_left_offset_not_thrown in E2|done].
  destruct (iota _ _ _ _) eqn:E3; cbn; [done|by apply iota_not_thrown in E3|done].
Qed.

Lemma pad_prompt_returned ids mask p p2 :
  well_formed p = true ->
  pad_prompt ids mask p = Returned p2 ->
  well_formed p2 = true
  /\ m_kvcache_desc p2 = m_kvcache_desc p
  /\ m_kvcache_request p2 = m_kvcache_request p
  /\ m_generation_config p2 = m_generation_config p
  /\ compiled_model (m_prefill_request p2) = compiled_model (m_prefill_request p)
  /\ get_size ids <= total_size (m_kvcache_desc p).
Proof.
  intros Hwf. pose proof Hwf as Hwf'. apply well_formed_iff in Hwf' as (Ht & Hi & Hm & Hp & Hi' & Hp' & Hm').
  unfold pad_prompt.
  destruct (copy_with_left_offset ids _) as [a| |] eqn:E1; cbn; [|done|done].
  destruct (copy_with_left_offset mask _) as [b| |] eqn:E2; cbn; [|done|done].
  destruct (iota _ _ _ _) as [c| |] eqn:E3; cbn; [|done|done].
  intros [= <-].
  apply copy_with_left_offset_returned in E1 as [E1 E1']; [|lia].
  apply copy_with_left_offset_returned in E2 as [E2 E2']; [|lia].
  apply iota_returned in E3; [|unfold u64; apply Z.mod_pos_bound; lia].
  split_ands; try done; [|lia].
  apply well_formed_iff. cbn. split_ands; lia.
Qed.

Lemma bookkeeping_prefill streamer L tok :
  bookkeeping (Infer Prefill :: Stored L :: put_events streamer tok) = [Infer Prefill; Stored L].
Proof. by destruct streamer. Qed.

Lemma puts_prefill streamer L tok :
  puts (Infer Prefill :: Stored L :: put_events streamer tok) = delivered streamer [tok].
Proof. by destruct streamer. Qed.

(** What lines 248-306 do on a padded prompt of [L] tokens. *)
Lemma run_spec config streamer L p o p' evs :
  well_formed p = true ->
  num_stored_tokens (m_kvcache_desc p) = 0 ->
  0 <= L <= total_size (m_kvcache_desc p) ->
  run config streamer L p = (o, p', evs) ->
  exists toks : list Z,
    (length toks <= Z.to_nat (u64 (get_max_new_tokens config L - 1)))%nat
    /\ bookkeeping evs
       = Infer Prefill :: Stored L :: steps (total_size (m_kvcache_desc p)) L (length toks)
    /\ puts evs
       = delivered streamer (argmax (logits (infer (m_prefill_request p))) 0 :: toks)
    /\ total_size (m_kvcache_desc p') = total_size (m_kvcache_desc p)
    /\ num_stored_tokens (m_kvcache_desc p') = L + Z.of_nat (length toks)
    /\ L + Z.of_nat (length toks) <= total_size (m_kvcache_desc p)
    /\ m_generation_config p' = m_generation_config p
    /\ well_formed p' = true
    /\ (forall r, o = Returned r -> tokens r = [toks])
    /\ (put streamer [] (argmax (logits (infer (m_prefill_request p))) 0) = true -> toks = [])
    /\ (forall i tok, (S i < length toks)%nat -> toks !! i = Some tok ->
          tok <> eos_token_id (m_generation_config p)
          /\ put streamer
                (delivered streamer (argmax (logits (infer (m_prefill_request p))) 0 :: take i toks))
                tok = false)
    /\ (forall e, o <> Thrown e)
    /\ (forall f, o = Undefined f ->
          f = OutOfBounds "attention_mask" 4294967295
          /\ toks = [] /\ L = total_size (m_kvcache_desc p)).
Proof.
  intros Hwf Hzero HL. pose proof Hwf as Hwf'.
  apply well_formed_iff in Hwf' as (Ht & Hi & Hm & Hp & Hi' & Hp' & Hm').
  unfold run. rewrite Hzero, Z.add_0_l, (u32_small L) by lia.
  set (first := argmax (logits (infer (m_prefill_request p))) 0).
  destruct (put streamer [] first) eqn:Hput.
  - intros [= <- <- <-]. exists []. cbn [length steps app].
    rewrite bookkeeping_prefill, puts_prefill.
    split_ands; try done; try lia.
    + cbn. lia.
    + by intros r [= <-].
  - set (s0 := mkLoop _ _ _ _ _).
    destruct (decode_loop _ streamer s0) as [o1 s1] eqn:Hloop.
    intros [= <- <- <-].
    assert (Hready : loop_ready (pipeline s0)).
    { unfold loop_ready. cbn. split_ands; lia. }
    destruct (decode_loop_spec _ _ _ _ _ [] Hready eq_refl Hloop) as
      (toks & Hlen & Hready' & Htot' & Hst' & Hcfg' & Hpre' & Hres' & Hbk' & Hputs'
       & Hstr' & Hbefore & Hout).
    cbn [s0 pipeline events streamed m_kvcache_desc total_size num_stored_tokens
         m_generation_config m_prefill_request set_requests app]
      in Htot', Hst', Hcfg', Hpre', Hbk', Hputs', Hstr', Hbefore.
    rewrite bookkeeping_prefill in Hbk'. rewrite puts_prefill in Hputs'.
    exists toks.
    destruct Hready' as (? & ? & ? & ? & ?).
    split_ands; try done; try lia.
    + rewrite Hputs'. by destruct streamer.
    + apply well_formed_iff. rewrite Hpre'. cbn. split_ands; lia.
    + intros r Hr. destruct o1; cbn in Hr; [|done|done]. by injection Hr as <-.
    + intros i tok Hlt Hlook. destruct (Hbefore i tok Hlt Hlook) as [Hne Hnp].
      split; [done|]. by destruct streamer.
    + intros e He. destruct Hout as [->|[-> _]]; done.
    + intros f Hf. destruct Hout as [->|(-> & -> & Hfull)]; [done|].
      injection Hf as <-. cbn in Hfull. done.
Qed.

Lemma fmap_u32_seqZ n : 0 <= n < 2 ^ 32 -> u32 <$> seqZ 0 n = seqZ 0 n.
Proof.
  intros Hn. apply list_eq. intros i. rewrite list_lookup_fmap.
  destruct (seqZ 0 n !! i) as [x|] eqn:Hx; [|done].
  apply lookup_seqZ in Hx as [-> Hi]. cbn. f_equal. apply u32_small. lia.
Qed.

(** Lines 238-246 on a prompt that fits: where the prompt, the mask and the
    position ids end up. *)
Lemma pad_prompt_fits ids mask p :
  well_formed p = true ->
  0 < get_size ids <= total_size (m_kvcache_desc p) ->
  get_size mask <= total_size (m_kvcache_desc p) ->
  pad_prompt ids mask p
  = Returned
      (set_requests p (m_kvcache_desc p)
         (set_inputs (m_prefill_request p)
            (take (length (input_ids (m_prefill_request p)) - length ids)
                  (input_ids (m_prefill_request p)) ++ ids)
            (take (length (attention_mask (m_prefill_request p)) - length mask)
                  (attention_mask (m_prefill_request p)) ++ mask)
            (take (Z.to_nat (total_size (m_kvcache_desc p) - get_size ids + 1))
                  (position_ids (m_prefill_request p))
             ++ seqZ 0 (get_size ids - 1)))
         (m_kvcache_request p)).
Proof.
  intros Hwf HL Hmask.
  apply well_formed_iff in Hwf as (Ht & Hi & Hm & Hp & Hi' & Hp' & Hm').
  unfold pad_prompt.
  rewrite !copy_with_left_offset_fits by lia. cbn [mbind outcome_bind].
  unfold iota. rewrite u64_small by lia. rewrite Hp.
  destruct (Z.leb_spec (total_size (m_kvcache_desc p) - get_size ids + 1)
                       (total_size (m_kvcache_desc p))); [|lia].
  rewrite Z.leb_refl. cbn [andb mbind outcome_bind mret outcome_ret].
  rewrite drop_ge by (unfold get_size in Hp; lia).
  rewrite app_nil_r.
  replace (total_size (m_kvcache_desc p) - (total_size (m_kvcache_desc p) - get_size ids + 1))
    with (get_size ids - 1) by lia.
  rewrite fmap_u32_seqZ by lia. done.
Qed.

(** The three ways a call can go: rejected by a check before anything is
    touched, gone wrong while the prompt is padded, or run. *)
Lemma generate_cases inputs generation_config streamer p o p' evs :
  generate init_attention_mask inputs generation_config streamer p = (o, p', evs) ->
  ((exists e, o = Thrown e) /\ p' = p /\ evs = []
   /\ (passes_checks init_attention_mask inputs generation_config p = false
       \/ total_size (m_kvcache_desc p) < get_size (prompt_of init_attention_mask inputs)))
  \/ (passes_checks init_attention_mask inputs generation_config p = true
      /\ get_size (prompt_of init_attention_mask inputs) <= total_size (m_kvcache_desc p)
      /\ ((exists f, o = Undefined f
                      /\ pad_prompt (prompt_of init_attention_mask inputs)
                                    (mask_of init_attention_mask inputs)
                                    (prepare_for_new_conversation p) = Undefined f)
               /\ evs = [Stored 0]
          \/ exists p2 evs1,
               pad_prompt (prompt_of init_attention_mask inputs)
                          (mask_of init_attention_mask inputs)
                          (prepare_for_new_conversation p) = Returned p2
               /\ run (effective_config p generation_config) streamer
                      (get_size (prompt_of init_attention_mask inputs)) p2 = (o, p', evs1)
               /\ evs = Stored 0 :: evs1)).
Proof.
  unfold generate, passes_checks, prompt_of, mask_of.
  destruct (unpack_inputs init_attention_mask inputs) as [ids mask]. cbn [fst snd].
  destruct (shape ids) as [|b sh]; [intros [= <- <- <-]; left; eauto 6|].
  destruct (Z.ltb_spec 1 b).
  { intros [= <- <- <-]. left. split_ands; eauto. left.
    destruct (Z.leb_spec b 1); [lia|done]. }
  destruct (Z.leb_spec b 1); [|lia]. cbn [andb].
  destruct (validate (effective_config p generation_config)) as [msg|] eqn:Hval;
    [intros [= <- <- <-]; left; eauto 6|].
  destruct (is_greedy_decoding (effective_config p generation_config)) eqn:Hgreedy; cbn [negb];
    [|intros [= <- <- <-]; left; eauto 6].
  destruct (Z.ltb_spec (total_size (m_kvcache_desc p)) (get_size (elems ids)));
    [intros [= <- <- <-]; left; eauto 6|].
  intros Hgen. right.
  split; [done|].
  split; [done|].
  destruct (pad_prompt _ _ _) as [p2|e|f] eqn:Hpad.
  - right. destruct (run _ _ _ p2) as [[o1 p3] evs1] eqn:Hrun.
    injection Hgen as <- <- <-. eauto.
  - by apply pad_prompt_not_thrown in Hpad.
  - left. injection Hgen as <- <- <-. eauto.
Qed.

Lemma stored_values_cons e evs :
  stored_values (e :: evs)
  = match e with Stored n => n :: stored_values evs | _ => stored_values evs end.
Proof. by destruct e. Qed.

Lemma stored_values_bookkeeping evs : stored_values (bookkeeping evs) = stored_values evs.
Proof.
  induction evs as [|e evs IH]; [done|].
  destruct e; cbn [bookkeeping List.filter is_put negb]; fold (bookkeeping evs);
    rewrite ?stored_values_cons, IH; done.
Qed.

Lemma stored_values_steps total L k : stored_values (steps total L k) = seqZ (L + 1) (Z.of_nat k).
Proof.
  revert L. induction k as [|k IH]; intros L; [done|].
  cbn [steps]. rewrite !stored_values_cons, IH, (seqZ_cons (L + 1)) by lia.
  do 2 f_equal; lia.
Qed.

Lemma example_pipeline_well_formed eos : well_formed (example_pipeline eos) = true.
Proof. reflexivity. Qed.

(** A call that the checks let through, on a non-empty prompt that fits,
    pads the prompt and runs. *)
Lemma generate_accepted inputs generation_config streamer p :
  well_formed p = true ->
  passes_checks init_attention_mask inputs generation_config p = true ->
  0 < get_size (prompt_of init_attention_mask inputs) <= total_size (m_kvcache_desc p) ->
  get_size (mask_of init_attention_mask inputs) <= total_size (m_kvcache_desc p) ->
  exists p2,
    pad_prompt (prompt_of init_attention_mask inputs) (mask_of init_attention_mask inputs)
               (prepare_for_new_conversation p) = Returned p2
    /\ well_formed p2 = true
    /\ m_kvcache_desc p2 = mkDesc (total_size (m_kvcache_desc p)) 0
    /\ m_generation_config p2 = m_generation_config p
    /\ generate init_attention_mask inputs generation_config streamer p
       = (let '(o, p3, evs) := run (effective_config p generation_config) streamer
                                   (get_size (prompt_of init_attention_mask inputs)) p2 in
          (o, p3, Stored 0 :: evs)).
Proof.
  intros Hwf Hchk HL Hmask.
  pose proof (pad_prompt_fits (prompt_of init_attention_mask inputs)
                (mask_of init_attention_mask inputs) (prepare_for_new_conversation p)
                (prepare_well_formed p Hwf) HL Hmask) as Hpad.
  eexists. split; [exact Hpad|].
  destruct (pad_prompt_returned _ _ _ _ (prepare_well_formed p Hwf) Hpad)
    as (Hwf2 & Hd2 & _ & Hcfg2 & _).
  split; [done|]. split; [done|]. split; [done|].
  revert Hchk HL Hpad. unfold generate, passes_checks, prompt_of, mask_of.
  destruct (unpack_inputs init_attention_mask inputs) as [ids mask]. cbn [fst snd].
  destruct (shape ids) as [|b sh]; [done|].
  intros [[Hb Hval%bool_decide_eq_true]%andb_true_iff Hgreedy]%andb_true_iff HL Hpad.
  apply Z.leb_le in Hb.
  destruct (Z.ltb_spec 1 b); [lia|]. rewrite Hval, Hgreedy. cbn [negb].
  destruct (Z.ltb_spec (total_size (m_kvcache_desc p)) (get_size (elems ids))); [lia|].
  by rewrite Hpad.
Qed.

(** C3 (amended). Every generation request whose prompt is longer than
    [total_size] fails: [generate] throws, submits no inference (no event at
    all) and leaves the pipeline as it was. For a request that passes the
    checks made before the capacity test (batch size, [validate()], greedy
    decoding) the exception is the capacity error, whose message carries the
    value of [total_size]. *)
Theorem over_capacity_call_is_rejected inputs generation_config streamer p :
  total_size (m_kvcache_desc p) < get_size (prompt_of init_attention_mask inputs) ->
  exists e,
    generate init_attention_mask inputs generation_config streamer p = (Thrown e, p, [])
    /\ (passes_checks init_attention_mask inputs generation_config p = true ->
        e = OvException (String.append "Currently NPU device may only process up to "
                           (String.append (to_string (total_size (m_kvcache_desc p)))
                                          " tokens"))).
Proof.
  unfold generate, passes_checks, prompt_of.
  destruct (unpack_inputs init_attention_mask inputs) as [ids mask]. cbn [fst snd].
  intros HL.
  destruct (shape ids) as [|b sh]; [by eexists|].
  destruct (Z.ltb_spec 1 b).
  { eexists. split; [done|]. destruct (Z.leb_spec b 1); [lia|done]. }
  destruct (validate (effective_config p generation_config)) as [msg|] eqn:Hval.
  { eexists. split; [done|]. rewrite andb_false_r. done. }
  destruct (is_greedy_decoding (effective_config p generation_config)); cbn [negb].
  - destruct (Z.ltb_spec (total_size (m_kvcache_desc p)) (get_size (elems ids))); [|lia].
    eexists. split; [done|]. done.
  - eexists. split; [done|]. rewrite andb_false_r. done.
Qed.

(** What every call that returns has done: the returned list holds one token
    per inference of the generate graph, and the streamer was given the
    token selected from the prefill logits followed by those tokens. *)
Lemma returned_call inputs generation_config streamer p r p' evs :
  well_formed p = true ->
  generate init_attention_mask inputs generation_config streamer p = (Returned r, p', evs) ->
  exists first toks,
    first_token init_attention_mask inputs p = Some first
    /\ tokens r = [toks]
    /\ (length toks
        <= Z.to_nat (u64 (get_max_new_tokens (effective_config p generation_config)
                            (get_size (prompt_of init_attention_mask inputs)) - 1)))%nat
    /\ bookkeeping evs
       = Stored 0 :: Infer Prefill :: Stored (get_size (prompt_of init_attention_mask inputs))
         :: steps (total_size (m_kvcache_desc p))
                  (get_size (prompt_of init_attention_mask inputs)) (length toks)
    /\ puts evs = delivered streamer (first :: toks)
    /\ (put streamer [] first = true -> toks = [])
    /\ (forall i tok, (S i < length toks)%nat -> toks !! i = Some tok ->
          tok <> eos_token_id (m_generation_config p)
          /\ put streamer (delivered streamer (first :: take i toks)) tok = false).
Proof.
  intros Hwf Hgen.
  pose proof (get_size_nonneg (prompt_of init_attention_mask inputs)) as HL0.
  apply generate_cases in Hgen
    as [([e He] & _)|(Hchk & HL & [[(f & Hf & _) _]|(p2 & evs1 & Hpad & Hrun & ->)])];
    [done|done|].
  unfold first_token. rewrite Hpad.
  apply pad_prompt_returned in Hpad as (Hwf2 & Hd2 & _ & Hcfg2 & _);
    [|by apply prepare_well_formed].
  apply run_spec in Hrun
    as (toks & Hlen & Hbk & Hputs & _ & _ & _ & _ & _ & Hres & Hstop & Hbefore & _);
    [|done|by rewrite Hd2|rewrite Hd2; cbn; lia].
  rewrite Hd2 in Hbk. cbn [m_kvcache_desc prepare_for_new_conversation set_requests total_size]
    in Hbk.
  eexists _, toks. split; [done|]. split; [by apply Hres|]. split; [done|].
  split. { change (bookkeeping (Stored 0 :: evs1)) with (Stored 0 :: bookkeeping evs1).
           by rewrite Hbk. }
  split. { change (puts (Stored 0 :: evs1)) with (puts evs1). done. }
  split; [done|].
  intros i tok Hi Hlook. destruct (Hbefore i tok Hi Hlook) as [Hne Hnp].
  by rewrite Hcfg2 in Hne.
Qed.

(** C4 (amended). When the call's effective [eos_token_id] is the pipeline's
    own (no configuration passed, or one that leaves it at -1 or repeats it),
    the decode loop ends with the generate step that selects it: the returned
    list holds one token per generate step, and the eos token can only be its
    last element, where it is kept. A token on which the streamer asks to
    stop is kept as last element in the same way. *)
Theorem eos_token_ends_loop_and_is_returned inputs generation_config streamer p r p' evs :
  well_formed p = true ->
  eos_token_id (effective_config p generation_config) = eos_token_id (m_generation_config p) ->
  generate init_attention_mask inputs generation_config streamer p = (Returned r, p', evs) ->
  exists first toks,
    first_token init_attention_mask inputs p = Some first
    /\ tokens r = [toks]
    /\ bookkeeping evs
       = Stored 0 :: Infer Prefill :: Stored (get_size (prompt_of init_attention_mask inputs))
         :: steps (total_size (m_kvcache_desc p))
                  (get_size (prompt_of init_attention_mask inputs)) (length toks)
    /\ (forall i, toks !! i = Some (eos_token_id (effective_config p generation_config)) ->
          S i = length toks)
    /\ (forall i tok, toks !! i = Some tok ->
          put streamer (delivered streamer (first :: take i toks)) tok = true ->
          S i = length toks).
Proof.
  intros Hwf Heos Hgen.
  destruct (returned_call _ _ _ _ _ _ _ Hwf Hgen)
    as (first & toks & Hfirst & Hres & _ & Hbk & _ & _ & Hbefore).
  exists first, toks. split_ands; try done.
  - intros i Hlook. pose proof (lookup_lt_Some _ _ _ Hlook) as Hlt.
    destruct (decide (S i < length toks)%nat) as [Hi|Hi]; [|lia].
    destruct (Hbefore i _ Hi Hlook) as [Hne _]. congruence.
  - intros i tok Hlook Hstop. pose proof (lookup_lt_Some _ _ _ Hlook) as Hlt.
    destruct (decide (S i < length toks)%nat) as [Hi|Hi]; [|lia].
    destruct (Hbefore i _ Hi Hlook) as [_ Hnp]. congruence.
Qed.

(** C10. The token selected from the prefill logits is handed to the
    streamer and is not put in the returned list: a call that returns gives
    one token per generate step, and its streamer has received the first
    token followed by exactly those. So a call with
    [get_max_new_tokens = 1], and a call whose streamer answers stop on the
    first token, return an empty token list; and such a call does return
    when it passes the checks with a non-empty prompt that fits. *)
Theorem first_token_is_streamed_not_returned inputs generation_config streamer p :
  well_formed p = true ->
  (forall r p' evs,
     generate init_attention_mask inputs generation_config streamer p = (Returned r, p', evs) ->
     exists first toks,
       first_token init_attention_mask inputs p = Some first
       /\ tokens r = [toks]
       /\ bookkeeping evs
          = Stored 0 :: Infer Prefill
            :: Stored (get_size (prompt_of init_attention_mask inputs))
            :: steps (total_size (m_kvcache_desc p))
                     (get_size (prompt_of init_attention_mask inputs)) (length toks)
       /\ puts evs = delivered streamer (first :: toks)
       /\ (get_max_new_tokens (effective_config p generation_config)
                              (get_size (prompt_of init_attention_mask inputs)) = 1
           -> toks = [])
       /\ (put streamer [] first = true -> toks = []))
  /\ (passes_checks init_attention_mask inputs generation_config p = true ->
      0 < get_size (prompt_of init_attention_mask inputs) <= total_size (m_kvcache_desc p) ->
      get_size (mask_of init_attention_mask inputs) <= total_size (m_kvcache_desc p) ->
      exists first,
        first_token init_attention_mask inputs p = Some first
        /\ (get_max_new_tokens (effective_config p generation_config)
                               (get_size (prompt_of init_attention_mask inputs)) = 1
            \/ put streamer [] first = true ->
            exists r p' evs,
              generate init_attention_mask inputs generation_config streamer p
              = (Returned r, p', evs)
              /\ tokens r = [[]]
              /\ puts evs = delivered streamer [first])).
Proof.
  intros Hwf. split.
  - intros r p' evs Hgen.
    destruct (returned_call _ _ _ _ _ _ _ Hwf Hgen)
      as (first & toks & Hfirst & Hres & Hlen & Hbk & Hputs & Hstop & _).
    exists first, toks. split_ands; try done.
    intros Hmax. rewrite Hmax in Hlen. change (Z.to_nat (u64 (1 - 1))) with 0%nat in Hlen.
    destruct toks; [done|cbn in Hlen; lia].
  - intros Hchk HL Hmask.
    destruct (generate_accepted inputs generation_config streamer p Hwf Hchk HL Hmask)
      as (p2 & Hpad & Hwf2 & Hd2 & Hcfg2 & Hgen).
    unfold first_token. rewrite Hpad. eexists. split; [done|].
    intros Hcase.
    destruct (run (effective_config p generation_config) streamer
                  (get_size (prompt_of init_attention_mask inputs)) p2)
      as [[o p3] evs1] eqn:Hrun.
    assert (Ho : exists r, o = Returned r /\ tokens r = [[]]
                 /\ puts evs1 = delivered streamer
                                  [argmax (logits (infer (m_prefill_request p2))) 0]).
    { revert Hrun. unfold run.
      destruct (put streamer [] _) eqn:Hput.
      - intros [= <- <- <-]. eexists. split; [done|]. split; [done|].
        cbn [app]. by rewrite puts_prefill.
      - destruct Hcase as [Hmax|?]; [|done]. rewrite Hmax.
        change (Z.to_nat (u64 (1 - 1))) with 0%nat. cbn [decode_loop].
        intros [= <- <- <-]. eexists. split; [done|]. split; [done|].
        cbn [events app]. by rewrite puts_prefill. }
    destruct Ho as (r & -> & Hres & Hputs).
    exists r, p3, (Stored 0 :: evs1). split; [done|]. split; [done|].
    change (puts (Stored 0 :: evs1)) with (puts evs1). done.
Qed.

End Props.

(** C1 (the code departs from the claim). With a prompt of 1023 tokens the
    stored-token count goes 0, 1023, 1024 and the loop is left by the
    cache-full test of line 302, which sits at the end of an iteration. With
    a prompt of exactly [total_size] = 1024 tokens the count is 1024 right
    after the prefill inference, and nothing tests it before the next
    generate step: the loop is entered, and the step begins by writing
    [attention_mask_data[4294967295]], outside the buffer, on its way to the
    inference and to the increment of lines 286-287, which takes the count
    past [total_size]. *)
Theorem full_cache_is_not_tested_before_a_step :
  let config := Some (example_config 3 (-1) true) in
  let below := generate ones_mask (example_prompt 1023) config None (example_pipeline 2) in
  let full := generate ones_mask (example_prompt 1024) config None (example_pipeline 2) in
  fst (fst below) = Returned (mkResults [[4]] [Fin 0])
  /\ stored_values (snd below) = [0; 1023; 1024]
  /\ stored_values (snd full) = [0; 1024]
  /\ fst (fst full) = Undefined (OutOfBounds "attention_mask" 4294967295)
  /\ bookkeeping (snd full) = [Stored 0; Infer Prefill; Stored 1024].
Proof. vm_compute. done. Qed.

(** C2 (the code departs from the claim). A prompt of exactly [total_size]
    = 1024 tokens passes the capacity check and fills the cache in the
    prefill pass. With [max_new_tokens = 2] the decode loop is entered all
    the same, because the cache-full test of line 302 sits at the end of an
    iteration: the iteration writes [attention_mask_data[1024 - 1024 - 1]],
    which in [uint32_t] arithmetic is index 4294967295 of a buffer of 1024
    elements, on its way to a further inference of the generate graph. *)
Theorem full_prompt_enters_decode_loop :
  let call := generate ones_mask (example_prompt 1024) (Some (example_config 2 (-1) true)) None
                       (example_pipeline 2) in
  fst (fst call) = Undefined (OutOfBounds "attention_mask" 4294967295)
  /\ snd call = [Stored 0; Infer Prefill; Stored 1024]
  /\ num_stored_tokens (m_kvcache_desc (snd (fst call)))
     = total_size (m_kvcache_desc (snd (fst call))).
Proof. vm_compute. done. Qed.

Lemma over_capacity_call_is_rejected_witness :
  let p := example_pipeline 2 in
  let inputs := example_prompt 1025 in
  let config := Some (example_config 5 (-1) true) in
  total_size (m_kvcache_desc p) < get_size (prompt_of ones_mask inputs)
  /\ passes_checks ones_mask inputs config p = true
  /\ generate ones_mask inputs config None p
     = (Thrown (OvException "Currently NPU device may only process up to 1024 tokens"), p, []).
Proof.
  intros p inputs config.
  assert (HL : total_size (m_kvcache_desc p) < get_size (prompt_of ones_mask inputs))
    by (vm_compute; reflexivity).
  assert (Hchk : passes_checks ones_mask inputs config p = true) by reflexivity.
  destruct (over_capacity_call_is_rejected ones_mask inputs config None p HL) as (e & Hgen & He).
  rewrite (He Hchk) in Hgen.
  split; [exact HL|]. split; [exact Hchk|]. exact Hgen.
Defined.

(** C3, as stated, fails: a request whose prompt has 1025 tokens and whose
    configuration is not greedy is turned down by the greedy-decoding check
    of line 220, which comes before the capacity check of line 231. *)
Lemma over_capacity_rejected_by_earlier_check :
  let p := example_pipeline 2 in
  let inputs := example_prompt 1025 in
  let call := generate ones_mask inputs (Some (example_config 5 (-1) false)) None p in
  total_size (m_kvcache_desc p) < get_size (prompt_of ones_mask inputs)
  /\ fst (fst call)
     = Thrown (OvException "Currently only greedy decoding is supported for NPU device")
  /\ fst (fst call) <> Thrown (capacity_error (total_size (m_kvcache_desc p))).
Proof. vm_compute. split; [done|]. split; [done|]. discriminate. Qed.

Lemma eos_token_ends_loop_and_is_returned_witness :
  let p := example_pipeline 5 in
  let call := generate ones_mask (example_prompt 3) None None p in
  well_formed p = true
  /\ eos_token_id (effective_config p None) = eos_token_id (m_generation_config p)
  /\ (exists r, fst (fst call) = Returned r)
  /\ exists toks, (forall r, fst (fst call) = Returned r -> tokens r = [toks])
       /\ forall i, toks !! i = Some 5 -> S i = length toks.
Proof.
  intros p call.
  assert (Hwf : well_formed p = true) by reflexivity.
  assert (Heos : eos_token_id (effective_config p None) = eos_token_id (m_generation_config p))
    by reflexivity.
  assert (Hcall : call = (Returned (mkResults [[4; 5]] [Fin 0]), snd (fst call), snd call))
    by (vm_compute; reflexivity).
  destruct (eos_token_ends_loop_and_is_returned ones_mask (example_prompt 3) None None p
              _ _ _ Hwf Heos Hcall) as (first & toks & _ & Hres & _ & Hlast & _).
  split; [exact Hwf|]. split; [exact Heos|].
  split; [exists (mkResults [[4; 5]] [Fin 0]); by rewrite Hcall|].
  exists toks. split; [|exact Hlast].
  intros r Hr. rewrite Hcall in Hr. cbn in Hr. by injection Hr as <-.
Defined.

(** C4, as stated, fails: with the pipeline's own [eos_token_id] = 5 and no
    per-call configuration, the second generate step selects token 5, the
    loop stops, and the returned list ends with that token. *)
Lemma eos_token_is_returned :
  let p := example_pipeline 5 in
  let call := generate ones_mask (example_prompt 3) None None p in
  eos_token_id (effective_config p None) = 5
  /\ fst (fst call) = Returned (mkResults [[4; 5]] [Fin 0])
  /\ bookkeeping (snd call)
     = [Stored 0; Infer Prefill; Stored 3;
        MaskWrite 1020; Infer Kvcache; Stored 4;
        MaskWrite 1019; Infer Kvcache; Stored 5].
Proof. vm_compute. done. Qed.

(** C5 (the code departs from the claim). With [max_new_tokens = 5] and a
    streamer that asks to stop on the third token it is given, the streamer
    receives three tokens (7 from the prefill, then 4 and 5), but the
    returned list holds two: the first token is never appended. *)
Theorem stop_on_third_token_returns_two :
  let call := generate ones_mask (example_prompt 3) (Some (example_config 5 (-1) true))
                       (stop_at 3) (example_pipeline 2) in
  fst (fst call) = Returned (mkResults [[4; 5]] [Fin 0])
  /\ puts (snd call) = [7; 4; 5].
Proof. vm_compute. done. Qed.

(** C6 (the code departs from the claim). For a prompt of 3 tokens the last
    three slots of the position-id buffer hold 0, 0, 1 and not 0, 1, 2:
    [std::iota] starts at slot [total_size - prompt_len + 1], one slot to
    the right of where the prompt starts, so that only [prompt_len - 1]
    values are written. The prompt and the mask themselves start at slot
    [total_size - prompt_len]. *)
Theorem position_ids_start_one_slot_late :
  let call := generate ones_mask (example_prompt 3) (Some (example_config 1 (-1) true)) None
                       (example_pipeline 2) in
  let prefill := m_prefill_request (snd (fst call)) in
  drop 1020 (position_ids prefill) = [0; 0; 0; 1]
  /\ drop 1020 (attention_mask prefill) = [0; 1; 1; 1]
  /\ drop 1020 (input_ids prefill) = [0; 5; 5; 5]
  /\ take 1020 (position_ids prefill) = replicate 1020 0.
Proof. vm_compute. done. Qed.

Lemma first_token_is_streamed_not_returned_witness :
  let p := example_pipeline 2 in
  let inputs := example_prompt 3 in
  let config := Some (example_config 1 (-1) true) in
  well_formed p = true
  /\ exists r p' evs,
       generate ones_mask inputs config (stop_at 9) p = (Returned r, p', evs)
       /\ tokens r = [[]]
       /\ puts evs = [7].
Proof.
  intros p inputs config.
  assert (Hwf : well_formed p = true) by reflexivity.
  destruct (first_token_is_streamed_not_returned ones_mask inputs config (stop_at 9) p Hwf)
    as [_ Hlive].
  destruct Hlive as (first & Hfirst & Hempty);
    [reflexivity | vm_compute; split; [reflexivity|discriminate] | vm_compute; discriminate |].
  assert (first = 7) as -> by (vm_compute in Hfirst; congruence).
  destruct Hempty as (r & p' & evs & Hgen & Hres & Hputs); [by left|].
  split; [exact Hwf|]. by exists r, p', evs.
Defined.

End NPUProps.

(** * Properties of the Whisper pipeline *)

Module WhisperProps.
Import Whisper.

(** ** Suppression and argmax *)

Lemma poke_returned {A : Type} name (buf : list A) idx v buf' :
  poke name buf idx v = Returned buf' ->
  0 <= idx < get_size buf /\ buf' = <[Z.to_nat idx := v]> buf.
Proof.
  unfold poke. destruct (Z.leb_spec 0 idx); [|done].
  destruct (Z.ltb_spec idx (get_size buf)); [|done]. cbn. intros [= <-]. split; [lia|done].
Qed.

(** What the loop of [suppress_tokens] leaves in the buffer. *)
Lemma suppress_loop_returned toks : forall d offset d',
  suppress_loop d offset toks = Returned d' ->
  length d' = length d
  /\ (forall tok, tok ∈ toks ->
        0 <= offset + tok < get_size d /\ d' !! Z.to_nat (offset + tok) = Some NInf)
  /\ (forall j, (forall tok, tok ∈ toks -> j <> Z.to_nat (offset + tok)) -> d' !! j = d !! j).
Proof.
  induction toks as [|t toks IH]; intros d offset d'; cbn [suppress_loop].
  - intros [= <-]. split; [done|]. split; [|done]. intros tok Htok. by apply elem_of_nil in Htok.
  - destruct (poke "logits_data" d (offset + t) NInf) as [d1| |] eqn:Hpoke; cbn; [|done|done].
    apply poke_returned in Hpoke as [Hin ->]. intros Hrest.
    destruct (IH _ _ _ Hrest) as (Hlen & Hsup & Hother).
    rewrite length_insert in Hlen. unfold get_size in Hsup, Hin. rewrite length_insert in Hsup.
    split; [done|]. split.
    + intros tok [->|Htok]%elem_of_cons; [|by apply Hsup].
      split; [done|].
      destruct (decide (t ∈ toks)) as [Ht|Ht]; [by apply Hsup|].
      rewrite Hother.
      * apply list_lookup_insert_eq. lia.
      * intros tok Htok Heq. destruct (Hsup tok Htok) as [? _].
        assert (tok = t) as -> by lia. done.
    + intros j Hj. rewrite Hother.
      * apply list_lookup_insert_ne. intros <-.
        apply (Hj t); [apply elem_of_cons; by left|done].
      * intros tok Htok. apply Hj, elem_of_cons. by right.
Qed.

Lemma suppress_loop_again toks : forall d offset,
  (forall tok, tok ∈ toks ->
     0 <= offset + tok < get_size d /\ d !! Z.to_nat (offset + tok) = Some NInf) ->
  suppress_loop d offset toks = Returned d.
Proof.
  induction toks as [|t toks IH]; intros d offset Hsup; cbn [suppress_loop]; [done|].
  destruct (Hsup t) as [Hin Hlook]; [by apply elem_of_cons; left|].
  rewrite poke_in_range by done. cbn. rewrite list_insert_id by done.
  apply IH. intros tok Htok. apply Hsup, elem_of_cons. by right.
Qed.

(** Nothing is below negative infinity. *)
Lemma f32_lt_NInf_r x : f32_lt x NInf = false.
Proof. by destruct x. Qed.

Lemma max_scan_all_NInf l : forall best_i best i,
  Forall (fun x => x = NInf) l -> max_scan best_i best i l = best_i.
Proof.
  induction l as [|x l IH]; intros best_i best i Hall; [done|].
  apply Forall_cons in Hall as [-> Hall]. cbn. rewrite f32_lt_NInf_r. by apply IH.
Qed.

Lemma max_scan_survivor l1 : forall l2 x best_i i,
  Forall (fun y => y = NInf) l1 -> Forall (fun y => y = NInf) l2 ->
  f32_lt NInf x = true ->
  max_scan best_i NInf i (l1 ++ x :: l2) = (i + length l1)%nat.
Proof.
  induction l1 as [|y l1 IH]; intros l2 x best_i i H1 H2 Hx.
  - cbn [app max_scan length]. rewrite Hx, max_scan_all_NInf by done. lia.
  - apply Forall_cons in H1 as [-> H1]. cbn [app max_scan]. rewrite f32_lt_NInf_r.
    rewrite IH by done. cbn [length]. lia.
Qed.

(** [max_element] of a row in which every entry but the [k]-th is negative
    infinity. *)
Lemma max_element_survivor (row : list f32) (k : nat) x :
  row !! k = Some x ->
  (forall j, j <> k -> (j < length row)%nat -> row !! j = Some NInf) ->
  f32_lt NInf x = true \/ k = 0%nat ->
  max_element row = k.
Proof.
  intros Hk Hothers Hx.
  destruct row as [|y rest]; [done|]. cbn [max_element].
  assert (Hrest : forall j, S j <> k -> (j < length rest)%nat -> rest !! j = Some NInf).
  { intros j Hj Hlt. apply (Hothers (S j)); [done|cbn; lia]. }
  destruct k as [|k].
  - injection Hk as ->. apply max_scan_all_NInf.
    apply Forall_lookup. intros j z Hz.
    rewrite Hrest in Hz; [congruence|lia|by apply lookup_lt_Some in Hz].
  - destruct Hx as [Hx|]; [|done].
    change (rest !! k = Some x) in Hk.
    assert (y = NInf) as ->.
    { specialize (Hothers 0%nat ltac:(lia) ltac:(cbn; lia)). by injection Hothers. }
    pose proof (lookup_lt_Some _ _ _ Hk) as Hklt.
    rewrite <- (take_drop_middle rest k x Hk).
    rewrite max_scan_survivor; [| | |done].
    + rewrite length_take. lia.
    + apply Forall_lookup. intros j z Hz.
      pose proof (lookup_lt_Some _ _ _ Hz) as Hlt. rewrite length_take in Hlt.
      rewrite lookup_take_lt in Hz by lia.
      rewrite Hrest in Hz; [congruence|lia|lia].
    + apply Forall_lookup. intros j z Hz.
      rewrite lookup_drop in Hz.
      pose proof (lookup_lt_Some _ _ _ Hz) as Hlt.
      rewrite Hrest in Hz; [congruence|lia|lia].
Qed.

Lemma row_offset_nonneg t batch_idx : 0 <= row_offset t batch_idx.
Proof.
  unfold row_offset, u64.
  pose proof (Z.mod_pos_bound (batch_idx * seq_len t mod 2 ^ 64 * vocab_size t) (2 ^ 64)).
  pose proof (Z.mod_pos_bound ((seq_len t - 1) * vocab_size t) (2 ^ 64)). lia.
Qed.

(** C9 (amended). Suppression is idempotent: when [suppress_tokens] returns,
    a second application returns the same tensor, in which every suppressed
    entry is negative infinity and every other entry is unchanged (so an
    entry that was negative infinity before stays so). And when all indices
    of the vocabulary but [k] are suppressed, [argmax] returns [k], provided
    the entry left at [k] is a number above negative infinity (neither
    negative infinity nor NaN), or [k] is the first index. *)
Theorem suppression_is_idempotent logits batch_idx toks logits' :
  suppress_tokens logits batch_idx toks = Returned logits' ->
  suppress_tokens logits' batch_idx toks = Returned logits'
  /\ (batch logits', seq_len logits', vocab_size logits')
     = (batch logits, seq_len logits, vocab_size logits)
  /\ length (data logits') = length (data logits)
  /\ (forall tok, tok ∈ toks ->
        data logits' !! Z.to_nat (row_offset logits batch_idx + tok) = Some NInf)
  /\ (forall j, (forall tok, tok ∈ toks -> j <> Z.to_nat (row_offset logits batch_idx + tok)) ->
        data logits' !! j = data logits !! j)
  /\ (forall k x,
        0 <= k < vocab_size logits ->
        (forall tok, tok ∈ toks -> 0 <= tok < vocab_size logits /\ tok <> k) ->
        (forall v, 0 <= v < vocab_size logits -> v <> k -> v ∈ toks) ->
        data logits !! Z.to_nat (row_offset logits batch_idx + k) = Some x ->
        f32_lt NInf x = true \/ k = 0 ->
        argmax logits' batch_idx = k).
Proof.
  unfold suppress_tokens.
  destruct (Z.ltb_spec (batch logits) batch_idx) as [|Hb]; [done|].
  destruct (suppress_loop _ _ _) as [d'| |] eqn:Hloop; cbn; [|done|done].
  intros [= <-]. cbn [batch seq_len vocab_size data].
  destruct (suppress_loop_returned _ _ _ _ Hloop) as (Hlen & Hsup & Hother).
  change (row_offset (mkLogits (batch logits) (seq_len logits) (vocab_size logits) d') batch_idx)
    with (row_offset logits batch_idx).
  set (off := row_offset logits batch_idx) in *.
  pose proof (row_offset_nonneg logits batch_idx) as Hoff. fold off in Hoff.
  split.
  { destruct (Z.ltb_spec (batch logits) batch_idx); [lia|].
    rewrite suppress_loop_again; [done|].
    intros tok Htok. destruct (Hsup tok Htok) as [Hin Hlook].
    split; [|done]. unfold get_size in *. lia. }
  split; [done|]. split; [done|].
  split; [intros tok Htok; by apply Hsup|]. split; [done|].
  intros k x Hk Htoks Hall Hx Hpos.
  unfold argmax. cbn [vocab_size data].
  change (row_offset (mkLogits (batch logits) (seq_len logits) (vocab_size logits) d') batch_idx)
    with off.
  set (row := take (Z.to_nat (vocab_size logits)) (drop (Z.to_nat off) d')).
  assert (Hrow : forall j, (j < Z.to_nat (vocab_size logits))%nat ->
                   row !! j = d' !! Z.to_nat (off + Z.of_nat j)).
  { intros j Hj. unfold row. rewrite lookup_take_lt, lookup_drop by done. f_equal. lia. }
  rewrite (max_element_survivor row (Z.to_nat k) x); [lia| | |].
  - rewrite Hrow, Z2Nat.id by lia. rewrite Hother; [done|].
    intros tok Htok Heq. destruct (Htoks tok Htok). lia.
  - intros j Hj Hlt. unfold row in Hlt. rewrite length_take in Hlt.
    rewrite Hrow by lia. apply Hsup, Hall; lia.
  - destruct Hpos as [?| ->]; [by left|by right].
Qed.

Lemma suppression_is_idempotent_witness :
  let logits := mkLogits 1 1 4 [Fin 5; Fin (-3); Fin 9; NInf] in
  let logits' := mkLogits 1 1 4 [NInf; Fin (-3); NInf; NInf] in
  suppress_tokens logits 0 [0; 2; 3; 2] = Returned logits'
  /\ suppress_tokens logits' 0 [0; 2; 3; 2] = Returned logits'
  /\ argmax logits' 0 = 1.
Proof.
  intros logits logits'.
  assert (Hret : suppress_tokens logits 0 [0; 2; 3; 2] = Returned logits') by reflexivity.
  destruct (suppression_is_idempotent logits 0 [0; 2; 3; 2] logits' Hret)
    as (Hagain & _ & _ & _ & _ & Hargmax).
  split; [exact Hret|]. split; [exact Hagain|].
  apply (Hargmax 1 (Fin (-3))).
  - vm_compute. split; [discriminate|reflexivity].
  - intros tok Htok. unfold logits. cbn [vocab_size].
    repeat (apply elem_of_cons in Htok as [->|Htok]); try lia.
    inversion Htok.
  - intros v Hv Hne.
    assert (v = 0 \/ v = 2 \/ v = 3) as [->|[->| ->]] by (unfold logits in Hv; cbn in Hv; lia);
      rewrite !elem_of_cons; lia.
  - vm_compute. reflexivity.
  - left. reflexivity.
Defined.

(** C9, as stated, fails: with index 0 suppressed, index 1 is the only one
    left, but its logit is negative infinity already; the scan keeps the
    first of the two equal entries and [argmax] returns 0. *)
Lemma argmax_misses_survivor_at_negative_infinity :
  let logits := mkLogits 1 1 2 [Fin 3; NInf] in
  let logits' := mkLogits 1 1 2 [NInf; NInf] in
  suppress_tokens logits 0 [0] = Returned logits'
  /\ argmax logits' 0 = 0
  /\ argmax logits' 0 <> 1.
Proof. vm_compute. split; [reflexivity|]. split; [reflexivity|discriminate]. Qed.

(** ** Events of the cache bridge and of the chunk loop *)

Section Bridge.
Context {Slab : Type} (array_data_bin : list f32).

Local Abbreviation M := (Whisper.M Slab).
Local Abbreviation emits := (@Whisper.emits Slab _).
Local Abbreviation frame_spec := (@Whisper.frame_spec Slab).

Lemma bind_inv {A B : Type} (m : M A) (k : A -> M B) w o w' evs :
  (m ≫= k) w = (o, w', evs) ->
  (exists a w1 e1 e2, m w = (Returned a, w1, e1) /\ k a w1 = (o, w', e2) /\ evs = e1 ++ e2)
  \/ (~ is_returned (fst (fst (m w))) /\ ~ is_returned o /\ snd (fst (m w)) = w' /\ snd (m w) = evs).
Proof.
  unfold mbind, M_bind.
  destruct (m w) as [[[a|e|f] w1] e1]; cbn.
  - destruct (k a w1) as [[o2 w2] e2] eqn:Hk. intros [= <- <- <-]. left.
    by exists a, w1, e1, e2.
  - intros [= <- <- <-]. right. split_ands; auto.
  - intros [= <- <- <-]. right. split_ands; auto.
Qed.

Lemma bind_run {A B : Type} (m : M A) (k : A -> M B) w :
  (m ≫= k) w
  = match m w with
    | (Returned a, w', evs) => let '(o, w'', evs') := k a w' in (o, w'', evs ++ evs')
    | (Thrown e, w', evs) => (Thrown e, w', evs)
    | (Undefined f, w', evs) => (Undefined f, w', evs)
    end.
Proof. reflexivity. Qed.

Lemma emits_bind {A B : Type} (m : M A) (k : A -> M B) s1 s2 :
  emits m s1 -> (forall a, emits (k a) s2) -> emits (m ≫= k) (s1 ++ s2).
Proof.
  intros Hm Hk w. destruct (Hm w) as (Hs & Hpre & Hret).
  unfold mbind, M_bind.
  destruct (m w) as [[[a|e|f] w1] e1]; cbn in *.
  - destruct (Hk a w1) as (Hs2 & Hpre2 & Hret2).
    destruct (k a w1) as [[o2 w2] e2]; cbn in *.
    rewrite Hret by done. split; [congruence|]. split.
    + by apply prefix_app.
    + intros Ho. by rewrite Hret2.
  - split; [done|]. split; [by apply prefix_app_r|done].
  - split; [done|]. split; [by apply prefix_app_r|done].
Qed.

Lemma emits_bind_silent {A B : Type} (m : M A) (k : A -> M B) s :
  emits m [] -> (forall a, emits (k a) s) -> emits (m ≫= k) s.
Proof. intros Hm Hk. by apply (emits_bind m k [] s). Qed.

Lemma emits_bind_then_silent {A B : Type} (m : M A) (k : A -> M B) s :
  emits m s -> (forall a, emits (k a) []) -> emits (m ≫= k) s.
Proof. intros Hm Hk. rewrite <- (app_nil_r s). by apply emits_bind. Qed.

Lemma emits_ret {A : Type} (a : A) : emits (mret a : M A) [].
Proof. intros w. cbn. done. Qed.

Lemma emits_lift {A : Type} (o : Outcome A) : emits (lift o : M A) [].
Proof. intros w. cbn. done. Qed.

Lemma emits_raise {A : Type} e : emits (raise e : M A) [].
Proof. apply emits_lift. Qed.

Lemma emits_emit e : emits (emit e : M unit) [e].
Proof. intros w. cbn. done. Qed.

Lemma emits_tensors_of id : emits (tensors_of id : M _) [].
Proof. intros w. cbn. done. Qed.

Lemma emits_outputs_of id : emits (outputs_of id : M _) [].
Proof. intros w. cbn. done. Qed.

Lemma emits_bind_tensors id t : emits (bind_tensors id t : M _) [].
Proof. intros w. cbn. done. Qed.

Lemma emits_infer id : emits (infer id : M _) [Infer id].
Proof. intros w. cbn. done. Qed.

Lemma emits_get_key_value id name : emits (get_key_value id name) [].
Proof.
  unfold get_key_value. apply emits_bind_silent; [apply emits_tensors_of|].
  intros t. destruct (key_values t !! name); [apply emits_ret|apply emits_raise].
Qed.

Lemma emits_set_key_value id name kv : emits (set_key_value id name kv) [].
Proof.
  unfold set_key_value. apply emits_bind_silent; [apply emits_tensors_of|].
  intros t. apply emits_bind_tensors.
Qed.

Lemma emits_set_logits id lg : emits (set_logits id lg) [].
Proof.
  unfold set_logits. apply emits_bind_silent; [apply emits_tensors_of|].
  intros t. apply emits_bind_tensors.
Qed.

Ltac silent_step :=
  first
    [ apply emits_ret | apply emits_lift | apply emits_raise | apply emits_tensors_of
    | apply emits_outputs_of | apply emits_bind_tensors | apply emits_get_key_value
    | apply emits_set_key_value | apply emits_set_logits ].

Ltac silent :=
  repeat first
    [ silent_step
    | apply emits_bind_silent; [solve [silent]|intros ?]
    | match goal with |- emits (if ?b then _ else _) _ => destruct b end
    | match goal with |- emits (match ?x with _ => _ end) _ => destruct x end ].

Lemma emits_copy_cross_attn_loop names source dest :
  emits (copy_cross_attn_loop names source dest) [].
Proof.
  induction names as [|name names IH]; cbn [copy_cross_attn_loop]; [apply emits_ret|].
  apply emits_bind_silent; [destruct (contains _ _); silent|intros _; exact IH].
Qed.

Lemma emits_copy_cross_attn_key_value source dest :
  emits (copy_cross_attn_key_value source dest) [CopyCrossAttn].
Proof.
  unfold copy_cross_attn_key_value.
  apply emits_bind_then_silent; [apply emits_emit|]. intros _.
  silent. apply emits_copy_cross_attn_loop.
Qed.

Lemma emits_update_past_loop names source dest kv_pos :
  emits (update_past_loop names source dest kv_pos) [].
Proof.
  induction names as [|name names IH]; cbn [update_past_loop]; [apply emits_ret|].
  apply emits_bind_silent; [destruct (contains _ _); silent|intros _; exact IH].
Qed.

Lemma emits_update_past_key_value source dest kv_pos :
  emits (update_past_key_value source dest kv_pos) [UpdatePast kv_pos].
Proof.
  unfold update_past_key_value.
  apply emits_bind_then_silent; [apply emits_emit|]. intros _.
  silent. apply emits_update_past_loop.
Qed.

Lemma emits_encode mel feature_size nb_max_frames :
  emits (encode mel feature_size nb_max_frames) [Infer Encoder].
Proof.
  unfold encode. destruct (_ =? _).
  - silent. apply emits_bind_then_silent; [apply emits_infer|]. intros _. silent.
  - intros w. cbn. split; [done|]. split; [apply prefix_nil|done].
Qed.

Lemma emits_decode hidden ids config do_suppress :
  emits (decode array_data_bin hidden ids config do_suppress) [Infer Decoder].
Proof.
  unfold decode. silent.
  apply emits_bind_then_silent; [apply emits_infer|]. intros _. silent.
Qed.

Lemma emits_decode_with_past input_id position_id config :
  emits (decode_with_past input_id position_id config) [Infer DecoderWithPast].
Proof.
  unfold decode_with_past. silent.
  apply emits_bind_then_silent; [apply emits_infer|]. intros _. silent.
Qed.

Lemma emits_prepare_decoder_with_past :
  emits (prepare_decoder_with_past (Slab := Slab)) [CopyCrossAttn; UpdatePast 0].
Proof.
  unfold prepare_decoder_with_past. silent.
  apply (emits_bind _ _ [CopyCrossAttn] [UpdatePast 0]);
    [apply emits_copy_cross_attn_key_value|].
  intros _. apply emits_update_past_key_value.
Qed.

(** *** Computations that do not return *)

Lemma bind_stuck {A B : Type} (m : M A) (k : A -> M B) w :
  (forall a w1, ~ is_returned (fst (fst (k a w1)))) ->
  ~ is_returned (fst (fst ((m ≫= k) w))).
Proof.
  intros Hk. rewrite bind_run.
  destruct (m w) as [[[a|e|f] w1] e1]; cbn; [|tauto|tauto].
  specialize (Hk a w1). by destruct (k a w1) as [[o2 w2] e2].
Qed.

Lemma bind_stuck_l {A B : Type} (m : M A) (k : A -> M B) w :
  ~ is_returned (fst (fst (m w))) -> ~ is_returned (fst (fst ((m ≫= k) w))).
Proof.
  intros Hm. rewrite bind_run.
  destruct (m w) as [[[a|e|f] w1] e1]; cbn in *; tauto.
Qed.

(** [decode_with_past] does not return: whatever happens before, line 281
    throws ahead of the [return] of line 282. *)
Lemma decode_with_past_stuck input_id position_id config (w : World Slab) :
  ~ is_returned (fst (fst (decode_with_past input_id position_id config w))).
Proof.
  unfold decode_with_past.
  repeat first [ apply bind_stuck_l; cbn; tauto | apply bind_stuck; intros ? ? ].
Qed.

(** So an iteration of the loop of [full_decode] does not get past its
    first statement. *)
Lemma full_decode_loop_stuck config streamer n i output_tokens (w : World Slab) :
  ~ is_returned (fst (fst (full_decode_loop (S n) i config streamer output_tokens w))).
Proof. cbn [full_decode_loop]. apply bind_stuck_l, decode_with_past_stuck. Qed.

(** *** Lists of events *)

Lemma bookkeeping_events_app evs evs' : bookkeeping (evs ++ evs') = bookkeeping evs ++ bookkeeping evs'.
Proof. apply List.filter_app. Qed.

Lemma puts_events_app evs evs' : puts (evs ++ evs') = puts evs ++ puts evs'.
Proof. apply omap_app. Qed.

Lemma stopped_app sink evs : forall s evs',
  stopped sink s (evs ++ evs') = stopped sink s evs || stopped sink (s ++ puts evs) evs'.
Proof.
  induction evs as [|e evs IH]; intros s evs'.
  - cbn. by rewrite app_nil_r.
  - destruct e; cbn [app stopped]; rewrite IH; try done.
    rewrite orb_assoc. do 2 f_equal. cbn. by rewrite <- app_assoc.
Qed.

Lemma ends_at_stop_app sink evs : forall s evs',
  ends_at_stop sink s evs ->
  (stopped sink s evs = true -> evs' = []) ->
  (stopped sink s evs = false -> ends_at_stop sink (s ++ puts evs) evs') ->
  ends_at_stop sink s (evs ++ evs').
Proof.
  induction evs as [|e evs IH]; intros s evs' Hends Hstop Hcont.
  - cbn in *. rewrite app_nil_r in Hcont. by apply Hcont.
  - destruct e; cbn [app ends_at_stop stopped] in *; try (by apply IH).
    destruct (sink (s ++ [tok])) eqn:Hsink.
    + subst evs. cbn. by apply Hstop.
    + apply IH; [done|done|]. intros Hns. specialize (Hcont Hns).
      replace ((s ++ [tok]) ++ puts evs) with (s ++ puts (Put tok :: evs)); [done|].
      cbn. by rewrite <- app_assoc.
Qed.

Lemma cons_quiet sink s e evs :
  is_put e = false ->
  puts (e :: evs) = puts evs
  /\ bookkeeping (e :: evs) = e :: bookkeeping evs
  /\ stopped sink s (e :: evs) = stopped sink s evs
  /\ (ends_at_stop sink s (e :: evs) <-> ends_at_stop sink s evs).
Proof. by destruct e. Qed.

Lemma quiet_facts sink s evs :
  quiet evs ->
  puts evs = [] /\ bookkeeping evs = evs /\ stopped sink s evs = false
  /\ ends_at_stop sink s evs.
Proof.
  induction 1 as [|e evs He Hq (IH1 & IH2 & IH3 & IH4)]; [done|].
  destruct e; cbn in He; try discriminate;
    (split; [exact IH1|]; split; [cbn; fold (bookkeeping evs); by rewrite IH2|]; done).
Qed.

Lemma quiet_prefix evs shape : evs `prefix_of` shape -> quiet shape -> quiet evs.
Proof. intros [k ->] Hq. by apply Forall_app in Hq as [? _]. Qed.

(** *** Frame-level computations *)

Lemma emits_returned {A : Type} (m : M A) s w a w1 e1 :
  emits m s -> m w = (Returned a, w1, e1) -> streamed w1 = streamed w /\ e1 = s.
Proof.
  intros Hm Hw. destruct (Hm w) as (Hs & _ & Hret). rewrite Hw in Hs, Hret.
  split; [exact Hs|by apply Hret].
Qed.

(** A computation that leaves the streamer alone, put in front. *)
Lemma frame_spec_bind_emits {A : Type} sink (m : M A) (k : A -> M (bool * list Z)%type)
    s shape :
  emits m s -> quiet s -> (forall a, frame_spec sink (k a) shape) ->
  frame_spec sink (m ≫= k) (s ++ shape).
Proof.
  intros Hm Hq Hk w. destruct (Hm w) as (Hs & Hpre & Hret).
  unfold mbind, M_bind.
  destruct (m w) as [[[a|e|f] w1] e1]; cbn in Hs, Hpre, Hret |- *.
  - specialize (Hk a w1). rewrite Hret in * by done.
    destruct (quiet_facts sink (streamed w) s Hq) as (Hp & Hb & Hst & Hen).
    destruct (k a w1) as [[o2 w2] e2]; cbn in Hk |- *.
    destruct Hk as (K1 & K2 & K3 & K4 & K5). rewrite Hs in K1, K3, K4, K5.
    unfold frame_run. rewrite puts_events_app, bookkeeping_events_app, stopped_app, Hp, Hb, Hst, app_nil_r.
    cbn [orb app]. split_ands; try done.
    + by apply prefix_app.
    + apply ends_at_stop_app; [done|congruence|]. by rewrite Hp, app_nil_r.
  - pose proof (quiet_prefix _ _ Hpre Hq) as Hq1.
    destruct (quiet_facts sink (streamed w) e1 Hq1) as (Hp & Hb & Hst & Hen).
    unfold frame_run. rewrite Hp, Hb, Hst, app_nil_r. split_ands; try done.
    by apply prefix_app_r.
  - pose proof (quiet_prefix _ _ Hpre Hq) as Hq1.
    destruct (quiet_facts sink (streamed w) e1 Hq1) as (Hp & Hb & Hst & Hen).
    unfold frame_run. rewrite Hp, Hb, Hst, app_nil_r. split_ands; try done.
    by apply prefix_app_r.
Qed.

Lemma frame_spec_ret sink toks shape :
  toks <> [] -> frame_spec sink (mret (false, toks) : M _) shape.
Proof.
  intros Hne w. unfold frame_run. cbn. rewrite app_nil_r. split_ands; try done.
  - apply prefix_nil.
  - by intros c t [= <- <-].
Qed.

(** A delivery to the streamer: on "stop" the frame returns at once with
    the cancelled flag, otherwise it goes on. *)
Lemma frame_spec_put streamer tok (k : bool -> M (bool * list Z)%type) toks shape :
  toks <> [] ->
  k true = mret (true, toks) ->
  frame_spec (sink_of streamer) (k false) shape ->
  frame_spec (sink_of streamer) (put streamer tok ≫= k) shape.
Proof.
  intros Hne Hstop Hgo w. unfold mbind, M_bind, put.
  destruct streamer as [sink|]; cbn [sink_of].
  - cbn. destruct (sink (streamed w ++ [tok])) eqn:Hsink.
    + rewrite Hstop. unfold frame_run. cbn. rewrite Hsink. cbn. split_ands; try done.
      * apply prefix_nil.
      * eauto.
      * by intros c t [= <- <-].
    + specialize (Hgo (mkWorld (models w) (streamed w ++ [tok]))).
      destruct (k false _) as [[o2 w2] e2]; cbn in Hgo |- *.
      destruct Hgo as (K1 & K2 & K3 & K4 & K5).
      unfold frame_run. cbn. rewrite Hsink. cbn.
      change (omap _ e2) with (puts e2). change (List.filter _ e2) with (bookkeeping e2).
      split_ands; try done. by rewrite K1, <- app_assoc.
  - specialize (Hgo w). cbn. destruct (k false w) as [[o2 w2] e2]; cbn in Hgo |- *. done.
Qed.

(** A computation that does not return, put in front: what follows it is
    not reached. *)
Lemma frame_spec_bind_stuck {A : Type} sink (m : M A) (k : A -> M (bool * list Z)%type) s :
  emits m s -> quiet s -> (forall w, ~ is_returned (fst (fst (m w)))) ->
  frame_spec sink (m ≫= k) s.
Proof.
  intros Hm Hq Hstuck w. destruct (Hm w) as (Hs & Hpre & _). specialize (Hstuck w).
  unfold mbind, M_bind.
  destruct (m w) as [[[a|e|f] w1] e1]; cbn in Hs, Hpre, Hstuck |- *; [by destruct Hstuck| |].
  - pose proof (quiet_prefix _ _ Hpre Hq) as Hq1.
    destruct (quiet_facts sink (streamed w) e1 Hq1) as (Hp & Hb & Hst & Hen).
    unfold frame_run. rewrite Hp, Hb, Hst, app_nil_r. split_ands; done.
  - pose proof (quiet_prefix _ _ Hpre Hq) as Hq1.
    destruct (quiet_facts sink (streamed w) e1 Hq1) as (Hp & Hb & Hst & Hen).
    unfold frame_run. rewrite Hp, Hb, Hst, app_nil_r. split_ands; done.
Qed.

Lemma full_decode_loop_spec config streamer n i output_tokens :
  output_tokens <> [] ->
  frame_spec (sink_of streamer)
    (full_decode_loop n i config streamer output_tokens) [Infer DecoderWithPast].
Proof.
  intros Hne. destruct n as [|n]; cbn [full_decode_loop].
  - by apply frame_spec_ret.
  - apply frame_spec_bind_stuck; [apply emits_decode_with_past|by repeat constructor|].
    apply decode_with_past_stuck.
Qed.

Lemma full_decode_spec hidden config max_new_tokens streamer :
  frame_spec (sink_of streamer)
    (full_decode array_data_bin hidden config max_new_tokens streamer) frame_shape.
Proof.
  unfold full_decode, frame_shape.
  apply (frame_spec_bind_emits _ _ _ [Infer Decoder]);
    [apply emits_decode|by repeat constructor|]. intros output_token.
  apply (frame_spec_put _ _ _ [output_token]); [done|done|].
  destruct (max_new_tokens =? 1); [by apply frame_spec_ret|].
  apply (frame_spec_bind_emits _ _ _ [CopyCrossAttn; UpdatePast 0]);
    [apply emits_prepare_decoder_with_past|by repeat constructor|]. intros _.
  by apply full_decode_loop_spec.
Qed.

(** A frame that returns holds one token, that of the first decode: the
    streamer asked to stop on it, or the budget of the frame was one token. *)
Lemma full_decode_returned hidden config max_new_tokens streamer (w : World Slab)
    cancelled toks w' evs :
  1 <= max_new_tokens < 2 ^ 64 ->
  full_decode array_data_bin hidden config max_new_tokens streamer w
  = (Returned (cancelled, toks), w', evs) ->
  exists tok,
    toks = [tok]
    /\ bookkeeping evs = [Infer Decoder]
    /\ puts evs = match streamer with Some _ => [tok] | None => [] end
    /\ (cancelled = true \/ max_new_tokens = 1).
Proof.
  intros Hmax. unfold full_decode. intros Hrun.
  apply bind_inv in Hrun as [(tok & w1 & e1 & e2 & Hdec & Hrest & ->)|(_ & Hno & _)];
    [|by destruct Hno].
  apply (emits_returned _ _ _ _ _ _ (emits_decode _ _ _ _)) in Hdec as [_ ->].
  apply bind_inv in Hrest as [(stop & w2 & e3 & e4 & Hput & Hrest & ->)|(_ & Hno & _)];
    [|by destruct Hno].
  assert (Hput' : e3 = match streamer with Some _ => [Put tok] | None => [] end).
  { destruct streamer; cbn in Hput; by injection Hput as _ _ <-. }
  exists tok.
  destruct stop.
  { injection Hrest as <- <- _ <-. rewrite Hput'. by destruct streamer; auto. }
  destruct (Z.eqb_spec max_new_tokens 1) as [->|Hne].
  { injection Hrest as <- <- _ <-. rewrite Hput'. by destruct streamer; auto. }
  exfalso.
  apply bind_inv in Hrest as [(? & w3 & e5 & e6 & _ & Hloop & _)|(_ & Hno & _)];
    [|by destruct Hno].
  destruct (Z.to_nat (u64 (max_new_tokens - 1))) as [|n] eqn:Hn.
  { rewrite u64_small in Hn by lia. lia. }
  pose proof (full_decode_loop_stuck config streamer n 0 [tok] w3) as Hstuck.
  rewrite Hloop in Hstuck. by apply Hstuck.
Qed.

(** *** The chunk loop *)


Lemma prefix_of_encode e1 :
  e1 `prefix_of` [Infer Encoder] -> quiet e1 /\ e1 `prefix_of` Infer Encoder :: frame_shape.
Proof.
  intros Hpre. split.
  - eapply quiet_prefix; [exact Hpre|]. by repeat constructor.
  - etrans; [exact Hpre|]. apply prefix_cons, prefix_nil.
Qed.

(** Once the budget of tokens is used up the chunk loop is left. *)
Lemma chunk_loop_budget_used fe raw config streamer max_new_tokens fuel chunk_offset
    output_tokens (w : World Slab) :
  max_new_tokens <= get_size output_tokens ->
  chunk_loop array_data_bin fuel fe raw config streamer max_new_tokens chunk_offset
             output_tokens w
  = (Returned output_tokens, w, []).
Proof.
  intros Hmax. destruct fuel as [|fuel]; [done|]. cbn [chunk_loop].
  destruct (negb _); [done|].
  destruct (Z.leb_spec max_new_tokens (get_size output_tokens)); [done|lia].
Qed.

(** The chunk loop decodes one frame at most: a frame that returns has used
    up the budget or was cancelled, and any other frame does not return. *)
Lemma chunk_loop_one_frame fe raw config streamer max_new_tokens fuel chunk_offset output_tokens
    (w : World Slab) :
  max_new_tokens < 2 ^ 64 ->
  let r := chunk_loop array_data_bin fuel fe raw config streamer max_new_tokens
                      chunk_offset output_tokens w in
  let sink := sink_of streamer in
  streamed (snd (fst r)) = streamed w ++ puts (snd r)
  /\ bookkeeping (snd r) `prefix_of` Infer Encoder :: frame_shape
  /\ ends_at_stop sink (streamed w) (snd r)
  /\ (stopped sink (streamed w) (snd r) = true -> is_returned (fst (fst r)))
  /\ (forall toks, fst (fst r) = Returned toks ->
        snd r = [] /\ toks = output_tokens
        /\ (fuel = 0%nat \/ get_size raw <= chunk_offset
            \/ max_new_tokens <= get_size output_tokens)
        \/ exists tok,
             toks = output_tokens ++ [tok]
             /\ bookkeeping (snd r) = [Infer Encoder; Infer Decoder]
             /\ puts (snd r) = match streamer with Some _ => [tok] | None => [] end
             /\ (stopped sink (streamed w) (snd r) = true
                 \/ max_new_tokens = get_size output_tokens + 1)).
Proof.
  intros Hlim. destruct fuel as [|fuel]; cbn zeta.
  { cbn. rewrite app_nil_r. split_ands; try done; [apply prefix_nil|].
    intros toks [= <-]. left. auto. }
  cbn [chunk_loop].
  destruct (Z.ltb_spec chunk_offset (get_size raw)) as [Hoff|Hoff]; cbn [negb]; cycle 1.
  { cbn. rewrite app_nil_r. split_ands; try done; [apply prefix_nil|].
    intros toks [= <-]. left. auto. }
  destruct (Z.leb_spec max_new_tokens (get_size output_tokens)) as [Hmax|Hmax].
  { cbn. rewrite app_nil_r. split_ands; try done; [apply prefix_nil|].
    intros toks [= <-]. left. auto. }
  set (mel := extract fe _).
  pose proof (emits_encode mel (feature_size fe) (nb_max_frames fe) w) as (Es & Epre & Eret).
  rewrite bind_run.
  destruct (encode mel (feature_size fe) (nb_max_frames fe) w) as [[[hidden|e|f] w1] e1];
    cbn [fst snd] in Es, Epre, Eret |- *; cycle 1.
  1, 2: destruct (prefix_of_encode e1 Epre) as [Hq Hsh];
        destruct (quiet_facts (sink_of streamer) (streamed w) e1 Hq) as (Hp & Hb & Hst & Hen);
        rewrite Hp, Hb, Hst, app_nil_r; split_ands; done.
  rewrite Eret by done. clear Eret Epre.
  pose proof (get_size_nonneg output_tokens) as Hsize.
  pose proof (full_decode_spec hidden config (max_new_tokens - get_size output_tokens)
                streamer w1) as (Fs & Fpre & Fend & Fstop & Fret).
  pose proof (full_decode_returned hidden config (max_new_tokens - get_size output_tokens)
                streamer w1) as Fone.
  rewrite Es in Fs, Fend, Fstop, Fret.
  rewrite bind_run.
  destruct (full_decode _ _ _ _ _ w1) as [[[[cancelled chunk_toks]|e|f] w2] e2];
    cbn [fst snd app] in Fs, Fpre, Fend, Fstop, Fret |- *.
  - destruct (Fone cancelled chunk_toks w2 e2) as (tok & -> & Hbk & Hputs & Hwhy);
      [lia|done|].
    destruct (Fret _ _ eq_refl) as [-> Hne].
    destruct (cons_quiet (sink_of streamer) (streamed w) (Infer Encoder) e2 eq_refl)
      as (Cp & Cb & Cs & Ce).
    assert (Hrest : forall o3 w3 e3,
              (if stopped (sink_of streamer) (streamed w) e2
               then mret (output_tokens ++ [tok])
               else chunk_loop array_data_bin fuel fe raw config streamer max_new_tokens
                               (u64 (chunk_offset + n_samples fe)) (output_tokens ++ [tok])) w2
              = (o3, w3, e3) ->
              o3 = Returned (output_tokens ++ [tok]) /\ w3 = w2 /\ e3 = []).
    { intros o3 w3 e3. destruct (stopped _ _ e2) eqn:Hstopped.
      - by intros [= <- <- <-].
      - rewrite chunk_loop_budget_used.
        + by intros [= <- <- <-].
        + destruct Hwhy as [?|Hone]; [done|]. unfold get_size in *. rewrite length_app. cbn. lia. }
    match goal with |- context [(if ?b then ?x else ?y) w2] =>
      destruct ((if b then x else y) w2) as [[o3 w3] e3] eqn:Hlast end.
    destruct (Hrest _ _ _ eq_refl) as (-> & -> & ->). clear Hlast Hrest.
    cbn [fst snd app]. rewrite app_nil_r, Cp, Cb, Cs, Ce, Hbk.
    split_ands; try done.
    + do 2 apply prefix_cons. apply prefix_nil.
    + intros toks [= <-]. right. exists tok. split_ands; try done.
      destruct Hwhy as [Hc|Hone]; [left; by rewrite <- Hc|right; lia].
  - destruct (cons_quiet (sink_of streamer) (streamed w) (Infer Encoder) e2 eq_refl)
      as (Cp & Cb & Cs & Ce).
    rewrite Cp, Cb, Cs, Ce. split_ands; try done.
    + by apply prefix_cons.
    + intros Hst. destruct (Fstop Hst) as [? ?]. done.
  - destruct (cons_quiet (sink_of streamer) (streamed w) (Infer Encoder) e2 eq_refl)
      as (Cp & Cb & Cs & Ce).
    rewrite Cp, Cb, Cs, Ce. split_ands; try done.
    + by apply prefix_cons.
    + intros Hst. destruct (Fstop Hst) as [? ?]. done.
Qed.

(** More fuel than the budget of tokens changes nothing: the chunk loop as
    modelled is the loop of the source. *)
Lemma chunk_loop_fuel fe raw config streamer max_new_tokens fuel :
  forall fuel' chunk_offset output_tokens (w : World Slab),
  (Z.to_nat (max_new_tokens - get_size output_tokens) <= fuel)%nat ->
  (fuel <= fuel')%nat ->
  chunk_loop array_data_bin fuel' fe raw config streamer max_new_tokens
             chunk_offset output_tokens w
  = chunk_loop array_data_bin fuel fe raw config streamer max_new_tokens
               chunk_offset output_tokens w.
Proof.
  induction fuel as [|fuel IH]; intros fuel' chunk_offset output_tokens w Hfuel Hle.
  - destruct fuel' as [|fuel']; [done|]. cbn [chunk_loop].
    destruct (Z.ltb_spec chunk_offset (get_size raw)); [|done]. cbn [negb].
    destruct (Z.leb_spec max_new_tokens (get_size output_tokens)); [done|lia].
  - destruct fuel' as [|fuel']; [lia|]. cbn [chunk_loop].
    destruct (Z.ltb_spec chunk_offset (get_size raw)); [|done]. cbn [negb].
    destruct (Z.leb_spec max_new_tokens (get_size output_tokens)); [done|].
    rewrite !bind_run. destruct (encode _ _ _ w) as [[[hidden|e|f] w1] e1]; [|done|done].
    rewrite !bind_run.
    pose proof (full_decode_spec hidden config (max_new_tokens - get_size output_tokens)
                  streamer w1) as (_ & _ & _ & _ & Fret).
    destruct (full_decode _ _ _ _ _ w1) as [[[[cancelled chunk_toks]|e|f] w2] e2];
      [|done|done].
    destruct (Fret _ _ eq_refl) as [_ Hne]. destruct cancelled; [done|].
    rewrite (IH fuel'); [done| |lia].
    unfold get_size in *. rewrite length_app. destruct chunk_toks; [done|]. cbn. lia.
Qed.


Lemma stopped_sink_of_None s evs : stopped (sink_of None) s evs = false.
Proof. revert s. induction evs as [|e evs IH]; intros s; [done|]. destruct e; cbn; apply IH. Qed.

End Bridge.

(** *** What the shape of a call tells *)







Section Claims.
Context {Slab : Type} (array_data_bin : list f32).

(** A call of [generate]: what the chunk loop does when it is started on
    the pipeline's models with no token yet. *)
Lemma generate_one_frame raw generation_config streamer (p : StaticWhisperPipeline Slab)
    o p' evs :
  Config.get_max_new_tokens (default (m_generation_config p) generation_config) < 2 ^ 64 ->
  generate array_data_bin raw generation_config streamer p = (o, p', evs) ->
  bookkeeping evs `prefix_of` Infer Encoder :: frame_shape
  /\ ends_at_stop (sink_of streamer) [] evs
  /\ (stopped (sink_of streamer) [] evs = true -> is_returned o)
  /\ (forall toks, o = Returned toks ->
        evs = [] /\ toks = []
        /\ (raw = [] \/ Config.get_max_new_tokens
                          (default (m_generation_config p) generation_config) <= 0)
        \/ exists tok,
             toks = [tok]
             /\ bookkeeping evs = [Infer Encoder; Infer Decoder]
             /\ puts evs = match streamer with Some _ => [tok] | None => [] end
             /\ (stopped (sink_of streamer) [] evs = true
                 \/ Config.get_max_new_tokens
                      (default (m_generation_config p) generation_config) = 1)).
Proof.
  intros Hlim. unfold generate.
  destruct (Config.validate _).
  { intros [= <- <- <-]. split_ands; try done. apply prefix_nil. }
  cbn zeta.
  pose proof (chunk_loop_one_frame array_data_bin (m_feature_extractor p) raw
                (default (m_generation_config p) generation_config) streamer
                (Config.get_max_new_tokens (default (m_generation_config p) generation_config))
                (Z.to_nat (Config.get_max_new_tokens
                             (default (m_generation_config p) generation_config)))
                0 [] (mkWorld (m_models p) []) Hlim)
    as (_ & Hsh & Hends & Hstop & Hret).
  cbn zeta in Hsh, Hends, Hstop, Hret.
  destruct (chunk_loop _ _ _ _ _ _ _ _ _ _) as [[o1 w1] e]. cbn [fst snd streamed] in *.
  intros [= <- <- <-]. split_ands; try done.
  intros toks Ho. destruct (Hret toks Ho) as [(-> & -> & Hwhy)|(tok & -> & ? & ? & Hwhy)];
    [left|right].
  - split; [done|]. split; [done|].
    destruct Hwhy as [Hfuel|[Hraw|Hmax]]; [right; lia|left|by right].
    destruct raw; [done|]. unfold get_size in Hraw. cbn in Hraw. lia.
  - exists tok. split_ands; done.
Qed.



End Claims.




End WhisperProps.

(** * Further properties of the NPU pipeline *)

Module NPUBehaviour.
Import NPU NPUSetup.

Section Behaviour.
Context {KV : Type} (init_attention_mask : IntTensor -> IntTensor).
Implicit Types (p : NPULLMPipelineImpl KV) (s : LoopState KV) (streamer : StreamerVariant).

(** Why the decode loop has ended when it ends normally: the header's count
    is used up, or the last iteration took one of the three [break]s. *)
Lemma decode_loop_stop n : forall streamer s s' row,
  loop_ready (pipeline s) ->
  tokens (results s) = [row] ->
  decode_loop n streamer s = (Returned tt, s') ->
  exists toks : list Z,
    tokens (results s') = [row ++ toks]
    /\ (scores (results s) = [Fin 0] -> scores (results s') = [Fin 0])
    /\ (length toks = n
        \/ exists tok, last toks = Some tok
             /\ (put streamer (streamed s ++ delivered streamer (removelast toks)) tok = true
                 \/ tok = eos_token_id (m_generation_config (pipeline s))
                 \/ num_stored_tokens (m_kvcache_desc (pipeline s)) + Z.of_nat (length toks)
                    = total_size (m_kvcache_desc (pipeline s)))).
Proof.
  induction n as [|n IH]; intros streamer s s' row Hready Hrow Hloop.
  - cbn in Hloop. injection Hloop as <-. exists []. rewrite app_nil_r. auto.
  - cbn [decode_loop] in Hloop.
    destruct (Z.eq_dec (num_stored_tokens (m_kvcache_desc (pipeline s)))
                       (total_size (m_kvcache_desc (pipeline s)))) as [Hfull|Hroom].
    + rewrite NPUProps.loop_body_full in Hloop by done. done.
    + destruct (NPUProps.loop_body_running streamer s Hready) as
        (brk & s1 & Hbody & Hready1 & Htot & Hst & Hcfg & Hpre & Hres & Hstr & Hev & Hbrk).
      { destruct Hready as (_ & _ & _ & _ & ?). lia. }
      rewrite Hbody in Hloop.
      assert (Hrow1 : tokens (results s1) = [row ++ [last_token s1]]).
      { rewrite Hres. unfold push_token. cbn. by rewrite Hrow. }
      assert (Hsc1 : scores (results s) = [Fin 0] -> scores (results s1) = [Fin 0]).
      { intros Hsc. rewrite Hres. unfold push_token. cbn. by rewrite Hsc. }
      destruct brk.
      * injection Hloop as <-. exists [last_token s1]. split; [done|]. split; [done|].
        right. exists (last_token s1). split; [done|].
        cbn [removelast]. replace (delivered streamer []) with (@nil Z) by (by destruct streamer).
        rewrite app_nil_r. symmetry in Hbrk.
        apply orb_true_iff in Hbrk as [Hbrk|Hfull%Z.eqb_eq]; [|right; right; cbn; lia].
        apply orb_true_iff in Hbrk as [Hput|Heos%Z.eqb_eq]; [by left|by right; left].
      * destruct (IH streamer s1 s' _ Hready1 Hrow1 Hloop) as (toks & Hres' & Hsc' & Hwhy).
        exists (last_token s1 :: toks).
        split; [by rewrite Hres', <- app_assoc|]. split; [auto|].
        destruct Hwhy as [Hlen|(tok & Hlast & Hwhy)]; [left; cbn; lia|].
        right. exists tok.
        assert (Hne : toks <> []) by (intros ->; done).
        split. { destruct toks; [done|]. done. }
        assert (Hrl : removelast (last_token s1 :: toks) = last_token s1 :: removelast toks).
        { destruct toks; [done|reflexivity]. }
        rewrite Hrl. rewrite Hstr, NPUProps.put_log_app, Hcfg, Htot, Hst in Hwhy.
        destruct Hwhy as [Hput|[Heos|Hfull]].
        -- left. rewrite <- app_assoc in Hput. by destruct streamer.
        -- right. by left.
        -- right. right. cbn [length]. lia.
Qed.


(** Nothing in the decode loop throws: the writes go through raw pointers
    and the engine's inference is taken not to fail. *)
Lemma poke_not_thrown {A : Type} name (buf : list A) idx v e : poke name buf idx v <> Thrown e.
Proof. unfold poke. by destruct (_ && _). Qed.





Lemma run_stop config streamer L p r p' evs :
  well_formed p = true ->
  num_stored_tokens (m_kvcache_desc p) = 0 ->
  0 <= L <= total_size (m_kvcache_desc p) ->
  run config streamer L p = (Returned r, p', evs) ->
  let first := argmax (logits (infer (m_prefill_request p))) 0 in
  exists toks : list Z,
    r = mkResults [toks] [Fin 0]
    /\ (put streamer [] first = true
        \/ length toks = Z.to_nat (u64 (get_max_new_tokens config L - 1))
        \/ exists tok, last toks = Some tok
             /\ (put streamer (delivered streamer (first :: removelast toks)) tok = true
                 \/ tok = eos_token_id (m_generation_config p)
                 \/ L + Z.of_nat (length toks) = total_size (m_kvcache_desc p))).
Proof.
  intros Hwf Hzero HL. pose proof Hwf as Hwf'.
  apply NPUProps.well_formed_iff in Hwf' as (Ht & Hi & Hm & Hp & Hi' & Hp' & Hm').
  unfold run. rewrite Hzero, Z.add_0_l, (u32_small L) by lia.
  set (first := argmax (logits (infer (m_prefill_request p))) 0).
  destruct (put streamer [] first) eqn:Hput.
  - intros [= <- <- <-]. exists []. auto.
  - set (s0 := mkLoop _ _ _ _ _).
    destruct (decode_loop _ streamer s0) as [o1 s1] eqn:Hloop.
    intros [= Ho <- <-].
    destruct o1 as [[]| |]; cbn in Ho; [|done|done]. injection Ho as <-.
    assert (Hready : loop_ready (pipeline s0)).
    { unfold loop_ready. cbn. split_ands; lia. }
    destruct (decode_loop_stop _ _ _ _ [] Hready eq_refl Hloop) as (toks & Hres & Hsc & Hwhy).
    exists toks. split.
    { destruct (results s1) as [tk sc]. cbn in Hres, Hsc. rewrite Hres, Hsc; done. }
    right. destruct Hwhy as [Hlen|(tok & Hlast & Hwhy)]; [by left|].
    right. exists tok. split; [done|].
    cbn [s0 pipeline streamed m_kvcache_desc set_requests num_stored_tokens total_size
         m_generation_config] in Hwhy.
    destruct Hwhy as [Hstop|[Heos|Hfull]]; [left|by right; left|by right; right].
    by destruct streamer.
Qed.

(** A returned token list is bounded twice, by the room left in the cache
    and by [max_new_tokens - 1] computed in [size_t] (so that
    [max_new_tokens = 0] is no bound at all); and a list shorter than the
    second bound ends with the token that made the loop stop: the streamer
    asked to stop on it, it is the pipeline's [eos_token_id], or it filled
    the cache. The scores are the single placeholder 0. *)
Theorem returned_tokens_are_bounded inputs generation_config streamer p r p' evs :
  well_formed p = true ->
  generate init_attention_mask inputs generation_config streamer p = (Returned r, p', evs) ->
  exists first toks,
    first_token init_attention_mask inputs p = Some first
    /\ r = mkResults [toks] [Fin 0]
    /\ get_size (prompt_of init_attention_mask inputs) + get_size toks
       <= total_size (m_kvcache_desc p)
    /\ get_size toks
       <= u64 (get_max_new_tokens (effective_config p generation_config)
                 (get_size (prompt_of init_attention_mask inputs)) - 1)
    /\ (put streamer [] first = true
        \/ get_size toks
           = u64 (get_max_new_tokens (effective_config p generation_config)
                    (get_size (prompt_of init_attention_mask inputs)) - 1)
        \/ exists tok, last toks = Some tok
             /\ (put streamer (delivered streamer (first :: removelast toks)) tok = true
                 \/ tok = eos_token_id (m_generation_config p)
                 \/ get_size (prompt_of init_attention_mask inputs) + get_size toks
                    = total_size (m_kvcache_desc p))).
Proof.
  intros Hwf Hgen.
  pose proof (get_size_nonneg (prompt_of init_attention_mask inputs)) as HL0.
  apply NPUProps.generate_cases in Hgen
    as [([e He] & _)|(Hchk & HL & [[(f & Hf & _) _]|(p2 & evs1 & Hpad & Hrun & ->)])];
    [done|done|].
  unfold first_token. rewrite Hpad.
  apply NPUProps.pad_prompt_returned in Hpad as (Hwf2 & Hd2 & _ & Hcfg2 & _);
    [|by apply NPUProps.prepare_well_formed].
  assert (Hz : num_stored_tokens (m_kvcache_desc p2) = 0) by (by rewrite Hd2).
  assert (HL2 : 0 <= get_size (prompt_of init_attention_mask inputs)
                <= total_size (m_kvcache_desc p2)) by (rewrite Hd2; cbn; lia).
  pose proof (run_stop _ _ _ _ _ _ _ Hwf2 Hz HL2 Hrun) as (toks & -> & Hwhy).
  apply NPUProps.run_spec in Hrun
    as (toks' & Hlen & _ & _ & _ & _ & Hroom & _ & _ & Hres & _); [|done|done|done].
  specialize (Hres _ eq_refl). cbn in Hres. injection Hres as <-.
  rewrite Hd2 in Hroom, Hwhy. rewrite Hcfg2 in Hwhy.
  cbn [m_kvcache_desc prepare_for_new_conversation set_requests total_size] in Hroom, Hwhy.
  set (bound := u64 _) in *.
  assert (0 <= bound) by (unfold bound, u64; apply Z.mod_pos_bound; lia).
  eexists _, toks. split; [done|]. split; [done|].
  change (get_size toks) with (Z.of_nat (length toks)).
  split; [done|]. split; [lia|].
  destruct Hwhy as [?|[Hlen'|?]]; [by left| |by right; right].
  right; left. lia.
Qed.

(** Below the capacity the stored-token count follows the inferences. A
    call that the checks let through, with a non-empty prompt of fewer than
    [total_size] tokens and a mask that fits, returns; the count is set to
    0, then to the prompt length [L] right after the prefill inference, and
    grows by 1 right after each inference of the generate graph, one per
    returned token, so that it ends at [L] plus the number of returned
    tokens, within [total_size]. *)
Theorem stored_count_below_capacity inputs generation_config streamer p :
  well_formed p = true ->
  passes_checks init_attention_mask inputs generation_config p = true ->
  0 < get_size (prompt_of init_attention_mask inputs) < total_size (m_kvcache_desc p) ->
  get_size (mask_of init_attention_mask inputs) <= total_size (m_kvcache_desc p) ->
  exists r p' evs toks,
    generate init_attention_mask inputs generation_config streamer p = (Returned r, p', evs)
    /\ tokens r = [toks]
    /\ bookkeeping evs
       = Stored 0 :: Infer Prefill :: Stored (get_size (prompt_of init_attention_mask inputs))
         :: steps (total_size (m_kvcache_desc p))
                  (get_size (prompt_of init_attention_mask inputs)) (length toks)
    /\ stored_values evs
       = 0 :: seqZ (get_size (prompt_of init_attention_mask inputs)) (get_size toks + 1)
    /\ num_stored_tokens (m_kvcache_desc p')
       = get_size (prompt_of init_attention_mask inputs) + get_size toks
    /\ get_size (prompt_of init_attention_mask inputs) + get_size toks
       <= total_size (m_kvcache_desc p).
Proof.
  intros Hwf Hchk HL Hmask.
  set (L := get_size (prompt_of init_attention_mask inputs)) in *.
  destruct (NPUProps.generate_accepted init_attention_mask inputs generation_config streamer p
              Hwf Hchk ltac:(lia) Hmask) as (p2 & _ & Hwf2 & Hd2 & _ & ->).
  fold L.
  destruct (run (effective_config p generation_config) streamer L p2) as [[o p3] evs1] eqn:Hrun.
  apply NPUProps.run_spec in Hrun
    as (toks & _ & Hbk & _ & _ & Hst & Hle & _ & _ & Hres & _ & _ & Hnt & Hund);
    [|done|by rewrite Hd2|rewrite Hd2; cbn; lia].
  rewrite Hd2 in Hbk, Hle. cbn [m_kvcache_desc total_size] in Hbk, Hle.
  destruct o as [r|e|f]; [|by destruct (Hnt e)|destruct (Hund f eq_refl) as (_ & _ & HLt)];
    cycle 1.
  { rewrite Hd2 in HLt. cbn in HLt. lia. }
  exists r, p3, (Stored 0 :: evs1), toks.
  change (get_size toks) with (Z.of_nat (length toks)).
  split; [done|]. split; [by apply Hres|]. split.
  { change (bookkeeping (Stored 0 :: evs1)) with (Stored 0 :: bookkeeping evs1).
    by rewrite Hbk. }
  split; [|done].
  rewrite NPUProps.stored_values_cons. f_equal.
  rewrite <- NPUProps.stored_values_bookkeeping, Hbk, !NPUProps.stored_values_cons.
  rewrite NPUProps.stored_values_steps, (seqZ_cons L) by lia. do 2 f_equal; lia.
Qed.


(** A call that the checks let through goes on to pad the prompt. *)
Lemma generate_checked inputs generation_config streamer p :
  passes_checks init_attention_mask inputs generation_config p = true ->
  get_size (prompt_of init_attention_mask inputs) <= total_size (m_kvcache_desc p) ->
  generate init_attention_mask inputs generation_config streamer p
  = match pad_prompt (prompt_of init_attention_mask inputs) (mask_of init_attention_mask inputs)
                     (prepare_for_new_conversation p) with
    | Returned p2 =>
        let '(o, p3, evs) := run (effective_config p generation_config) streamer
                                 (get_size (prompt_of init_attention_mask inputs)) p2 in
        (o, p3, Stored 0 :: evs)
    | Thrown e => (Thrown e, prepare_for_new_conversation p, [Stored 0])
    | Undefined f => (Undefined f, prepare_for_new_conversation p, [Stored 0])
    end.
Proof.
  unfold generate, passes_checks, prompt_of, mask_of.
  destruct (unpack_inputs init_attention_mask inputs) as [ids mask]. cbn [fst snd].
  destruct (shape ids) as [|b sh]; [done|].
  intros [[Hb Hval%bool_decide_eq_true]%andb_true_iff Hgreedy]%andb_true_iff HL.
  apply Z.leb_le in Hb.
  destruct (Z.ltb_spec 1 b); [lia|]. rewrite Hval, Hgreedy. cbn [negb].
  destruct (Z.ltb_spec (total_size (m_kvcache_desc p)) (get_size (elems ids))); [lia|]. done.
Qed.

(** An empty prompt is not turned down by any check. The prompt and the
    mask are copied (nothing to copy), and [std::iota] is then called on the
    range that starts at slot [total_size + 1] and ends at slot
    [total_size]: the call goes wrong before the prefill inference. *)
Theorem empty_prompt_reverses_the_position_range inputs generation_config streamer p :
  well_formed p = true ->
  passes_checks init_attention_mask inputs generation_config p = true ->
  prompt_of init_attention_mask inputs = [] ->
  get_size (mask_of init_attention_mask inputs) <= total_size (m_kvcache_desc p) ->
  generate init_attention_mask inputs generation_config streamer p
  = (Undefined (BadRange "std::iota"), prepare_for_new_conversation p, [Stored 0]).
Proof.
  intros Hwf Hchk Hempty Hmask.
  pose proof (NPUProps.prepare_well_formed p Hwf)
    as (Ht & Hi & Hm & Hp & _)%NPUProps.well_formed_iff.
  pose proof Hwf as (Ht0 & _)%NPUProps.well_formed_iff.
  rewrite generate_checked; [|done|rewrite Hempty; change (get_size []) with 0; lia].
  set (p1 := prepare_for_new_conversation p) in *.
  change (total_size (m_kvcache_desc p1)) with (total_size (m_kvcache_desc p)) in *.
  rewrite Hempty. unfold pad_prompt.
  rewrite !NPUProps.copy_with_left_offset_fits by (change (get_size []) with 0; lia).
  cbn [mbind outcome_bind]. unfold iota.
  change (total_size (m_kvcache_desc p1)) with (total_size (m_kvcache_desc p)).
  rewrite Hp. change (get_size []) with 0.
  rewrite u64_small by lia.
  destruct (Z.leb_spec (total_size (m_kvcache_desc p) - 0 + 1) (total_size (m_kvcache_desc p)));
    [lia|]. done.
Qed.

(** The length of the attention mask is never compared with the capacity:
    with a prompt that fits and a mask that is longer than [total_size], the
    second [copy_with_left_offset] computes its offset by a subtraction that
    wraps around and copies outside the padded buffer. *)
Theorem oversized_mask_is_copied_out_of_bounds inputs generation_config streamer p :
  well_formed p = true ->
  passes_checks init_attention_mask inputs generation_config p = true ->
  get_size (prompt_of init_attention_mask inputs) <= total_size (m_kvcache_desc p) ->
  total_size (m_kvcache_desc p) < get_size (mask_of init_attention_mask inputs) ->
  exists f,
    generate init_attention_mask inputs generation_config streamer p
    = (Undefined f, prepare_for_new_conversation p, [Stored 0]).
Proof.
  intros Hwf Hchk HL Hmask. eexists.
  pose proof (NPUProps.prepare_well_formed p Hwf)
    as (Ht & Hi & Hm & Hp & _)%NPUProps.well_formed_iff.
  rewrite generate_checked by done.
  set (p1 := prepare_for_new_conversation p) in *.
  change (total_size (m_kvcache_desc p1)) with (total_size (m_kvcache_desc p)) in *.
  unfold pad_prompt.
  rewrite (NPUProps.copy_with_left_offset_fits (prompt_of init_attention_mask inputs)) by lia.
  cbn [mbind outcome_bind]. unfold copy_with_left_offset.
  rewrite Hm.
  set (M := get_size (mask_of init_attention_mask inputs)) in *.
  assert (0 <= u64 (total_size (m_kvcache_desc p) - M)) by (unfold u64; apply Z.mod_pos_bound; lia).
  destruct (Z.leb_spec (u64 (total_size (m_kvcache_desc p) - M) + M)
                       (total_size (m_kvcache_desc p))); [lia|]. done.
Qed.

Lemma insert_singleton {A : Type} (l : list A) v : length l = 1%nat -> <[0%nat := v]> l = [v].
Proof. destruct l as [|x [|y l]]; cbn; intros; done || lia. Qed.

(** The tensors of the generate graph after an iteration of the loop. *)
Lemma loop_body_tensors streamer s brk s' :
  loop_ready (pipeline s) ->
  loop_body streamer s = (Returned brk, s') ->
  let d := m_kvcache_desc (pipeline s) in
  input_ids (m_kvcache_request (pipeline s')) = [last_token s]
  /\ position_ids (m_kvcache_request (pipeline s')) = [num_stored_tokens d]
  /\ attention_mask (m_kvcache_request (pipeline s'))
     = <[Z.to_nat (total_size d - num_stored_tokens d - 1) := 1]>
         (attention_mask (m_kvcache_request (pipeline s)))
  /\ num_stored_tokens d < total_size d.
Proof.
  intros (Ht & Hi & Hp & Hm & Hs) Hbody.
  destruct (Z.eq_dec (num_stored_tokens (m_kvcache_desc (pipeline s)))
                     (total_size (m_kvcache_desc (pipeline s)))) as [Hfull|Hroom].
  { rewrite NPUProps.loop_body_full in Hbody; [done| |done]. unfold loop_ready. split_ands; lia. }
  revert Hbody. unfold loop_body, write_step_inputs. cbv zeta.
  set (d := m_kvcache_desc (pipeline s)) in *.
  set (r := m_kvcache_request (pipeline s)) in *.
  rewrite (poke_in_range "input_ids") by lia.
  cbn [mbind outcome_bind].
  rewrite (poke_in_range "position_ids") by lia.
  cbn [mbind outcome_bind].
  rewrite (u32_small (total_size d - num_stored_tokens d - 1)) by lia.
  rewrite (poke_in_range "attention_mask") by lia.
  cbn [mbind outcome_bind mret outcome_ret].
  change (Z.to_nat 0) with 0%nat.
  rewrite !insert_singleton by (unfold get_size in *; lia).
  intros Hbody.
  assert (Hs' : pipeline s'
                = set_requests (pipeline s)
                    (mkDesc (total_size d) (u32 (num_stored_tokens d + 1)))
                    (m_prefill_request (pipeline s))
                    (infer (set_inputs r [last_token s]
                              (<[Z.to_nat (total_size d - num_stored_tokens d - 1) := 1]>
                                 (attention_mask r))
                              [num_stored_tokens d]))).
  { revert Hbody. destruct (put _ _ _); [by intros [= _ <-]|].
    destruct (_ =? _); [by intros [= _ <-]|]. by destruct (_ =? _); intros [= _ <-]. }
  rewrite Hs'. cbn. split_ands; try done. lia.
Qed.

(** The attention mask of the generate graph while the loop runs: each
    iteration sets the slot to the left of the slots in use. *)
Lemma decode_loop_mask n : forall streamer s s' row,
  loop_ready (pipeline s) ->
  tokens (results s) = [row] ->
  decode_loop n streamer s = (Returned tt, s') ->
  let d := m_kvcache_desc (pipeline s) in
  let free := Z.to_nat (total_size d - num_stored_tokens d) in
  exists toks : list Z,
    tokens (results s') = [row ++ toks]
    /\ attention_mask (m_kvcache_request (pipeline s'))
       = take (free - length toks) (attention_mask (m_kvcache_request (pipeline s)))
         ++ replicate (length toks) 1
         ++ drop free (attention_mask (m_kvcache_request (pipeline s)))
    /\ (length toks <= free)%nat
    /\ (toks <> [] ->
        input_ids (m_kvcache_request (pipeline s'))
        = [List.last (removelast toks) (last_token s)]
        /\ position_ids (m_kvcache_request (pipeline s'))
           = [num_stored_tokens d + Z.of_nat (length toks) - 1]).
Proof.
  induction n as [|n IH]; intros streamer s s' row Hready Hrow Hloop.
  - cbn in Hloop. injection Hloop as <-. exists []. cbn.
    rewrite app_nil_r, Nat.sub_0_r, take_drop. split_ands; [done|done|lia|done].
  - cbn [decode_loop] in Hloop.
    destruct (loop_body streamer s) as [[brk| |] s1] eqn:Hbody; [|done|done].
    pose proof (loop_body_tensors _ _ _ _ Hready Hbody) as (Hids & Hpos & Hmask & Hroom).
    destruct (NPUProps.loop_body_running streamer s Hready Hroom) as
        (brk' & s1' & Hbody' & Hready1 & Htot & Hst & Hcfg & Hpre & Hres & Hstr & Hev & Hbrk).
    rewrite Hbody in Hbody'. injection Hbody' as <- <-.
    assert (Hrow1 : tokens (results s1) = [row ++ [last_token s1]]).
    { rewrite Hres. unfold push_token. cbn. by rewrite Hrow. }
    destruct Hready as (Ht & Hi & Hp & Hm & Hs).
    set (d := m_kvcache_desc (pipeline s)) in *.
    set (mask0 := attention_mask (m_kvcache_request (pipeline s))) in *.
    assert (Hlen0 : length mask0 = Z.to_nat (total_size d)) by (unfold get_size in Hm; lia).
    set (free := Z.to_nat (total_size d - num_stored_tokens d)).
    assert (Hfree : (0 < free <= length mask0)%nat) by (unfold free; lia).
    assert (Hidx : Z.to_nat (total_size d - num_stored_tokens d - 1) = (free - 1)%nat)
      by (unfold free; lia).
    rewrite Hidx in Hmask.
    cbv zeta. fold d. fold mask0. fold free.
    assert (Hstep : take (free - 1) mask0 ++ replicate 1 1 ++ drop free mask0
                    = <[(free - 1)%nat := 1]> mask0).
    { rewrite insert_take_drop by lia. cbn. do 3 f_equal. lia. }
    destruct brk.
    + injection Hloop as <-. exists [last_token s1]. cbn [length].
      split; [done|]. split; [by rewrite Hmask, Hstep|]. split; [lia|].
      intros _. cbn [removelast List.last]. rewrite Hids, Hpos. split; [done|]. f_equal. lia.
    + destruct (IH streamer s1 s' _ Hready1 Hrow1 Hloop) as (toks & Hres' & Hmask' & Hle & Hin).
      cbv zeta in Hmask', Hle, Hin. rewrite Htot, Hst in Hmask', Hle. rewrite Hst in Hin.
      replace (Z.to_nat (total_size d - (num_stored_tokens d + 1))) with (free - 1)%nat
        in Hmask', Hle by (unfold free; lia).
      exists (last_token s1 :: toks). cbn [length].
      split; [by rewrite Hres', <- app_assoc|].
      split.
      { rewrite Hmask', Hmask.
        rewrite (insert_take_drop mask0 (free - 1)) by lia.
        replace (S (free - 1)) with free by lia.
        assert (HA : length (take (free - 1) mask0) = (free - 1)%nat)
          by (rewrite length_take; lia).
        rewrite take_app_le by lia. rewrite take_take.
        rewrite drop_app_length' by done.
        replace ((free - 1 - length toks) `min` (free - 1))%nat
          with (free - S (length toks))%nat by lia.
        f_equal. change (replicate (S (length toks)) 1) with (1 :: replicate (length toks) 1).
        rewrite replicate_cons_app, <- app_assoc. done. }
      split; [lia|].
      intros _. destruct toks as [|t toks].
      * cbn in Hres'. cbn [decode_loop] in *.
        (* the loop continued and returned without a further token *)
        assert (Hs1 : attention_mask (m_kvcache_request (pipeline s'))
                      = attention_mask (m_kvcache_request (pipeline s1))).
        { rewrite Hmask'. cbn. rewrite Nat.sub_0_r. by rewrite take_drop. }
        cbn [removelast List.last length].
        destruct n as [|n]; [cbn in Hloop; injection Hloop as <-|].
        -- rewrite Hids, Hpos. split; [done|]. f_equal. lia.
        -- exfalso. cbn [decode_loop] in Hloop.
           destruct (loop_body streamer s1) as [[brk1| |] s2] eqn:Hbody1; [|done|done].
           pose proof (loop_body_tensors _ _ _ _ Hready1 Hbody1) as (_ & _ & _ & Hroom1).
           destruct (NPUProps.loop_body_running streamer s1 Hready1 Hroom1) as
             (brk2 & s2' & Hbody2 & Hready2 & _ & _ & _ & _ & Hres2 & _).
           rewrite Hbody1 in Hbody2. injection Hbody2 as <- <-.
           assert (Hrow2 : tokens (results s2) = [(row ++ [last_token s1]) ++ [last_token s2]]).
           { rewrite Hres2. unfold push_token. cbn. by rewrite Hrow1. }
           destruct brk1.
           ++ injection Hloop as <-. rewrite Hrow2 in Hres'.
              injection Hres' as Hres'. rewrite app_nil_r in Hres'.
              apply (f_equal length) in Hres'. rewrite !length_app in Hres'. cbn in Hres'. lia.
           ++ destruct (NPUProps.decode_loop_spec _ _ _ _ _ _ Hready2 Hrow2 Hloop)
                as (toks2 & _ & _ & _ & _ & _ & _ & Hres3 & _).
              rewrite Hres3 in Hres'. injection Hres' as Hres'. rewrite app_nil_r in Hres'.
              apply (f_equal length) in Hres'. rewrite !length_app in Hres'. cbn in Hres'. lia.
      * destruct (Hin ltac:(done)) as [Hids' Hpos'].
        rewrite Hids', Hpos'. split.
        -- f_equal. change (removelast (last_token s1 :: t :: toks))
             with (last_token s1 :: removelast (t :: toks)).
           destruct (removelast (t :: toks)) as [|u us] eqn:Hr; [done|].
           change (List.last (last_token s1 :: u :: us) (last_token s))
             with (List.last (u :: us) (last_token s)).
           clear. revert u. induction us as [|v us IH]; intros u; [done|].
           change (List.last (u :: v :: us) ?d) with (List.last (v :: us) d). apply IH.
        -- f_equal. cbn [length]. lia.
Qed.

Lemma pad_prompt_empty mask p :
  well_formed p = true ->
  get_size mask <= total_size (m_kvcache_desc p) ->
  pad_prompt [] mask p = Undefined (BadRange "std::iota").
Proof.
  intros (Ht & Hi & Hm & Hp & _)%NPUProps.well_formed_iff Hmask.
  unfold pad_prompt.
  rewrite !NPUProps.copy_with_left_offset_fits by (change (get_size []) with 0; lia).
  cbn [mbind outcome_bind]. unfold iota.
  rewrite Hp. change (get_size []) with 0.
  rewrite u64_small by lia.
  destruct (Z.leb_spec (total_size (m_kvcache_desc p) - 0 + 1) (total_size (m_kvcache_desc p)));
    [lia|]. done.
Qed.

(** The buffers of a call that returns, for a mask of the prompt's length.
    In the prefill buffers the prompt and its mask are right-aligned, behind
    pad tokens and zeros; the position ids are 0 up to [L - 2], right-aligned
    in the same way (so the count starts one slot late). In the generate
    graph's mask the ones of the generated tokens grow leftwards from the
    prompt's mask, one per returned token; its input id is the token before
    the last returned one and its position id is the number of tokens that
    were stored before the last inference. *)
Theorem buffers_after_a_call inputs generation_config streamer p r p' evs :
  well_formed p = true ->
  get_size (mask_of init_attention_mask inputs) = get_size (prompt_of init_attention_mask inputs) ->
  generate init_attention_mask inputs generation_config streamer p = (Returned r, p', evs) ->
  let total := Z.to_nat (total_size (m_kvcache_desc p)) in
  let L := length (prompt_of init_attention_mask inputs) in
  exists first toks,
    first_token init_attention_mask inputs p = Some first
    /\ tokens r = [toks]
    /\ (0 < L <= total)%nat
    /\ input_ids (m_prefill_request p')
       = replicate (total - L) (m_pad_token_id p) ++ prompt_of init_attention_mask inputs
    /\ attention_mask (m_prefill_request p')
       = replicate (total - L) 0 ++ mask_of init_attention_mask inputs
    /\ position_ids (m_prefill_request p')
       = replicate (total - L + 1) 0 ++ seqZ 0 (Z.of_nat L - 1)
    /\ (put streamer [] first = false ->
        attention_mask (m_kvcache_request p')
        = replicate (total - L - length toks) 0 ++ replicate (length toks) 1
          ++ mask_of init_attention_mask inputs)
    /\ (toks <> [] ->
        input_ids (m_kvcache_request p') = [List.last (removelast toks) first]
        /\ position_ids (m_kvcache_request p') = [Z.of_nat L + Z.of_nat (length toks) - 1]).
Proof.
  intros Hwf HM Hgen total L.
  pose proof Hwf as (Ht & _)%NPUProps.well_formed_iff.
  pose proof (NPUProps.prepare_well_formed p Hwf) as Hwf1.
  pose proof Hwf1 as (_ & Hi & Hm & Hp & Hi' & Hp' & Hm')%NPUProps.well_formed_iff.
  apply NPUProps.generate_cases in Hgen
    as [([e He] & _)|(Hchk & HL & [[(f & Hf & _) _]|(p2 & evs1 & Hpad & Hrun & ->)])];
    [done|done|].
  set (p1 := prepare_for_new_conversation p) in *.
  change (total_size (m_kvcache_desc p1)) with (total_size (m_kvcache_desc p)) in *.
  set (ids := prompt_of init_attention_mask inputs) in *.
  set (mask := mask_of init_attention_mask inputs) in *.
  assert (HL0 : 0 < get_size ids).
  { destruct ids as [|x ids'] eqn:Hids; [|unfold get_size; cbn; lia].
    rewrite pad_prompt_empty in Hpad; [done|done|].
    change (total_size (m_kvcache_desc p1)) with (total_size (m_kvcache_desc p)).
    rewrite HM. change (get_size []) with 0. lia. }
  unfold first_token. fold p1 ids mask. rewrite Hpad.
  rewrite NPUProps.pad_prompt_fits in Hpad; [|done|done|].
  2: { change (total_size (m_kvcache_desc p1)) with (total_size (m_kvcache_desc p)). lia. }
  injection Hpad as <-.
  assert (Hlen : (0 < L <= total)%nat) by (unfold L, total, get_size in *; lia).
  pose proof Hwf as (_ & Hi0 & Hm0 & Hp0 & _)%NPUProps.well_formed_iff.
  unfold fill_tensor in Hrun |- *.
  rewrite !length_replicate, !take_replicate in Hrun |- *.
  replace (length (input_ids (m_prefill_request p)) - length ids)%nat with (total - L)%nat
    in Hrun |- * by (unfold total, L, get_size in *; lia).
  replace (length (attention_mask (m_prefill_request p)) - length mask)%nat with (total - L)%nat
    in Hrun |- * by (unfold total, L, get_size in *; lia).
  replace (length (input_ids (m_prefill_request p))) with total
    in Hrun |- * by (unfold total, L, get_size in *; lia).
  replace (length (attention_mask (m_prefill_request p))) with total
    in Hrun |- * by (unfold total, L, get_size in *; lia).
  replace (Z.to_nat (total_size (m_kvcache_desc p) - get_size ids + 1)
           `min` length (position_ids (m_prefill_request p)))%nat with (total - L + 1)%nat
    in Hrun |- * by (unfold total, L, get_size in *; lia).
  replace ((total - L) `min` total)%nat with (total - L)%nat in Hrun |- * by lia.
  replace (get_size ids - 1) with (Z.of_nat L - 1) in Hrun |- * by done.
  set (pre2 := set_inputs _ _ _ _) in *.
  set (p2 := set_requests _ _ _ _) in *.
  assert (Hwf2 : well_formed p2 = true).
  { apply NPUProps.well_formed_iff. cbn.
    unfold get_size in *. rewrite !length_app, !length_replicate, length_seqZ.
    fold ids mask. cbn in Hi', Hp', Hm'. unfold fill_tensor in Hm'. rewrite length_replicate in Hm'.
    split_ands; try lia; unfold total, L in *; lia. }
  assert (Hready0 : forall pre kvc,
            get_size (input_ids kvc) = 1 -> get_size (position_ids kvc) = 1 ->
            get_size (attention_mask kvc) = total_size (m_kvcache_desc p) ->
            loop_ready (set_requests p2 (mkDesc (total_size (m_kvcache_desc p2))
                                                (get_size ids)) pre kvc)).
  { intros pre kvc H1 H2 H3. unfold loop_ready. cbn. split_ands; lia. }
  revert Hrun. unfold run. cbv zeta.
  change (num_stored_tokens (m_kvcache_desc p2)) with 0.
  rewrite Z.add_0_l, (u32_small (get_size ids)) by lia.
  change (m_prefill_request p2) with pre2.
  set (first := argmax (logits (infer pre2)) 0).
  destruct (put streamer [] first) eqn:Hput.
  - intros [= <- <- <-]. exists first, []. cbn [tokens].
    split; [done|]. split; [done|]. split; [done|].
    cbn. split_ands; try done; intros; congruence.
  - set (s0 := mkLoop _ _ _ _ _).
    destruct (decode_loop _ streamer s0) as [o1 s1] eqn:Hloop.
    intros [= Ho <- <-].
    destruct o1 as [[]| |]; cbn in Ho; [|done|done]. injection Ho as <-.
    assert (Hready : loop_ready (pipeline s0)).
    { apply Hready0; cbn; [done|done|].
      unfold get_size. rewrite length_app, length_replicate.
      unfold total, L, get_size in *. lia. }
    destruct (decode_loop_mask _ _ _ _ [] Hready eq_refl Hloop)
      as (toks & Hres & Hmask & Hle & Hlast).
    destruct (NPUProps.decode_loop_spec _ _ _ _ _ [] Hready eq_refl Hloop)
      as (toks' & _ & _ & _ & _ & _ & Hpre & Hres' & _).
    exists first, toks. split; [done|]. split; [done|]. split; [done|].
    rewrite Hpre. cbn [s0 pipeline set_requests m_prefill_request infer input_ids attention_mask
                       position_ids pre2 set_inputs].
    split; [done|]. split; [done|]. split; [done|].
    split.
    + intros _. rewrite Hmask.
      cbn [s0 pipeline set_requests m_kvcache_request m_kvcache_desc set_kv set_inputs
           attention_mask infer pre2 total_size num_stored_tokens] in *.
      change (total_size (m_kvcache_desc p2)) with (total_size (m_kvcache_desc p)) in *.
      replace (Z.to_nat (total_size (m_kvcache_desc p) - get_size ids)) with (total - L)%nat
        in * by (unfold total, L, get_size; lia).
      rewrite take_app_le by (rewrite length_replicate; lia).
      rewrite take_replicate.
      rewrite drop_app_length' by (by rewrite length_replicate).
      do 2 f_equal. lia.
    + intros Hne. destruct (Hlast Hne) as [-> ->].
      cbn [s0 pipeline last_token set_requests m_kvcache_desc num_stored_tokens].
      split; [done|]. f_equal.
Qed.

(** *** Consecutive calls *)

(** Two states of the decode loop that differ at most in the input id, the
    position id and the logits of the generate graph's request, which an
    iteration overwrites before it reads them. *)
Local Abbreviation agree s1 s2 :=
  (m_generation_config (pipeline s1) = m_generation_config (pipeline s2)
   /\ m_pad_token_id (pipeline s1) = m_pad_token_id (pipeline s2)
   /\ m_kvcache_desc (pipeline s1) = m_kvcache_desc (pipeline s2)
   /\ m_prefill_request (pipeline s1) = m_prefill_request (pipeline s2)
   /\ compiled_model (m_kvcache_request (pipeline s1))
      = compiled_model (m_kvcache_request (pipeline s2))
   /\ attention_mask (m_kvcache_request (pipeline s1))
      = attention_mask (m_kvcache_request (pipeline s2))
   /\ kv (m_kvcache_request (pipeline s1)) = kv (m_kvcache_request (pipeline s2))
   /\ length (input_ids (m_kvcache_request (pipeline s1))) = 1%nat
   /\ length (input_ids (m_kvcache_request (pipeline s2))) = 1%nat
   /\ length (position_ids (m_kvcache_request (pipeline s1))) = 1%nat
   /\ length (position_ids (m_kvcache_request (pipeline s2))) = 1%nat
   /\ last_token s1 = last_token s2
   /\ results s1 = results s2
   /\ streamed s1 = streamed s2
   /\ events s1 = events s2).

Lemma poke_singleton name (buf : list Z) v :
  length buf = 1%nat -> poke name buf 0 v = Returned [v].
Proof.
  intros H. rewrite poke_in_range by (unfold get_size; lia).
  change (Z.to_nat 0) with 0%nat. by rewrite insert_singleton.
Qed.

Lemma loop_body_agree streamer s1 s2 :
  agree s1 s2 ->
  (exists brk s', loop_body streamer s1 = (Returned brk, s')
                  /\ loop_body streamer s2 = (Returned brk, s'))
  \/ (exists f, loop_body streamer s1 = (Undefined f, s1)
                /\ loop_body streamer s2 = (Undefined f, s2)).
Proof.
  intros (Hcfg & Hpad & Hd & Hpre & Hcm & Hmask & Hkv & Hi1 & Hi2 & Hp1 & Hp2
          & Hlast & Hres & Hstr & Hev).
  unfold loop_body, write_step_inputs. cbv zeta.
  rewrite !poke_singleton by done. cbn [mbind outcome_bind].
  rewrite <- Hd, <- Hmask, <- Hlast.
  destruct (poke "attention_mask" _ _ _) as [mask| |] eqn:Hpoke;
    cbn [mbind outcome_bind mret outcome_ret]; [|by apply poke_not_thrown in Hpoke|right; eauto].
  left.
  assert (Hinfer : infer (set_inputs (m_kvcache_request (pipeline s1)) [last_token s1] mask
                            [num_stored_tokens (m_kvcache_desc (pipeline s1))])
                   = infer (set_inputs (m_kvcache_request (pipeline s2)) [last_token s1] mask
                              [num_stored_tokens (m_kvcache_desc (pipeline s1))])).
  { unfold infer, set_inputs. cbn. by rewrite Hcm, Hkv. }
  rewrite <- Hinfer, <- Hcfg, <- Hres, <- Hstr, <- Hev, <- Hpre.
  assert (Hset : forall d pre r, set_requests (pipeline s1) d pre r
                                 = set_requests (pipeline s2) d pre r).
  { intros. unfold set_requests. by rewrite Hcfg, Hpad. }
  rewrite <- Hset.
  destruct (put _ _ _); [eauto|]. destruct (_ =? _); [eauto|]. destruct (_ =? _); eauto.
Qed.

Lemma decode_loop_agree n streamer s1 s2 :
  agree s1 s2 ->
  fst (decode_loop n streamer s1) = fst (decode_loop n streamer s2)
  /\ results (snd (decode_loop n streamer s1)) = results (snd (decode_loop n streamer s2))
  /\ events (snd (decode_loop n streamer s1)) = events (snd (decode_loop n streamer s2)).
Proof.
  intros Hag. destruct n as [|n]; cbn [decode_loop].
  - cbn. tauto.
  - destruct (loop_body_agree streamer s1 s2 Hag) as [(brk & s' & -> & ->)|(f & -> & ->)].
    + done.
    + cbn. tauto.
Qed.

Lemma well_formed_lengths p :
  well_formed p = true ->
  let total := Z.to_nat (total_size (m_kvcache_desc p)) in
  length (input_ids (m_prefill_request p)) = total
  /\ length (attention_mask (m_prefill_request p)) = total
  /\ length (position_ids (m_prefill_request p)) = total
  /\ length (input_ids (m_kvcache_request p)) = 1%nat
  /\ length (position_ids (m_kvcache_request p)) = 1%nat
  /\ length (attention_mask (m_kvcache_request p)) = total.
Proof.
  intros (Ht & H1 & H2 & H3 & H4 & H5 & H6)%NPUProps.well_formed_iff.
  unfold get_size in *. cbv zeta. split_ands; lia.
Qed.

(** The outcome of a call and what it does depend on the pipeline's setup
    only, not on the contents of its tensors. *)
Lemma generate_agree inputs generation_config streamer p1 p2 :
  well_formed p1 = true ->
  well_formed p2 = true ->
  same_setup p1 p2 ->
  prefill_reads_no_cache p1 ->
  fst (fst (generate init_attention_mask inputs generation_config streamer p1))
  = fst (fst (generate init_attention_mask inputs generation_config streamer p2))
  /\ snd (generate init_attention_mask inputs generation_config streamer p1)
     = snd (generate init_attention_mask inputs generation_config streamer p2).
Proof.
  intros Hwf1 Hwf2 (Hcfg & Hpad & Htot & Hcm & Hcmk) Hblind.
  pose proof (well_formed_lengths p1 Hwf1) as (Ha1 & Ha2 & Ha3 & Ha4 & Ha5 & Ha6).
  pose proof (well_formed_lengths p2 Hwf2) as (Hb1 & Hb2 & Hb3 & Hb4 & Hb5 & Hb6).
  cbv zeta in *. rewrite <- Htot in *.
  unfold generate.
  destruct (unpack_inputs init_attention_mask inputs) as [ids mask].
  destruct (shape ids) as [|b sh]; [done|].
  destruct (1 <? b); [done|].
  assert (Hec : effective_config p1 generation_config = effective_config p2 generation_config)
    by (unfold effective_config; by rewrite Hcfg).
  rewrite <- Hec, <- Htot.
  destruct (validate _); [done|].
  destruct (negb _); [done|].
  destruct (_ <? _); [done|].
  unfold pad_prompt.
  cbn [prepare_for_new_conversation set_requests set_inputs m_prefill_request m_kvcache_desc
       m_kvcache_request input_ids attention_mask position_ids total_size].
  unfold fill_tensor. rewrite Ha1, Ha2, Ha3, Ha6, Hb1, Hb2, Hb3, Hb6, <- Hpad, <- Htot.
  destruct (copy_with_left_offset (elems ids) _) as [padded_input_ids| |];
    cbn [mbind outcome_bind]; [|done|done].
  destruct (copy_with_left_offset (elems mask) _) as [padded_attention_mask| |];
    cbn [mbind outcome_bind]; [|done|done].
  destruct (iota _ _ _ _) as [padded_position_ids| |];
    cbn [mbind outcome_bind mret outcome_ret]; [|done|done].
  unfold run. cbv zeta.
  cbn [set_requests m_prefill_request m_kvcache_desc m_kvcache_request num_stored_tokens
       total_size].
  assert (Hinfer : forall a b c x y z,
            infer (set_inputs (set_inputs (m_prefill_request p1) a b c) x y z)
            = infer (set_inputs (set_inputs (m_prefill_request p2) a b c) x y z)).
  { intros. unfold infer, set_inputs. cbn. rewrite <- Hcm.
    by rewrite (Hblind _ _ _ (kv (m_prefill_request p1)) (kv (m_prefill_request p2))). }
  rewrite <- !Hinfer.
  destruct (put streamer [] _); [done|].
  match goal with
  | |- context [decode_loop ?n ?st ?s1] =>
      match goal with
      | |- context [decode_loop n st ?s2] =>
          lazymatch s1 with
          | s2 => fail
          | _ => pose proof (decode_loop_agree n st s1 s2) as Hloop
          end
      end
  end.
  destruct Hloop as (Ho & Hr & He).
  { cbn. rewrite Hcfg, Hpad, Hcmk. split_ands; done. }
  destruct (decode_loop _ _ _) as [o1 s1'].
  destruct (decode_loop _ _ _) as [o2 s2'].
  cbn in Ho, Hr, He. cbn. by rewrite Ho, Hr, He.
Qed.

Lemma same_setup_refl p : same_setup p p.
Proof. unfold same_setup. tauto. Qed.

Lemma same_setup_trans p1 p2 p3 : same_setup p1 p2 -> same_setup p2 p3 -> same_setup p1 p3.
Proof. unfold same_setup. intros (? & ? & ? & ? & ?) (? & ? & ? & ? & ?). split_ands; congruence. Qed.

Lemma write_step_inputs_model p tok r :
  write_step_inputs p tok = Returned r -> compiled_model r = compiled_model (m_kvcache_request p).
Proof.
  unfold write_step_inputs.
  destruct (poke "input_ids" _ _ _); cbn; [|done|done].
  destruct (poke "position_ids" _ _ _); cbn; [|done|done].
  destruct (poke "attention_mask" _ _ _); cbn; [|done|done].
  by intros [= <-].
Qed.

Lemma loop_body_setup streamer s : same_setup (pipeline (snd (loop_body streamer s))) (pipeline s).
Proof.
  unfold loop_body. cbv zeta.
  destruct (write_step_inputs _ _) as [r| |] eqn:Hw; [|apply same_setup_refl..].
  apply write_step_inputs_model in Hw.
  assert (same_setup (set_requests (pipeline s)
                        (mkDesc (total_size (m_kvcache_desc (pipeline s)))
                                (u32 (num_stored_tokens (m_kvcache_desc (pipeline s)) + 1)))
                        (m_prefill_request (pipeline s)) (infer r)) (pipeline s))
    by (unfold same_setup; cbn; tauto).
  destruct (put _ _ _); [done|]. destruct (_ =? _); [done|]. by destruct (_ =? _).
Qed.

Lemma decode_loop_setup n streamer :
  forall s, same_setup (pipeline (snd (decode_loop n streamer s))) (pipeline s).
Proof.
  induction n as [|n IH]; intros s; [apply same_setup_refl|]. cbn [decode_loop].
  pose proof (loop_body_setup streamer s) as Hb.
  destruct (loop_body streamer s) as [[[]| |] s1]; cbn [snd] in *; [done| |done|done].
  eapply same_setup_trans; [apply IH|done].
Qed.

Lemma run_setup config streamer L p : same_setup (snd (fst (run config streamer L p))) p.
Proof.
  unfold run. cbv zeta.
  destruct (put streamer [] _); [unfold same_setup; cbn; tauto|].
  match goal with |- context [decode_loop ?n ?st ?s0] =>
    pose proof (decode_loop_setup n st s0) as Hs;
    destruct (decode_loop n st s0) as [o1 s1] end.
  cbn [snd fst] in *. eapply same_setup_trans; [exact Hs|].
  unfold same_setup; cbn; tauto.
Qed.

Lemma pad_prompt_setup ids mask p p2 : pad_prompt ids mask p = Returned p2 -> same_setup p2 p.
Proof.
  unfold pad_prompt.
  destruct (copy_with_left_offset ids _); cbn; [|done|done].
  destruct (copy_with_left_offset mask _); cbn; [|done|done].
  destruct (iota _ _ _ _); cbn; [|done|done].
  intros [= <-]. unfold same_setup; cbn; tauto.
Qed.

(** A call leaves the setup of the pipeline and the sizes of its buffers as
    they were. *)
Lemma generate_keeps_setup inputs generation_config streamer p o p' evs :
  well_formed p = true ->
  generate init_attention_mask inputs generation_config streamer p = (o, p', evs) ->
  same_setup p' p /\ well_formed p' = true.
Proof.
  intros Hwf Hgen. pose proof Hgen as Hcases.
  pose proof (NPUProps.prepare_well_formed p Hwf) as Hwf1.
  assert (Hprep : same_setup (prepare_for_new_conversation p) p)
    by (unfold same_setup; cbn; tauto).
  apply NPUProps.generate_cases in Hcases
    as [(_ & -> & _)|(Hchk & HL & _)]; [split; [apply same_setup_refl|done]|].
  rewrite generate_checked in Hgen by done.
  destruct (pad_prompt _ _ _) as [p2| |] eqn:Hpad; [|by injection Hgen as _ <- _..].
  pose proof (pad_prompt_setup _ _ _ _ Hpad) as Hs2.
  apply NPUProps.pad_prompt_returned in Hpad as (Hwf2 & Hd2 & _); [|done].
  pose proof (run_setup (effective_config p generation_config) streamer
                (get_size (prompt_of init_attention_mask inputs)) p2) as Hs3.
  destruct (run _ _ _ p2) as [[o1 p3] evs1] eqn:Hrun. injection Hgen as _ <- _.
  cbn [fst snd] in Hs3.
  split; [eauto using same_setup_trans|].
  pose proof (get_size_nonneg (prompt_of init_attention_mask inputs)).
  apply NPUProps.run_spec in Hrun as (toks & _ & _ & _ & _ & _ & _ & _ & Hwf3 & _);
    [done|done|by rewrite Hd2|rewrite Hd2; cbn; lia].
Qed.

(** A call does not depend on the calls made before it: made after any
    call that did not go wrong, it ends in the same way, with the same
    tokens, the same deliveries to the streamer and the same bookkeeping, as
    when it is made first. The prefill graph is taken not to read
    key/value tensors, which it has none to read. *)
Theorem earlier_calls_leave_no_trace
    inputs0 config0 streamer0 inputs generation_config streamer p o0 p0 evs0 :
  well_formed p = true ->
  prefill_reads_no_cache p ->
  generate init_attention_mask inputs0 config0 streamer0 p = (o0, p0, evs0) ->
  (forall f, o0 <> Undefined f) ->
  fst (fst (generate init_attention_mask inputs generation_config streamer p0))
  = fst (fst (generate init_attention_mask inputs generation_config streamer p))
  /\ snd (generate init_attention_mask inputs generation_config streamer p0)
     = snd (generate init_attention_mask inputs generation_config streamer p).
Proof.
  intros Hwf Hblind Hgen _.
  destruct (generate_keeps_setup _ _ _ _ _ _ _ Hwf Hgen) as [Hsame Hwf0].
  destruct (generate_agree inputs generation_config streamer p p0 Hwf Hwf0) as [Ho He];
    [|done|by rewrite Ho, He].
  destruct Hsame as (? & ? & ? & ? & ?). unfold same_setup. split_ands; congruence.
Qed.

End Behaviour.

Lemma returned_tokens_are_bounded_witness :
  let p := example_pipeline 2 in
  let call := generate ones_mask (example_prompt 3) (Some (example_config 30 (-1) true)) None p in
  well_formed p = true
  /\ fst (fst call) = Returned (mkResults [[4; 5; 6; 7; 8; 9; 10; 1; 2]] [Fin 0])
  /\ exists first toks,
       first_token ones_mask (example_prompt 3) p = Some first
       /\ fst (fst call) = Returned (mkResults [toks] [Fin 0])
       /\ 3 + get_size toks <= 1024
       /\ get_size toks <= 29
       /\ last toks = Some (eos_token_id (m_generation_config p)).
Proof.
  intros p call.
  assert (Hwf : well_formed p = true) by reflexivity.
  assert (Hcall : call = (Returned (mkResults [[4; 5; 6; 7; 8; 9; 10; 1; 2]] [Fin 0]),
                          snd (fst call), snd call)) by (vm_compute; reflexivity).
  destruct (returned_tokens_are_bounded ones_mask (example_prompt 3)
              (Some (example_config 30 (-1) true)) None p _ _ _ Hwf Hcall)
    as (first & toks & Hfirst & Hres & Hroom & Hmax & _).
  split; [exact Hwf|]. split; [by rewrite Hcall|].
  exists first, toks. injection Hres as <-.
  split; [exact Hfirst|]. split; [by rewrite Hcall|].
  split; [exact Hroom|]. split; [exact Hmax|]. reflexivity.
Defined.

Lemma stored_count_below_capacity_witness :
  let p := example_pipeline 2 in
  let inputs := example_prompt 3 in
  let config := Some (example_config 5 (-1) true) in
  well_formed p = true
  /\ passes_checks ones_mask inputs config p = true
  /\ 0 < get_size (prompt_of ones_mask inputs) < total_size (m_kvcache_desc p)
  /\ get_size (mask_of ones_mask inputs) <= total_size (m_kvcache_desc p)
  /\ exists r p' evs toks,
       generate ones_mask inputs config None p = (Returned r, p', evs)
       /\ tokens r = [toks]
       /\ stored_values evs = 0 :: seqZ 3 (get_size toks + 1).
Proof.
  intros p inputs config.
  assert (Hwf : well_formed p = true) by reflexivity.
  assert (Hchk : passes_checks ones_mask inputs config p = true) by reflexivity.
  assert (HL : 0 < get_size (prompt_of ones_mask inputs) < total_size (m_kvcache_desc p))
    by (vm_compute; split; reflexivity).
  assert (Hmask : get_size (mask_of ones_mask inputs) <= total_size (m_kvcache_desc p))
    by (vm_compute; discriminate).
  destruct (stored_count_below_capacity ones_mask inputs config None p Hwf Hchk HL Hmask)
    as (r & p' & evs & toks & Hgen & Hres & _ & Hsv & _).
  split; [exact Hwf|]. split; [exact Hchk|]. split; [exact HL|]. split; [exact Hmask|].
  exists r, p', evs, toks. split; [exact Hgen|]. split; [exact Hres|exact Hsv].
Defined.


Lemma empty_prompt_reverses_the_position_range_witness :
  let p := example_pipeline 2 in
  well_formed p = true
  /\ passes_checks ones_mask (example_prompt 0) None p = true
  /\ generate ones_mask (example_prompt 0) None None p
     = (Undefined (BadRange "std::iota"), prepare_for_new_conversation p, [Stored 0]).
Proof.
  intros p.
  assert (Hwf : well_formed p = true) by reflexivity.
  assert (Hchk : passes_checks ones_mask (example_prompt 0) None p = true) by reflexivity.
  split; [exact Hwf|]. split; [exact Hchk|].
  apply (empty_prompt_reverses_the_position_range ones_mask (example_prompt 0) None None p Hwf Hchk).
  - reflexivity.
  - vm_compute. discriminate.
Defined.

Lemma oversized_mask_is_copied_out_of_bounds_witness :
  let p := example_pipeline 2 in
  let inputs := FromTokenized (mkTensor [1; 3] [5; 5; 5]) (mkTensor [1; 1025] (replicate 1025 1)) in
  well_formed p = true
  /\ passes_checks ones_mask inputs None p = true
  /\ exists f,
       generate ones_mask inputs None None p
       = (Undefined f, prepare_for_new_conversation p, [Stored 0]).
Proof.
  intros p inputs.
  assert (Hwf : well_formed p = true) by reflexivity.
  assert (Hchk : passes_checks ones_mask inputs None p = true) by reflexivity.
  split; [exact Hwf|]. split; [exact Hchk|].
  apply (oversized_mask_is_copied_out_of_bounds ones_mask inputs None None p Hwf Hchk).
  - vm_compute. discriminate.
  - vm_compute. reflexivity.
Defined.

Lemma buffers_after_a_call_witness :
  let p := example_pipeline 2 in
  let call := generate ones_mask (example_prompt 3) (Some (example_config 3 (-1) true)) None p in
  well_formed p = true
  /\ fst (fst call) = Returned (mkResults [[4; 5]] [Fin 0])
  /\ drop 1018 (attention_mask (m_kvcache_request (snd (fst call)))) = [0; 1; 1; 1; 1; 1]
  /\ input_ids (m_kvcache_request (snd (fst call))) = [4]
  /\ position_ids (m_kvcache_request (snd (fst call))) = [4].
Proof.
  intros p call.
  assert (Hwf : well_formed p = true) by reflexivity.
  assert (Hcall : call = (Returned (mkResults [[4; 5]] [Fin 0]), snd (fst call), snd call))
    by (vm_compute; reflexivity).
  destruct (buffers_after_a_call ones_mask (example_prompt 3)
              (Some (example_config 3 (-1) true)) None p _ _ _ Hwf eq_refl Hcall)
    as (first & toks & Hfirst & Hres & _ & _ & _ & _ & Hmask & Hlast).
  cbn in Hres. injection Hres as <-.
  destruct (Hlast ltac:(discriminate)) as [Hids Hpos].
  split; [exact Hwf|]. split; [by rewrite Hcall|].
  split; [rewrite (Hmask eq_refl); vm_compute; reflexivity|].
  split; [rewrite Hids|rewrite Hpos; reflexivity].
  vm_compute in Hfirst. injection Hfirst as <-. reflexivity.
Defined.

Lemma earlier_calls_leave_no_trace_witness :
  let p := example_pipeline 2 in
  let first_call := generate ones_mask (example_prompt 5) None None p in
  let again := generate ones_mask (example_prompt 3) None (stop_at 2) (snd (fst first_call)) in
  well_formed p = true
  /\ fst (fst first_call) = Returned (mkResults [[6; 7; 8; 9; 10; 1; 2]] [Fin 0])
  /\ fst (fst again) = fst (fst (generate ones_mask (example_prompt 3) None (stop_at 2) p))
  /\ snd again = snd (generate ones_mask (example_prompt 3) None (stop_at 2) p).
Proof.
  intros p first_call again.
  assert (Hwf : well_formed p = true) by reflexivity.
  assert (Hblind : prefill_reads_no_cache p) by (intros ids mask pos k k'; reflexivity).
  assert (Hcall : first_call
                  = (Returned (mkResults [[6; 7; 8; 9; 10; 1; 2]] [Fin 0]),
                     snd (fst first_call), snd first_call)) by (vm_compute; reflexivity).
  split; [exact Hwf|]. split; [by rewrite Hcall|].
  apply (earlier_calls_leave_no_trace ones_mask (example_prompt 5) None None
           (example_prompt 3) None (stop_at 2) p _ _ _ Hwf Hblind Hcall).
  intros f. discriminate.
Defined.

(** *** Setting up the graphs *)

Lemma emplace_lookup key value m name :
  emplace key value m !! name
  = match m !! name with
    | Some v => Some v
    | None => if decide (key = name) then Some value else None
    end.
Proof.
  unfold emplace. destruct (m !! key) as [v|] eqn:Hk.
  - destruct (m !! name) eqn:Hn; [done|]. destruct (decide (key = name)); [congruence|done].
  - destruct (decide (key = name)) as [<-|Hne].
    + rewrite Hk. apply lookup_insert_eq.
    + rewrite lookup_insert_ne by done. by destruct (m !! name).
Qed.

Lemma reshape_loop_lookup inputs input_size kvcache_size : forall m new_shapes name,
  reshape_loop inputs input_size kvcache_size m = Some new_shapes ->
  new_shapes !! name
  = match m !! name with
    | Some v => Some v
    | None => input ← head (filter (fun input => get_any_name input = name) inputs);
              new_shape input input_size kvcache_size
    end.
Proof.
  induction inputs as [|input inputs IH]; intros m new_shapes name; cbn [reshape_loop].
  - intros [= <-]. by destruct (m !! name).
  - destruct (new_shape input input_size kvcache_size) as [shape|] eqn:Hshape; [|done].
    cbn [mbind option_bind]. intros Hloop. rewrite (IH _ _ name Hloop), emplace_lookup.
    destruct (m !! name); [done|].
    rewrite filter_cons.
    destruct (decide (get_any_name input = name)) as [<-|Hne]; cbn; [done|done].
Qed.


Lemma reshape_loop_is_Some inputs input_size kvcache_size : forall m new_shapes,
  reshape_loop inputs input_size kvcache_size m = Some new_shapes ->
  forall input, input ∈ inputs -> is_Some (new_shape input input_size kvcache_size).
Proof.
  induction inputs as [|i inputs IH]; intros m new_shapes Hloop input Hin;
    [by apply elem_of_nil in Hin|].
  cbn [reshape_loop] in Hloop.
  destruct (new_shape i input_size kvcache_size) as [shape|] eqn:Hshape; [|done].
  apply elem_of_cons in Hin as [->|Hin]; [by rewrite Hshape|]. eauto.
Qed.

Lemma add_slices_Forall (Q : ParameterOp -> ParameterOp * option Slice -> Prop) params :
  Forall (fun param => exists new, add_slice param = Returned new /\ Q param new) params ->
  exists new_params,
    add_slices_to_kvcache_inputs params = Returned new_params /\ Forall2 Q params new_params.
Proof.
  induction 1 as [|param params (new & Hnew & HQ) _ (news & Hnews & HQs)].
  - exists []. split; [done|constructor].
  - exists (new :: news). cbn [add_slices_to_kvcache_inputs]. rewrite Hnew, Hnews.
    split; [done|by constructor].
Qed.

Lemma first_input_with_name inputs input :
  input ∈ inputs ->
  exists input0,
    head (filter (fun i => get_any_name i = get_any_name input) inputs) = Some input0
    /\ input0 ∈ inputs /\ get_any_name input0 = get_any_name input.
Proof.
  intros Hin.
  assert (Hf : input ∈ filter (fun i => get_any_name i = get_any_name input) inputs)
    by (by apply list_elem_of_filter).
  destruct (filter _ inputs) as [|input0 l] eqn:Hfilter; [by apply elem_of_nil in Hf|].
  exists input0. split; [done|].
  assert (Hin0 : input0 ∈ filter (fun i => get_any_name i = get_any_name input) inputs)
    by (rewrite Hfilter; by left).
  by apply list_elem_of_filter in Hin0 as [? ?].
Qed.

Lemma sliced_all_but_first {A : Type} (l : list A) n :
  1 <= n -> length l = Z.to_nat n -> sliced (mkSlice 1 n 1 2) l = drop 1 l.
Proof.
  intros Hn Hlen. unfold sliced. cbn [slice_start slice_stop].
  apply take_ge. rewrite length_drop. lia.
Qed.

(** The key/value inputs after the constructor's steps (4) and (5), for the
    two graphs, which are clones of one model. The prefill graph is reshaped
    with [input_size = kvcache_size]: its key/value inputs have no position
    at all. The generate graph is reshaped with [input_size = 1] and then
    given slices: each key/value input has [kvcache_size] positions, as many
    as the attention mask, and is read through a [Slice] that leaves out
    position 0 and so yields the [kvcache_size - 1] positions the graph was
    reshaped for; the other inputs are left alone. Key/value inputs are
    taken to be the inputs named [past_key_values...]. *)
Theorem cache_inputs_after_setup inputs kvcache_size prefill_shapes kvcache_shapes params :
  1 <= kvcache_size < 2 ^ 31 ->
  (forall input, input ∈ inputs ->
     Whisper.contains "past_key_values" (get_any_name input) = is_kv_input (get_any_name input)) ->
  reshape_to_static inputs kvcache_size kvcache_size = Some prefill_shapes ->
  reshape_to_static inputs 1 kvcache_size = Some kvcache_shapes ->
  reshaped kvcache_shapes inputs params ->
  (forall input, input ∈ inputs ->
     if is_kv_input (get_any_name input)
     then exists d1 d3, prefill_shapes !! get_any_name input = Some [1; d1; 0; d3]
     else exists n, prefill_shapes !! get_any_name input = Some [1; n])
  /\ exists new_params,
       add_slices_to_kvcache_inputs params = Returned new_params
       /\ Forall2 (fun param new =>
            tensor_name (fst new) = tensor_name param
            /\ if is_kv_input (tensor_name param)
               then exists d1 d3,
                      get_output_shape param = [1; d1; kvcache_size - 1; d3]
                      /\ get_output_shape (fst new) = [1; d1; kvcache_size; d3]
                      /\ snd new = Some (mkSlice 1 kvcache_size 1 2)
                      /\ forall (A : Type) (along_axis : list A),
                           length along_axis = Z.to_nat kvcache_size ->
                           sliced (mkSlice 1 kvcache_size 1 2) along_axis = drop 1 along_axis
               else new = (param, None))
            params new_params.
Proof.
  intros Hk Hnames Hprefill Hkvcache Hreshaped.
  unfold reshape_to_static in *.
  assert (Hshape : forall input_size new_shapes input,
            reshape_loop inputs input_size kvcache_size ∅ = Some new_shapes ->
            input ∈ inputs ->
            if is_kv_input (get_any_name input)
            then exists d1 d3,
                   new_shapes !! get_any_name input
                   = Some [1; d1; u32 (kvcache_size - input_size); d3]
            else exists n, new_shapes !! get_any_name input = Some [1; n]).
  { intros input_size new_shapes input Hloop Hin.
    rewrite (reshape_loop_lookup _ _ _ _ _ (get_any_name input) Hloop), lookup_empty.
    destruct (first_input_with_name inputs input Hin) as (input0 & -> & Hin0 & Hname).
    cbn [mbind option_bind].
    destruct (reshape_loop_is_Some _ _ _ _ _ Hloop input0 Hin0) as [sh Hsh]. revert Hsh.
    unfold new_shape, is_kv_input. cbv zeta. rewrite Hname.
    destruct (Whisper.contains "input_ids" _); cbn [negb andb]; [intros _; by eexists|].
    destruct (Whisper.contains "attention_mask" _); cbn [negb andb]; [intros _; by eexists|].
    destruct (Whisper.contains "position_ids" _); cbn [negb andb]; [intros _; by eexists|].
    destruct (get_length _ 1); cbn; [|done]. destruct (get_length _ 3); cbn; [eauto|done]. }
  split.
  - intros input Hin. specialize (Hshape _ _ input Hprefill Hin).
    replace (u32 (kvcache_size - kvcache_size)) with 0 in Hshape
      by (by rewrite Z.sub_diag). done.
  - apply add_slices_Forall.
    apply Forall_forall. intros param Hparam.
    assert (exists input, input ∈ inputs /\ tensor_name param = get_any_name input
                          /\ kvcache_shapes !! get_any_name input = Some (get_output_shape param))
      as (input & Hin & Hname & Hlook).
    { clear -Hreshaped Hparam. induction Hreshaped as [|input param' inputs params [? ?] _ IH].
      - by apply elem_of_nil in Hparam.
      - apply elem_of_cons in Hparam as [->|Hparam].
        + exists input. split; [by left|done].
        + destruct (IH Hparam) as (i & ? & ? & ?). exists i. split; [by right|done]. }
    specialize (Hshape _ _ input Hkvcache Hin). specialize (Hnames input Hin).
    unfold add_slice. rewrite Hname, Hnames.
    destruct (is_kv_input (get_any_name input)); cbn [negb].
    + destruct Hshape as (d1 & d3 & Hsh). rewrite Hlook in Hsh. injection Hsh as Hsh.
      rewrite (u32_small (kvcache_size - 1)) in Hsh by lia.
      rewrite Hsh. change ([1; d1; kvcache_size - 1; d3] !! 2%nat) with (Some (kvcache_size - 1)).
      cbv iota. replace (kvcache_size - 1 + 1) with kvcache_size by lia.
      rewrite (u64_small kvcache_size) by lia.
      assert (Hi32 : i32 kvcache_size = kvcache_size).
      { unfold i32. rewrite Z.mod_small by lia. lia. }
      rewrite Hi32. eexists. split; [done|]. cbn [fst snd tensor_name get_output_shape].
      split; [done|]. exists d1, d3.
      split; [done|]. split; [done|]. split; [done|].
      intros A l Hl. apply sliced_all_but_first; [lia|done].
    + eexists. split; [done|]. done.
Qed.

Lemma cache_inputs_after_setup_witness :
  let inputs := [mkInput "input_ids" [None; None];
                 mkInput "attention_mask" [None; None];
                 mkInput "position_ids" [None; None];
                 mkInput "past_key_values.0.key" [None; Some 32; None; Some 128]] in
  let params := [mkParameterOp "input_ids" [1; 1];
                 mkParameterOp "attention_mask" [1; 1024];
                 mkParameterOp "position_ids" [1; 1];
                 mkParameterOp "past_key_values.0.key" [1; 32; 1023; 128]] in
  (exists prefill_shapes,
     reshape_to_static inputs 1024 1024 = Some prefill_shapes
     /\ prefill_shapes !! "past_key_values.0.key" = Some [1; 32; 0; 128])
  /\ add_slices_to_kvcache_inputs params
     = Returned [(mkParameterOp "input_ids" [1; 1], None);
                 (mkParameterOp "attention_mask" [1; 1024], None);
                 (mkParameterOp "position_ids" [1; 1], None);
                 (mkParameterOp "past_key_values.0.key" [1; 32; 1024; 128],
                  Some (mkSlice 1 1024 1 2))].
Proof.
  intros inputs params.
  assert (Hsome : bool_decide (is_Some (reshape_to_static inputs 1024 1024)) = true)
    by (vm_compute; reflexivity).
  apply bool_decide_eq_true in Hsome as [prefill_shapes Hprefill].
  assert (Hsome : bool_decide (is_Some (reshape_to_static inputs 1 1024)) = true)
    by (vm_compute; reflexivity).
  apply bool_decide_eq_true in Hsome as [kvcache_shapes Hkvcache].
  assert (Hk : 1 <= 1024 < 2 ^ 31) by lia.
  assert (Hnames : forall input, input ∈ inputs ->
            Whisper.contains "past_key_values" (get_any_name input)
            = is_kv_input (get_any_name input)).
  { intros input Hin. unfold inputs in Hin.
    repeat (apply elem_of_cons in Hin as [->|Hin]); [reflexivity..|by apply elem_of_nil in Hin]. }
  assert (Hlook : forall name, kvcache_shapes !! name
                               = reshape_to_static inputs 1 1024 ≫= (.!! name))
    by (intros name; by rewrite Hkvcache).
  assert (Hreshaped : reshaped kvcache_shapes inputs params).
  { repeat constructor; rewrite Hlook; vm_compute; reflexivity. }
  destruct (cache_inputs_after_setup inputs 1024 prefill_shapes kvcache_shapes params
              Hk Hnames Hprefill Hkvcache Hreshaped) as [Hpre (new_params & Hnew & _)].
  split.
  - exists prefill_shapes. split; [exact Hprefill|].
    destruct (Hpre (mkInput "past_key_values.0.key" [None; Some 32; None; Some 128]))
      as (d1 & d3 & Hshape).
    { unfold inputs. do 3 (apply elem_of_cons; right). apply elem_of_cons. by left. }
    assert (Hvalue : reshape_to_static inputs 1024 1024 ≫= (.!! "past_key_values.0.key")
                     = Some [1; 32; 0; 128]) by (vm_compute; reflexivity).
    rewrite Hprefill in Hvalue. exact Hvalue.
  - reflexivity.
Defined.

End NPUBehaviour.

(** * Further properties of the static Whisper pipeline *)

Module WhisperBehaviour.
Import Whisper WhisperTokens.

Section Behaviour.
Context {Slab : Type} (array_data_bin : list f32).
Local Abbreviation M := (Whisper.M Slab).

(** *** The tokens of a call *)

Lemma stopped_no_puts sink evs : forall s, puts evs = [] -> stopped sink s evs = false.
Proof.
  induction evs as [|e evs IH]; intros s Hp; [done|].
  destruct e; cbn in *; try by apply IH. done.
Qed.

Lemma stopped_one sink evs : forall s tok,
  puts evs = [tok] -> stopped sink s evs = sink (s ++ [tok]).
Proof.
  induction evs as [|e evs IH]; intros s tok Hp; [done|].
  destruct e; cbn in *; try by apply IH.
  injection Hp as -> Hp. by rewrite stopped_no_puts, orb_false_r.
Qed.

(** As the source is written, a call that returns holds one token at most.
    It returns the empty list when there is no audio or [max_new_tokens] is
    0, and then nothing has been submitted. Otherwise it returns the token
    of the first decode of the first frame, after one inference of the
    encoder and one of the first-decode graph, and it does so only when the
    streamer asked to stop on that token or when [max_new_tokens] is 1: with
    a larger budget and no "stop", the call ends in [decode_with_past]. The
    streamer, if any, has been given the token. *)
Theorem a_returned_call_holds_one_token raw generation_config streamer
    (p : StaticWhisperPipeline Slab) toks p' evs :
  Config.get_max_new_tokens (default (m_generation_config p) generation_config) < 2 ^ 64 ->
  generate array_data_bin raw generation_config streamer p = (Returned toks, p', evs) ->
  toks = [] /\ evs = []
  /\ (raw = [] \/ Config.get_max_new_tokens
                    (default (m_generation_config p) generation_config) <= 0)
  \/ exists tok,
       toks = [tok]
       /\ bookkeeping evs = [Infer Encoder; Infer Decoder]
       /\ puts evs = delivered streamer [tok]
       /\ ((exists sink, streamer = Some sink /\ sink [tok] = true)
           \/ Config.get_max_new_tokens
                (default (m_generation_config p) generation_config) = 1).
Proof.
  intros Hlim Hgen.
  destruct (WhisperProps.generate_one_frame _ _ _ _ _ _ _ _ Hlim Hgen) as (_ & _ & _ & Hret).
  destruct (Hret toks eq_refl) as [(-> & -> & Hwhy)|(tok & -> & Hbk & Hputs & Hwhy)];
    [by left|right].
  exists tok. split; [done|]. split; [done|]. split; [by destruct streamer|].
  destruct Hwhy as [Hstop|?]; [left|by right].
  destruct streamer as [sink|]; [|by rewrite WhisperProps.stopped_sink_of_None in Hstop].
  exists sink. split; [done|]. cbn [sink_of] in Hstop.
  by rewrite (stopped_one sink evs [] tok Hputs) in Hstop.
Qed.

(** Where an exception of a sequence comes from. *)
Lemma bind_thrown {A B : Type} (m : M A) (k : A -> M B) w e w' evs :
  (m ≫= k) w = (Thrown e, w', evs) ->
  m w = (Thrown e, w', evs)
  \/ exists a w1 e1 e2, m w = (Returned a, w1, e1) /\ k a w1 = (Thrown e, w', e2)
                         /\ evs = e1 ++ e2.
Proof.
  rewrite WhisperProps.bind_run.
  destruct (m w) as [[[a|x|f] w1] e1]; [|intros [= -> -> ->]; by left|done].
  destruct (k a w1) as [[o2 w2] e2] eqn:Hk. intros [= -> <- <-]. right.
  by exists a, w1, e1, e2.
Qed.

Lemma lift_thrown {A : Type} (o : Outcome A) (w : World Slab) e w' evs :
  lift o w = (Thrown e, w', evs) -> o = Thrown e.
Proof. by intros [= ->]. Qed.

Lemma lift_returned {A : Type} (o : Outcome A) (w : World Slab) a w' evs :
  lift o w = (Returned a, w', evs) -> o = Returned a /\ w' = w /\ evs = [].
Proof. by intros [= -> <- <-]. Qed.

Lemma suppress_tokens_thrown logits batch_idx toks e :
  suppress_tokens logits batch_idx toks = Thrown e -> e <> IntException 1.
Proof.
  assert (Hloop : forall toks d offset x, suppress_loop d offset toks <> Thrown x).
  { clear. induction toks as [|tok toks IH]; intros d offset x; [done|]. cbn [suppress_loop].
    unfold poke. destruct (_ && _); cbn; [apply IH|done]. }
  unfold suppress_tokens. destruct (_ <? _); [by intros [= <-]|].
  destruct (suppress_loop _ _ _) as [d|x|f] eqn:Hd; cbn; [done| |done].
  by apply Hloop in Hd.
Qed.

(** No call of [decode_with_past] returns a token: it ends in an exception
    or goes wrong. It submits one inference at most, and the exception of
    line 281, the integer 1, is thrown after that inference has been made:
    the writes to the input tensors were within bounds and
    [suppress_tokens] went through. *)
Theorem decode_with_past_never_returns input_id position_id config (w : World Slab) :
  let r := decode_with_past input_id position_id config w in
  ~ is_returned (fst (fst r))
  /\ snd r `prefix_of` [Infer DecoderWithPast]
  /\ (fst (fst r) = Thrown (IntException 1) -> snd r = [Infer DecoderWithPast]).
Proof.
  cbv zeta. split; [apply WhisperProps.decode_with_past_stuck|].
  split; [apply WhisperProps.emits_decode_with_past|].
  destruct (decode_with_past input_id position_id config w) as [[o w'] evs] eqn:Hrun.
  cbn [fst snd]. intros ->. unfold decode_with_past in Hrun.
  apply bind_thrown in Hrun as [Hm|(? & ? & ? & ? & Hm & Hrun & ->)]; [done|].
  injection Hm as <- <- <-.
  apply bind_thrown in Hrun as [Hm|(? & ? & ? & ? & Hm & Hrun & ->)].
  { apply lift_thrown in Hm. unfold poke in Hm. by destruct (_ && _). }
  apply lift_returned in Hm as (_ & -> & ->).
  apply bind_thrown in Hrun as [Hm|(? & ? & ? & ? & Hm & Hrun & ->)].
  { apply lift_thrown in Hm. unfold poke in Hm. by destruct (_ && _). }
  apply lift_returned in Hm as (_ & -> & ->).
  apply bind_thrown in Hrun as [Hm|(? & ? & ? & ? & Hm & Hrun & ->)].
  { apply lift_thrown in Hm. unfold poke in Hm. by destruct (_ && _). }
  apply lift_returned in Hm as (_ & -> & ->).
  apply bind_thrown in Hrun as [Hm|([] & ? & ? & ? & Hm & Hrun & ->)]; [done|].
  injection Hm as <- <-.
  apply bind_thrown in Hrun as [Hm|(? & ? & ? & ? & Hm & Hrun & ->)].
  { unfold get_key_value in Hm. rewrite WhisperProps.bind_run in Hm. cbn [tensors_of] in Hm.
    by destruct (_ !! _). }
  apply (WhisperProps.emits_returned _ _ _ _ _ _ (WhisperProps.emits_get_key_value _ _))
    in Hm as [_ ->].
  apply bind_thrown in Hrun as [Hm|([] & ? & ? & ? & Hm & Hrun & ->)]; [done|].
  injection Hm as <- <-.
  apply bind_thrown in Hrun as [Hm|(? & ? & ? & ? & Hm & Hrun & ->)]; [done|].
  injection Hm as <- <- <-.
  apply bind_thrown in Hrun as [Hm|(? & ? & ? & ? & Hm & Hrun & ->)].
  { apply lift_thrown in Hm. by apply suppress_tokens_thrown in Hm. }
  apply lift_returned in Hm as (_ & -> & ->).
  apply bind_thrown in Hrun as [Hm|([] & ? & ? & ? & Hm & Hrun & ->)]; [done|].
  apply (WhisperProps.emits_returned _ _ _ _ _ _ (WhisperProps.emits_set_logits _ _))
    in Hm as [_ ->].
  apply bind_thrown in Hrun as [Hm|([] & ? & ? & ? & Hm & Hrun & ->)]; [|done].
  unfold raise, lift in Hm. by simplify_eq.
Qed.

(** The calls that submit no inference: [validate()] throws, there is no
    audio, [max_new_tokens] is 0, or the features extracted from the first
    frame do not have the size the encoder is given. Such a call leaves the
    pipeline as it was; it returns an empty list in the second and third
    case and throws in the others. *)
Theorem calls_without_inference raw generation_config streamer
    (p : StaticWhisperPipeline Slab) o p' evs :
  let config := default (m_generation_config p) generation_config in
  let fe := m_feature_extractor p in
  let first_frame := take (Z.to_nat (Z.min (get_size raw) (u64 (n_samples fe)))) raw in
  generate array_data_bin raw generation_config streamer p = (o, p', evs) ->
  (evs = [] <->
   Config.validate config <> None \/ raw = [] \/ Config.get_max_new_tokens config <= 0
   \/ get_size (extract fe first_frame) <> u64 (feature_size fe * nb_max_frames fe))
  /\ (evs = [] ->
      p' = p
      /\ match Config.validate config with
         | Some msg => o = Thrown (OvException msg)
         | None =>
             if bool_decide (raw = [] \/ Config.get_max_new_tokens config <= 0)
             then o = Returned []
             else o = Thrown (mel_size_error (feature_size fe) (nb_max_frames fe)
                                             (get_size (extract fe first_frame)))
         end).
Proof.
  intros config fe first_frame. unfold generate. fold config fe.
  assert (Hp : mkPipeline (m_generation_config p) fe (m_models p) = p) by (by destruct p).
  destruct (Config.validate config) as [msg|] eqn:Hval.
  { intros [= <- <- <-]. split; [split; [by left|done]|done]. }
  cbv zeta.
  destruct (Z.to_nat (Config.get_max_new_tokens config)) as [|fuel] eqn:Hfuel.
  { cbn. intros [= <- <- <-]. rewrite Hp.
    split; [split; [intros _; right; right; left; lia|done]|].
    intros _. split; [done|]. rewrite bool_decide_eq_true_2; [done|right; lia]. }
  cbn [chunk_loop].
  destruct (Z.ltb_spec 0 (get_size raw)) as [Hraw|Hraw]; cbn [negb]; cycle 1.
  { cbn. intros [= <- <- <-]. rewrite Hp.
    assert (raw = []) as -> by (destruct raw; [done|unfold get_size in Hraw; cbn in Hraw; lia]).
    split; [split; [intros _; right; by left|done]|].
    intros _. split; [done|]. rewrite bool_decide_eq_true_2; [done|by left]. }
  change (get_size []) with 0.
  destruct (Z.leb_spec (Config.get_max_new_tokens config) 0) as [Hmax|Hmax]; [lia|].
  set (mel := extract fe _).
  assert (Hmel : mel = extract fe first_frame).
  { unfold mel, first_frame. by rewrite Z.sub_0_r. }
  clearbody mel. subst mel.
  assert (Hnot : ~ (raw = [] \/ Config.get_max_new_tokens config <= 0)).
  { intros [->|?]; [by cbn in Hraw|lia]. }
  rewrite WhisperProps.bind_run.
  destruct (Z.eqb_spec (get_size (extract fe first_frame))
                       (u64 (feature_size fe * nb_max_frames fe))) as [Hsize|Hsize].
  - assert (Henc : exists hidden w1,
              encode (extract fe first_frame) (feature_size fe) (nb_max_frames fe)
                     (mkWorld (m_models p) [])
              = (Returned hidden, w1, [Infer Encoder])).
    { unfold encode. rewrite (proj2 (Z.eqb_eq _ _) Hsize). by eexists _, _. }
    destruct Henc as (hidden & w1 & ->).
    destruct (_ ≫= _) as [[o2 w2] e2].
    intros [= <- <- <-]. split; [split; [done|]|done].
    intros [?|[?|[?|?]]]; [done|tauto|tauto|done].
  - assert (Henc : encode (extract fe first_frame) (feature_size fe) (nb_max_frames fe)
                          (mkWorld (m_models p) [])
                   = (Thrown (mel_size_error (feature_size fe) (nb_max_frames fe)
                                             (get_size (extract fe first_frame))),
                      mkWorld (m_models p) [], [])).
    { unfold encode. by rewrite (proj2 (Z.eqb_neq _ _) Hsize). }
    rewrite Henc. intros [= <- <- <-]. rewrite Hp.
    split; [split; [intros _; by repeat right|done]|].
    intros _. split; [done|]. by rewrite bool_decide_eq_false_2.
Qed.

(** *** What the decoding does not read *)

(** The world with another encoder request. *)
Local Abbreviation with_encoder e w :=
  (mkWorld (mkModels e (decoder (models w)) (decoder_with_past (models w))) (streamed w)).

(** A computation that neither reads nor writes the encoder request. *)
Local Abbreviation blind m :=
  (forall (e : InferRequest Slab) (w : World Slab),
     m (with_encoder e w)
     = (fst (fst (m w)), with_encoder e (snd (fst (m w))), snd (m w))).

Lemma blind_bind {A B : Type} (m : M A) (k : A -> M B) :
  blind m -> (forall a, blind (k a)) -> blind (m ≫= k).
Proof.
  intros Hm Hk e w. rewrite !WhisperProps.bind_run, Hm.
  destruct (m w) as [[[a|x|f] w1] e1]; cbn [fst snd]; [|done|done].
  rewrite Hk. by destruct (k a w1) as [[o2 w2] e2].
Qed.

Lemma blind_ret {A : Type} (a : A) : blind (mret a : M A).
Proof. done. Qed.

Lemma blind_lift {A : Type} (o : Outcome A) : blind (lift o : M A).
Proof. done. Qed.

Lemma blind_raise {A : Type} x : blind (raise x : M A).
Proof. done. Qed.

Lemma blind_emit x : blind (emit x : M unit).
Proof. done. Qed.

Lemma blind_tensors_of id : id <> Encoder -> blind (tensors_of id : M _).
Proof. by destruct id. Qed.

Lemma blind_outputs_of id : id <> Encoder -> blind (outputs_of id : M _).
Proof. by destruct id. Qed.

Lemma blind_bind_tensors id t : id <> Encoder -> blind (bind_tensors id t : M _).
Proof. by destruct id. Qed.

Lemma blind_infer id : id <> Encoder -> blind (infer id : M _).
Proof. by destruct id. Qed.

Lemma blind_put streamer tok : blind (put streamer tok : M _).
Proof. by destruct streamer. Qed.

Lemma blind_get_key_value id name : id <> Encoder -> blind (get_key_value id name : M _).
Proof.
  intros Hid. unfold get_key_value. apply blind_bind; [by apply blind_tensors_of|].
  intros t. destruct (key_values t !! name); [apply blind_ret|apply blind_raise].
Qed.

Lemma blind_set_key_value id name kv : id <> Encoder -> blind (set_key_value id name kv : M _).
Proof.
  intros Hid. unfold set_key_value. apply blind_bind; [by apply blind_tensors_of|].
  intros t. by apply blind_bind_tensors.
Qed.

Lemma blind_set_logits id lg : id <> Encoder -> blind (set_logits id lg : M _).
Proof.
  intros Hid. unfold set_logits. apply blind_bind; [by apply blind_tensors_of|].
  intros t. by apply blind_bind_tensors.
Qed.

Ltac blind_step :=
  first
    [ apply blind_ret | apply blind_lift | apply blind_raise | apply blind_emit
    | apply blind_put
    | apply blind_tensors_of; done | apply blind_outputs_of; done
    | apply blind_bind_tensors; done | apply blind_infer; done
    | apply blind_get_key_value; done | apply blind_set_key_value; done
    | apply blind_set_logits; done ].

Ltac blindly :=
  repeat first
    [ blind_step
    | apply blind_bind; [solve [blindly]|intros ?]
    | match goal with |- forall e w, (if ?b then _ else _) _ = _ => destruct b end
    | match goal with |- forall e w, (match ?x with _ => _ end) _ = _ => destruct x end ].

Lemma blind_copy_cross_attn_loop names source dest :
  source <> Encoder -> dest <> Encoder ->
  blind (copy_cross_attn_loop names source dest : M _).
Proof.
  intros Hs Hd. induction names as [|name names IH]; cbn [copy_cross_attn_loop];
    [apply blind_ret|].
  apply blind_bind; [destruct (contains _ _); blindly|intros _; exact IH].
Qed.

Lemma blind_update_past_loop names source dest kv_pos :
  source <> Encoder -> dest <> Encoder ->
  blind (update_past_loop names source dest kv_pos : M _).
Proof.
  intros Hs Hd. induction names as [|name names IH]; cbn [update_past_loop];
    [apply blind_ret|].
  apply blind_bind; [destruct (contains _ _); blindly|intros _; exact IH].
Qed.

Lemma blind_update_past_key_value source dest kv_pos :
  source <> Encoder -> dest <> Encoder ->
  blind (update_past_key_value source dest kv_pos : M _).
Proof.
  intros Hs Hd. unfold update_past_key_value.
  apply blind_bind; [apply blind_emit|]. intros _.
  apply blind_bind; [by apply blind_outputs_of|]. intros names.
  by apply blind_update_past_loop.
Qed.

Lemma blind_decode hidden ids config do_suppress :
  blind (decode array_data_bin hidden ids config do_suppress : M _).
Proof. unfold decode. blindly. Qed.

Lemma blind_decode_with_past input_id position_id config :
  blind (decode_with_past input_id position_id config : M _).
Proof. unfold decode_with_past. blindly. Qed.

Lemma blind_copy_cross_attn_key_value source dest :
  source <> Encoder -> dest <> Encoder ->
  blind (copy_cross_attn_key_value source dest : M _).
Proof.
  intros Hs Hd. unfold copy_cross_attn_key_value.
  apply blind_bind; [apply blind_emit|]. intros _.
  apply blind_bind; [by apply blind_outputs_of|]. intros names.
  by apply blind_copy_cross_attn_loop.
Qed.

Lemma blind_prepare_decoder_with_past : blind (prepare_decoder_with_past : M _).
Proof.
  unfold prepare_decoder_with_past.
  apply blind_bind; [by apply blind_tensors_of|]. intros t.
  apply blind_bind; [apply blind_lift|]. intros mask.
  apply blind_bind; [by apply blind_bind_tensors|]. intros _.
  apply blind_bind; [by apply blind_copy_cross_attn_key_value|]. intros _.
  by apply blind_update_past_key_value.
Qed.

Lemma blind_full_decode_loop config streamer n : forall i output_tokens,
  blind (full_decode_loop n i config streamer output_tokens : M _).
Proof.
  induction n as [|n IH]; intros i output_tokens; cbn [full_decode_loop]; [apply blind_ret|].
  apply blind_bind; [apply blind_decode_with_past|]. intros output_token.
  apply blind_bind; [by apply blind_update_past_key_value|]. intros _.
  destruct (_ =? _); [apply blind_ret|].
  apply blind_bind; [apply blind_put|]. intros [|]; [apply blind_ret|apply IH].
Qed.

Lemma blind_full_decode hidden config max_new_tokens streamer :
  blind (full_decode array_data_bin hidden config max_new_tokens streamer : M _).
Proof.
  unfold full_decode.
  apply blind_bind; [apply blind_decode|]. intros output_token.
  apply blind_bind; [apply blind_put|]. intros [|]; [apply blind_ret|].
  destruct (_ =? _); [apply blind_ret|].
  apply blind_bind; [apply blind_prepare_decoder_with_past|]. intros _.
  apply blind_full_decode_loop.
Qed.

Lemma encode_of_right_size mel feature_size nb_max_frames (w : World Slab) :
  get_size mel = u64 (feature_size * nb_max_frames) ->
  exists hidden e,
    encode mel feature_size nb_max_frames w = (Returned hidden, with_encoder e w, [Infer Encoder]).
Proof.
  intros Hsize. unfold encode. rewrite (proj2 (Z.eqb_eq _ _) Hsize). by eexists _, _.
Qed.

(** The chunk loop on two recordings of the same length, from worlds that
    differ in the encoder request only. *)
Lemma chunk_loop_ignores_audio fe raw1 raw2 config streamer max_new_tokens fuel :
  (forall samples, get_size (extract fe samples) = u64 (feature_size fe * nb_max_frames fe)) ->
  get_size raw1 = get_size raw2 ->
  forall chunk_offset output_tokens (w : World Slab) e1 e2,
    exists o w' e1' e2' evs,
      chunk_loop array_data_bin fuel fe raw1 config streamer max_new_tokens
                 chunk_offset output_tokens (with_encoder e1 w)
      = (o, with_encoder e1' w', evs)
      /\ chunk_loop array_data_bin fuel fe raw2 config streamer max_new_tokens
                    chunk_offset output_tokens (with_encoder e2 w)
         = (o, with_encoder e2' w', evs).
Proof.
  intros Hmel Hlen.
  induction fuel as [|fuel IH]; intros chunk_offset output_tokens w e1 e2; cbn [chunk_loop].
  { by eexists _, w, e1, e2, _. }
  rewrite <- Hlen.
  destruct (chunk_offset <? get_size raw1); cbn [negb]; [|by eexists _, w, e1, e2, _].
  destruct (max_new_tokens <=? get_size output_tokens); [by eexists _, w, e1, e2, _|].
  rewrite !WhisperProps.bind_run.
  destruct (encode_of_right_size (extract fe (take (Z.to_nat (Z.min (get_size raw1 - chunk_offset)
                                                             (u64 (n_samples fe))))
                                                   (drop (Z.to_nat chunk_offset) raw1)))
              (feature_size fe) (nb_max_frames fe) (with_encoder e1 w) (Hmel _))
    as (h1 & x1 & ->).
  destruct (encode_of_right_size (extract fe (take (Z.to_nat (Z.min (get_size raw1 - chunk_offset)
                                                             (u64 (n_samples fe))))
                                                   (drop (Z.to_nat chunk_offset) raw2)))
              (feature_size fe) (nb_max_frames fe) (with_encoder e2 w) (Hmel _))
    as (h2 & x2 & ->).
  cbn [models streamed decoder decoder_with_past].
  rewrite !WhisperProps.bind_run.
  change (full_decode (Slab := Slab) array_data_bin h2)
    with (full_decode (Slab := Slab) array_data_bin h1).
  rewrite (blind_full_decode h1 config _ streamer x1 w).
  rewrite (blind_full_decode h1 config _ streamer x2 w).
  destruct (full_decode _ _ _ _ _ w) as [[[[cancelled chunk]|x|f] w2] ev2]; cbn [fst snd].
  - destruct cancelled.
    + by eexists _, w2, x1, x2, _.
    + destruct (IH (u64 (chunk_offset + n_samples fe)) (output_tokens ++ chunk) w2 x1 x2)
        as (o & w' & e1' & e2' & evs & -> & ->).
      by eexists _, w', e1', e2', _.
  - by eexists _, w2, x1, x2, _.
  - by eexists _, w2, x1, x2, _.
Qed.

(** As the source is written, the tokens do not depend on the audio.
    [decode] replaces the hidden state it is handed by the contents of the
    file [array_data.bin] before it binds it to the decoder, so nothing the
    encoder computes is read again: two calls on recordings of the same
    length end in the same way, with the same tokens and the same events,
    and leave the two decoder requests in the same state. The feature
    extractor is taken to yield features of the size the encoder is given. *)
Theorem tokens_do_not_depend_on_the_audio raw1 raw2 generation_config streamer
    (p : StaticWhisperPipeline Slab) :
  (forall samples,
     get_size (extract (m_feature_extractor p) samples)
     = u64 (feature_size (m_feature_extractor p) * nb_max_frames (m_feature_extractor p))) ->
  get_size raw1 = get_size raw2 ->
  let call1 := generate array_data_bin raw1 generation_config streamer p in
  let call2 := generate array_data_bin raw2 generation_config streamer p in
  fst (fst call1) = fst (fst call2)
  /\ snd call1 = snd call2
  /\ decoder (m_models (snd (fst call1))) = decoder (m_models (snd (fst call2)))
  /\ decoder_with_past (m_models (snd (fst call1)))
     = decoder_with_past (m_models (snd (fst call2))).
Proof.
  intros Hmel Hlen. cbv zeta. unfold generate.
  destruct (Config.validate _); [done|]. cbv zeta.
  set (w0 := mkWorld (m_models p) []).
  assert (Hw0 : w0 = with_encoder (encoder (m_models p)) w0) by (unfold w0; by destruct (m_models p)).
  rewrite Hw0.
  destruct (chunk_loop_ignores_audio (m_feature_extractor p) raw1 raw2
              (default (m_generation_config p) generation_config) streamer
              (Config.get_max_new_tokens (default (m_generation_config p) generation_config))
              (Z.to_nat (Config.get_max_new_tokens
                           (default (m_generation_config p) generation_config)))
              Hmel Hlen 0 [] w0 (encoder (m_models p)) (encoder (m_models p)))
    as (o & w' & e1' & e2' & evs & -> & ->).
  done.
Qed.

End Behaviour.

Lemma a_returned_call_holds_one_token_witness :
  let call := generate [] (example_audio 8) None (stop_at 1) example_pipeline in
  Config.get_max_new_tokens (default (m_generation_config example_pipeline) None) < 2 ^ 64
  /\ call = (Returned [3], snd (fst call), snd call)
  /\ bookkeeping (snd call) = [Infer Encoder; Infer Decoder]
  /\ puts (snd call) = [3].
Proof.
  intros call.
  assert (Hlim : Config.get_max_new_tokens (default (m_generation_config example_pipeline) None)
                 < 2 ^ 64) by reflexivity.
  assert (Ho : fst (fst call) = Returned [3]) by (vm_compute; reflexivity).
  assert (Hcall : call = (Returned [3], snd (fst call), snd call)).
  { rewrite <- Ho. generalize call. by intros [[? ?] ?]. }
  destruct (a_returned_call_holds_one_token [] (example_audio 8) None (stop_at 1)
              example_pipeline _ _ _ Hlim Hcall)
    as [(Hnil & _)|(tok & Htok & Hbk & Hputs & _)]; [discriminate|].
  injection Htok as <-.
  split; [exact Hlim|]. split; [exact Hcall|]. split; [exact Hbk|exact Hputs].
Defined.

Lemma calls_without_inference_witness :
  let p := mkPipeline (example_config 20) (mkExtractor 4 2 3 (fun s => s)) example_models in
  let call := generate [] (example_audio 3) None None p in
  call = (Thrown (OvException "Mel spectrogram required size: 2 * 3. Actual size: 3."), p, []).
Proof.
  intros p call.
  set (o := fst (fst call)). set (p' := snd (fst call)).
  assert (He : snd call = []) by (vm_compute; reflexivity).
  assert (Hcall : call = (o, p', [])).
  { unfold o, p'. rewrite <- He. generalize call. by intros [[? ?] ?]. }
  clearbody o p'.
  destruct (calls_without_inference [] (example_audio 3) None None p _ _ _ Hcall)
    as [_ Hquiet].
  destruct (Hquiet eq_refl) as [Hp Ho].
  rewrite Hcall, Hp. cbn in Ho.
  rewrite bool_decide_eq_false_2 in Ho by (intros [?|?]; [discriminate|lia]).
  by rewrite Ho.
Defined.

Lemma tokens_do_not_depend_on_the_audio_witness :
  let silence := replicate 8 (Fin 0) in
  let speech := [Fin 3; Fin (-8); Fin 12; Fin 4; Fin (-9); Fin 1; Fin 0; Fin 7] in
  fst (fst (generate [] silence None (stop_at 1) example_pipeline)) = Returned [3]
  /\ fst (fst (generate [] silence None (stop_at 1) example_pipeline))
     = fst (fst (generate [] speech None (stop_at 1) example_pipeline)).
Proof.
  intros silence speech.
  assert (Hmel : forall samples,
            get_size (extract (m_feature_extractor example_pipeline) samples)
            = u64 (feature_size (m_feature_extractor example_pipeline)
                   * nb_max_frames (m_feature_extractor example_pipeline))).
  { intros samples. change (get_size (take 4 (samples ++ replicate 4 (Fin 0))) = 4).
    unfold get_size. rewrite length_take, length_app, length_replicate. lia. }
  assert (Hlen : get_size silence = get_size speech) by reflexivity.
  destruct (tokens_do_not_depend_on_the_audio [] silence speech None (stop_at 1)
              example_pipeline Hmel Hlen) as (Ho & _).
  split; [vm_compute; reflexivity|exact Ho].
Defined.

(** *** Suppression of tokens *)

Lemma suppress_loop_app toks1 : forall d offset toks2,
  suppress_loop d offset (toks1 ++ toks2)
  = (d1 ← suppress_loop d offset toks1; suppress_loop d1 offset toks2).
Proof.
  induction toks1 as [|t toks1 IH]; intros d offset toks2; cbn [app suppress_loop]; [done|].
  destruct (poke "logits_data" d (offset + t) NInf); cbn; [apply IH|done|done].
Qed.

(** Suppressing two lists one after the other, as [decode] does with
    [begin_suppress_tokens] and [suppress_tokens], is suppressing their
    concatenation, failures included. *)
Theorem suppress_tokens_one_after_the_other logits batch_idx toks1 toks2 :
  (logits1 ← suppress_tokens logits batch_idx toks1; suppress_tokens logits1 batch_idx toks2)
  = suppress_tokens logits batch_idx (toks1 ++ toks2).
Proof.
  unfold suppress_tokens.
  destruct (batch logits <? batch_idx) eqn:Hb; [done|].
  rewrite suppress_loop_app.
  destruct (suppress_loop (data logits) _ toks1) as [d1| |]; cbn; [|done|done].
  by rewrite Hb.
Qed.

Lemma suppress_loop_in_range toks : forall d offset,
  (forall tok, tok ∈ toks -> 0 <= offset + tok < get_size d) ->
  exists d', suppress_loop d offset toks = Returned d'.
Proof.
  induction toks as [|t toks IH]; intros d offset Hin; cbn [suppress_loop]; [by eexists|].
  rewrite poke_in_range by (apply Hin; by left). cbn.
  apply IH. intros tok Htok. rewrite get_size_insert. apply Hin. by right.
Qed.

(** The result of a suppression that returns depends on the set of the ids
    only, not on their order or on repetitions. *)
Theorem suppression_depends_on_the_set_of_ids logits batch_idx toks1 toks2 logits' :
  (forall tok, tok ∈ toks1 <-> tok ∈ toks2) ->
  suppress_tokens logits batch_idx toks1 = Returned logits' ->
  suppress_tokens logits batch_idx toks2 = Returned logits'.
Proof.
  intros Hset. unfold suppress_tokens.
  destruct (batch logits <? batch_idx); [done|].
  set (offset := row_offset logits batch_idx).
  destruct (suppress_loop (data logits) offset toks1) as [d1| |] eqn:H1; cbn; [|done|done].
  intros [= <-].
  destruct (WhisperProps.suppress_loop_returned _ _ _ _ H1) as (Hlen1 & Hsup1 & Hoth1).
  destruct (suppress_loop_in_range toks2 (data logits) offset) as [d2 H2].
  { intros tok Htok. by apply Hsup1, Hset. }
  rewrite H2. cbn. do 2 f_equal.
  destruct (WhisperProps.suppress_loop_returned _ _ _ _ H2) as (Hlen2 & Hsup2 & Hoth2).
  apply list_eq. intros j.
  destruct (decide (Exists (fun tok => j = Z.to_nat (offset + tok)) toks1)) as [Hex|Hex].
  - apply Exists_exists in Hex as (tok & Htok & ->).
    destruct (Hsup1 tok Htok) as [_ ->]. destruct (Hsup2 tok) as [_ ->]; [by apply Hset|done].
  - rewrite Hoth1, Hoth2; [done| |].
    + intros tok Htok Hj. apply Hex, Exists_exists. exists tok. split; [by apply Hset|done].
    + intros tok Htok Hj. apply Hex, Exists_exists. by exists tok.
Qed.

(** The assertion of line 36 compares with [>=]: it lets through
    [batch_idx] equal to the number of rows, the row after the last one.
    On a tensor of consistent shape the first write is then outside the
    buffer. *)
Theorem suppress_tokens_accepts_the_row_after_the_last logits tok toks :
  0 <= batch logits -> 0 < seq_len logits -> 0 < vocab_size logits ->
  get_size (data logits) = batch logits * seq_len logits * vocab_size logits ->
  get_size (data logits) + seq_len logits * vocab_size logits < 2 ^ 64 ->
  0 <= tok ->
  suppress_tokens logits (batch logits) (tok :: toks)
  = Undefined (OutOfBounds "logits_data" (get_size (data logits)
                                          + (seq_len logits - 1) * vocab_size logits + tok)).
Proof.
  intros Hb Hs Hv Hsize Hmax Htok. unfold suppress_tokens.
  rewrite Z.ltb_irrefl. cbn [suppress_loop].
  assert (Hoff : row_offset logits (batch logits)
                 = get_size (data logits) + (seq_len logits - 1) * vocab_size logits).
  { unfold row_offset. rewrite Hsize.
    assert (0 <= batch logits * seq_len logits) by nia.
    assert (0 <= batch logits * seq_len logits * vocab_size logits) by nia.
    assert (0 <= (seq_len logits - 1) * vocab_size logits) by nia.
    assert (batch logits * seq_len logits <= batch logits * seq_len logits * vocab_size logits)
      by nia.
    rewrite (u64_small (batch logits * seq_len logits)) by lia.
    rewrite !u64_small by nia. done. }
  rewrite Hoff, poke_out_of_range; [done|].
  assert (0 <= (seq_len logits - 1) * vocab_size logits) by nia. lia.
Qed.

(** *** Names of the key/value tensors *)

Lemma prefix_present rest : String.prefix "present" (String.append "present" rest) = true.
Proof. cbn. by destruct rest. Qed.

Lemma present_to_past_without_present name :
  contains "present" name = false -> present_to_past name = name.
Proof.
  unfold contains, present_to_past. intros Hno.
  apply bool_decide_eq_false in Hno.
  assert (Hnone : String.index 0 "present" name = None).
  { destruct (String.index 0 "present" name); [|done]. destruct Hno. by eexists. }
  clear Hno. induction name as [|c name IH]; [done|].
  cbn [present_to_past_from].
  cbn [String.index] in Hnone.
  destruct (String.prefix "present" (String c name)); [done|].
  destruct (String.index 0 "present" name); [done|]. by rewrite IH.
Qed.

(** The renaming of an output to the input it feeds: a name that does not
    contain [present] is left as it is, and a name that starts with
    [present] and does not contain it again has this prefix replaced by
    [past]. *)
Theorem present_to_past_renames_the_prefix rest :
  contains "present" rest = false ->
  present_to_past rest = rest
  /\ present_to_past (String.append "present" rest) = String.append "past" rest.
Proof.
  intros Hno. split; [by apply present_to_past_without_present|].
  unfold present_to_past.
  change (present_to_past_from 0 (String.append "present" rest))
    with (if String.prefix "present" (String.append "present" rest)
          then String.append "past" (present_to_past_from 0 rest)
          else String.append "p" (present_to_past_from 0 (String.append "resent" rest))).
  rewrite prefix_present.
  change (present_to_past_from 0 rest) with (present_to_past rest).
  by rewrite (present_to_past_without_present rest Hno).
Qed.

Lemma suppression_depends_on_the_set_of_ids_witness :
  let logits := mkLogits 1 1 4 [Fin 5; Fin (-3); Fin 9; NInf] in
  let logits' := mkLogits 1 1 4 [NInf; Fin (-3); NInf; NInf] in
  suppress_tokens logits 0 [0; 2; 3; 2] = Returned logits'
  /\ suppress_tokens logits 0 [3; 2; 0] = Returned logits'.
Proof.
  intros logits logits'.
  assert (Hret : suppress_tokens logits 0 [0; 2; 3; 2] = Returned logits') by reflexivity.
  split; [exact Hret|].
  apply (suppression_depends_on_the_set_of_ids logits 0 [0; 2; 3; 2] [3; 2; 0] logits');
    [|exact Hret].
  intros tok. rewrite !elem_of_cons, !elem_of_nil. tauto.
Defined.

Lemma suppress_tokens_accepts_the_row_after_the_last_witness :
  suppress_tokens (mkLogits 1 1 4 [Fin 5; Fin (-3); Fin 9; NInf]) 1 [2]
  = Undefined (OutOfBounds "logits_data" 6).
Proof.
  apply (suppress_tokens_accepts_the_row_after_the_last
           (mkLogits 1 1 4 [Fin 5; Fin (-3); Fin 9; NInf]) 2 []);
    first [reflexivity | vm_compute; discriminate].
Defined.

Lemma present_to_past_renames_the_prefix_witness :
  present_to_past "present_key_values.0.encoder.key" = "past_key_values.0.encoder.key"
  /\ present_to_past "logits" = "logits".
Proof.
  split.
  - apply (present_to_past_renames_the_prefix "_key_values.0.encoder.key"). reflexivity.
  - apply (present_to_past_renames_the_prefix "logits"). reflexivity.
Defined.

(** *** The key/value tensors *)

Section KeyValues.
Context {Slab : Type}.
Local Abbreviation M := (Whisper.M Slab).

(** The key/value tensors of a request, and the world in which they are
    replaced. *)
Local Abbreviation kvs id w := (key_values (tensors (get_request (models w) id))).

Local Abbreviation with_kvs id m w :=
  (mkWorld
     (set_request (models w) id
        (set_tensors (get_request (models w) id)
           (mkTensors (input_features (tensors (get_request (models w) id)))
                      (last_hidden_state (tensors (get_request (models w) id)))
                      (encoder_hidden_states (tensors (get_request (models w) id)))
                      (input_ids (tensors (get_request (models w) id)))
                      (position_ids (tensors (get_request (models w) id)))
                      (attention_mask (tensors (get_request (models w) id)))
                      (logits (tensors (get_request (models w) id)))
                      m)))
     (streamed w)).

Lemma request_eq_or_not (id id' : Request) : id = id' \/ id <> id'.
Proof. destruct id, id'; auto; right; discriminate. Qed.

Lemma get_key_value_run id name (w : World Slab) :
  get_key_value id name w
  = match kvs id w !! name with
    | Some kv => (Returned kv, w, [])
    | None => (Thrown (OvException "get_tensor: no such tensor"), w, [])
    end.
Proof.
  unfold get_key_value. rewrite WhisperProps.bind_run. cbn [tensors_of].
  by destruct (_ !! name).
Qed.

Lemma set_key_value_run id name kv (w : World Slab) :
  set_key_value id name kv w = (Returned tt, with_kvs id (<[name := kv]> (kvs id w)) w, []).
Proof. reflexivity. Qed.

Lemma kvs_with_kvs_same id m (w : World Slab) : kvs id (with_kvs id m w) = m.
Proof. by destruct id. Qed.

Lemma kvs_with_kvs_other id id' m (w : World Slab) :
  id' <> id -> kvs id' (with_kvs id m w) = kvs id' w.
Proof. by destruct id, id'. Qed.

(** One round of the loop of [copy_cross_attn_key_value]. *)
Lemma copy_cross_attn_round source dest name rest (w : World Slab) :
  copy_cross_attn_loop (name :: rest) source dest w
  = if contains "encoder" name then
      match kvs source w !! name, kvs dest w !! present_to_past name with
      | Some src_kv_tensor, Some _ =>
          copy_cross_attn_loop rest source dest
            (with_kvs dest (<[present_to_past name := src_kv_tensor]> (kvs dest w)) w)
      | _, _ => (Thrown (OvException "get_tensor: no such tensor"), w, [])
      end
    else copy_cross_attn_loop rest source dest w.
Proof.
  cbn [copy_cross_attn_loop]. rewrite WhisperProps.bind_run.
  destruct (contains "encoder" name).
  - rewrite WhisperProps.bind_run, get_key_value_run.
    destruct (kvs source w !! name) as [src|]; [|done].
    rewrite WhisperProps.bind_run, get_key_value_run.
    destruct (kvs dest w !! present_to_past name) as [dst|]; [|done].
    rewrite set_key_value_run.
    by destruct (copy_cross_attn_loop rest source dest _) as [[o2 w2] e2].
  - cbn [mret M_ret]. by destruct (copy_cross_attn_loop rest source dest w) as [[o2 w2] e2].
Qed.

Lemma copy_cross_attn_loop_spec source dest names : forall (w w' : World Slab) evs,
  source <> dest ->
  copy_cross_attn_loop names source dest w = (Returned tt, w', evs) ->
  kvs source w' = kvs source w
  /\ (forall name, name ∈ names -> contains "encoder" name = true ->
        is_Some (kvs dest w !! present_to_past name)
        /\ exists name', name' ∈ names /\ contains "encoder" name' = true
             /\ present_to_past name' = present_to_past name
             /\ is_Some (kvs source w !! name')
             /\ kvs dest w' !! present_to_past name = kvs source w !! name')
  /\ (forall key,
        (forall name, name ∈ names -> contains "encoder" name = true ->
           present_to_past name <> key) ->
        kvs dest w' !! key = kvs dest w !! key).
Proof.
  induction names as [|name rest IH]; intros w w' evs Hne.
  { cbn. intros [= <- <-]. split; [done|]. split; [|done].
    intros name Hin. by apply elem_of_nil in Hin. }
  rewrite copy_cross_attn_round.
  destruct (contains "encoder" name) eqn:Henc; cycle 1.
  { intros (Hsrc & Hcopied & Hkept)%IH; [|done]. split; [done|]. split.
    - intros n [->|Hin]%elem_of_cons Hn; [congruence|].
      destruct (Hcopied n Hin Hn) as (? & n' & ? & ? & ? & ? & ?).
      split; [done|]. exists n'. split; [by right|done].
    - intros key Hkey. apply Hkept. intros n Hin. apply Hkey. by right. }
  destruct (kvs source w !! name) as [src|] eqn:Hsrcname; [|done].
  destruct (kvs dest w !! present_to_past name) as [dst|] eqn:Hdstname; [|done].
  set (w1 := with_kvs dest _ w).
  intros (Hsrc & Hcopied & Hkept)%IH; [|done].
  assert (Hdst1 : kvs dest w1 = <[present_to_past name := src]> (kvs dest w))
    by apply kvs_with_kvs_same.
  assert (Hsrc1 : kvs source w1 = kvs source w) by (by apply kvs_with_kvs_other).
  rewrite Hdst1 in Hcopied, Hkept. rewrite Hsrc1 in Hcopied, Hsrc.
  split; [done|]. split.
  - assert (Hlater : forall n, n ∈ rest -> contains "encoder" n = true ->
              is_Some (kvs dest w !! present_to_past n)
              /\ exists n', n' ∈ name :: rest /\ contains "encoder" n' = true
                   /\ present_to_past n' = present_to_past n
                   /\ is_Some (kvs source w !! n')
                   /\ kvs dest w' !! present_to_past n = kvs source w !! n').
    { intros n Hin Hn. destruct (Hcopied n Hin Hn) as (Hsome & n' & ? & ? & ? & ? & ?).
      split.
      - destruct (decide (present_to_past name = present_to_past n)) as [Heq|Hneq].
        + rewrite <- Heq, Hdstname. by eexists.
        + by rewrite lookup_insert_ne in Hsome.
      - exists n'. split; [by right|done]. }
    intros n [->|Hin]%elem_of_cons Hn; [|by apply Hlater].
    split; [rewrite Hdstname; by eexists|].
    destruct (decide (Exists (fun n => contains "encoder" n = true
                                      /\ present_to_past n = present_to_past name) rest))
      as [Hex|Hex].
    + apply Exists_exists in Hex as (n & Hin & Hn' & Heq).
      destruct (Hlater n Hin Hn') as (_ & n' & ? & ? & ? & ? & Hval).
      exists n'. rewrite <- Heq. split; [done|]. split; [done|]. split; [congruence|done].
    + exists name. split; [by left|]. split; [done|]. split; [done|].
      split; [rewrite Hsrcname; by eexists|].
      rewrite Hkept.
      * by rewrite lookup_insert_eq, Hsrcname.
      * intros n Hin Hn' Heq. apply Hex, Exists_exists. by exists n.
  - intros key Hkey. rewrite Hkept.
    + apply lookup_insert_ne. apply Hkey; [by left|done].
    + intros n Hin. apply Hkey. by right.
Qed.

Lemma copy_cross_attn_loop_outcome source dest names : forall (w : World Slab),
  (exists w', copy_cross_attn_loop names source dest w = (Returned tt, w', [])
              /\ forall name, name ∈ names -> contains "encoder" name = true ->
                   is_Some (kvs source w !! name)
                   /\ is_Some (kvs dest w !! present_to_past name))
  \/ (exists w', copy_cross_attn_loop names source dest w
                 = (Thrown (OvException "get_tensor: no such tensor"), w', [])).
Proof.
  induction names as [|name rest IH]; intros w.
  { left. exists w. split; [done|]. intros name Hin. by apply elem_of_nil in Hin. }
  rewrite copy_cross_attn_round.
  destruct (contains "encoder" name) eqn:Henc; cycle 1.
  { destruct (IH w) as [(w' & -> & Hall)|(w' & ->)]; [left|right; eauto].
    exists w'. split; [done|].
    intros n [->|Hin]%elem_of_cons Hn; [congruence|by apply Hall]. }
  destruct (kvs source w !! name) as [src|] eqn:Hsrcname; [|right; eauto].
  destruct (kvs dest w !! present_to_past name) as [dst|] eqn:Hdstname; [|right; eauto].
  set (w1 := with_kvs dest _ w).
  destruct (IH w1) as [(w' & -> & Hall)|(w' & ->)]; [left|right; eauto].
  exists w'. split; [done|].
  assert (Hdst1 : kvs dest w1 = <[present_to_past name := src]> (kvs dest w))
    by apply kvs_with_kvs_same.
  intros n [->|Hin]%elem_of_cons Hn.
  { rewrite Hsrcname, Hdstname. split; by eexists. }
  destruct (Hall n Hin Hn) as [Hs Hd]. rewrite Hdst1 in Hd. split.
  - destruct (request_eq_or_not source dest) as [<-|Hne].
    + rewrite Hdst1 in Hs.
      destruct (decide (present_to_past name = n)) as [<-|Hneq];
        [rewrite Hdstname; by eexists|by rewrite lookup_insert_ne in Hs].
    + unfold w1 in Hs. by rewrite kvs_with_kvs_other in Hs.
  - destruct (decide (present_to_past name = present_to_past n)) as [<-|Hneq];
      [rewrite Hdstname; by eexists|by rewrite lookup_insert_ne in Hd].
Qed.

(** [copy_cross_attn_key_value] from one request to another either returns
    or throws the engine's error for a missing tensor. When it returns,
    every output of the source named [...encoder...] had a tensor, and the
    destination had a tensor of the corresponding input name, which now
    holds the contents of such an output (of that one, unless a later output
    is renamed to the same input name); the source, and the destination
    tensors of other names, are as they were. *)
Theorem cross_attn_tensors_are_copied source dest (w w' : World Slab) o evs :
  source <> dest ->
  copy_cross_attn_key_value source dest w = (o, w', evs) ->
  let names := outputs (get_request (models w) source) in
  (o = Returned tt \/ o = Thrown (OvException "get_tensor: no such tensor"))
  /\ (o = Returned tt ->
      kvs source w' = kvs source w
      /\ (forall name, name ∈ names -> contains "encoder" name = true ->
            is_Some (kvs dest w !! present_to_past name)
            /\ exists name', name' ∈ names /\ contains "encoder" name' = true
                 /\ present_to_past name' = present_to_past name
                 /\ is_Some (kvs source w !! name')
                 /\ kvs dest w' !! present_to_past name = kvs source w !! name')
      /\ (forall key,
            (forall name, name ∈ names -> contains "encoder" name = true ->
               present_to_past name <> key) ->
            kvs dest w' !! key = kvs dest w !! key)).
Proof.
  intros Hne. unfold copy_cross_attn_key_value.
  rewrite WhisperProps.bind_run. cbn [emit].
  rewrite WhisperProps.bind_run. cbn [outputs_of].
  destruct (copy_cross_attn_loop (outputs (get_request (models w) source)) source dest w)
    as [[o2 w2] e2] eqn:Hloop.
  intros [= <- <- _]. split.
  - destruct (copy_cross_attn_loop_outcome source dest
                (outputs (get_request (models w) source)) w) as [(w1 & Hr & _)|(w1 & Hr)];
      rewrite Hloop in Hr; injection Hr as -> _ _; auto.
  - intros ->. by apply (copy_cross_attn_loop_spec source dest _ w w2 e2).
Qed.

(** [make_tensor_slice] and [copy_to]: what a copy that the engine accepts
    writes. *)
Lemma copy_to_slice_returned (src dst : list Slab) start_pos end_pos updated :
  0 <= start_pos ->
  copy_to_slice src dst start_pos end_pos = Returned updated ->
  start_pos <= end_pos <= get_size dst
  /\ updated = take (Z.to_nat start_pos) dst ++ src ++ drop (Z.to_nat end_pos) dst
  /\ take (Z.to_nat start_pos) updated = take (Z.to_nat start_pos) dst
  /\ get_size updated = start_pos + get_size src + (get_size dst - end_pos).
Proof.
  intros H0. unfold copy_to_slice.
  destruct (Z.leb_spec start_pos end_pos); [|done].
  destruct (Z.leb_spec end_pos (get_size dst)); [|done]. cbn.
  intros [= <-]. unfold get_size in *. split; [done|]. split; [done|]. split.
  - rewrite take_app_le by (rewrite length_take; lia).
    rewrite take_take. f_equal. lia.
  - rewrite !length_app, length_take, length_drop. lia.
Qed.

(** One round of the loop of [update_past_key_value]. *)
Lemma update_past_round source dest kv_pos name rest (w : World Slab) :
  update_past_loop (name :: rest) source dest kv_pos w
  = if contains "decoder" name then
      match kvs source w !! name, kvs dest w !! present_to_past name with
      | Some src_kv_tensor, Some dst_kv_tensor =>
          match copy_to_slice src_kv_tensor dst_kv_tensor kv_pos
                              (u64 (kv_pos + get_size src_kv_tensor)) with
          | Returned updated =>
              update_past_loop rest source dest kv_pos
                (with_kvs dest (<[present_to_past name := updated]> (kvs dest w)) w)
          | Thrown e => (Thrown e, w, [])
          | Undefined f => (Undefined f, w, [])
          end
      | _, _ => (Thrown (OvException "get_tensor: no such tensor"), w, [])
      end
    else update_past_loop rest source dest kv_pos w.
Proof.
  cbn [update_past_loop]. rewrite WhisperProps.bind_run.
  destruct (contains "decoder" name).
  - rewrite WhisperProps.bind_run, get_key_value_run.
    destruct (kvs source w !! name) as [src|]; [|done].
    rewrite WhisperProps.bind_run, get_key_value_run.
    destruct (kvs dest w !! present_to_past name) as [dst|]; [|done].
    rewrite WhisperProps.bind_run. cbn [lift].
    destruct (copy_to_slice src dst kv_pos _) as [updated| |]; [|done|done].
    rewrite set_key_value_run.
    by destruct (update_past_loop rest source dest kv_pos _) as [[o2 w2] e2].
  - cbn [mret M_ret]. by destruct (update_past_loop rest source dest kv_pos w) as [[o2 w2] e2].
Qed.

Lemma update_past_loop_spec source dest kv_pos names : forall (w w' : World Slab) evs,
  0 <= kv_pos ->
  update_past_loop names source dest kv_pos w = (Returned tt, w', evs) ->
  (forall key,
     (forall name, name ∈ names -> contains "decoder" name = true ->
        present_to_past name <> key) ->
     kvs dest w' !! key = kvs dest w !! key)
  /\ (forall key,
        match kvs dest w !! key with
        | Some old => exists new, kvs dest w' !! key = Some new
                        /\ take (Z.to_nat kv_pos) new = take (Z.to_nat kv_pos) old
        | None => kvs dest w' !! key = None
        end)
  /\ ((forall key kv, kvs source w !! key = Some kv -> kv_pos + get_size kv < 2 ^ 64) ->
      forall key old new,
        kvs dest w !! key = Some old -> kvs dest w' !! key = Some new ->
        length new = length old).
Proof.
  induction names as [|name rest IH]; intros w w' evs Hpos.
  { cbn. intros [= <- <-]. split; [done|]. split; [|congruence].
    intros key. destruct (_ !! key); eauto. }
  rewrite update_past_round.
  destruct (contains "decoder" name) eqn:Hdec; cycle 1.
  { intros (Hkept & Hprefix & Hlen)%IH; [|done]. split; [|done].
    intros key Hkey. apply Hkept. intros n Hin. apply Hkey. by right. }
  destruct (kvs source w !! name) as [src|] eqn:Hsrcname; [|done].
  destruct (kvs dest w !! present_to_past name) as [dst|] eqn:Hdstname; [|done].
  destruct (copy_to_slice src dst kv_pos _) as [updated| |] eqn:Hcopy; [|done|done].
  apply copy_to_slice_returned in Hcopy as (Hrange & _ & Htake & Hsize); [|done].
  set (w1 := with_kvs dest _ w).
  assert (Hdst1 : kvs dest w1 = <[present_to_past name := updated]> (kvs dest w))
    by apply kvs_with_kvs_same.
  intros (Hkept & Hprefix & Hlen)%IH; [|done]. rewrite Hdst1 in Hkept, Hprefix, Hlen.
  split; [|split].
  - intros key Hkey. rewrite Hkept.
    + apply lookup_insert_ne. apply Hkey; [by left|done].
    + intros n Hin. apply Hkey. by right.
  - intros key. specialize (Hprefix key).
    destruct (decide (present_to_past name = key)) as [<-|Hneq].
    + rewrite lookup_insert_eq in Hprefix. rewrite Hdstname.
      destruct Hprefix as (new & ? & ?). exists new. split; [done|congruence].
    + by rewrite lookup_insert_ne in Hprefix.
  - intros Hbound key old new Hold Hnew.
    assert (Hupd : length updated = length dst).
    { specialize (Hbound _ _ Hsrcname). pose proof (get_size_nonneg src).
      rewrite u64_small in Hsize, Hrange by lia. unfold get_size in *. lia. }
    assert (Hbound1 : forall key kv, kvs source w1 !! key = Some kv ->
                                     kv_pos + get_size kv < 2 ^ 64).
    { intros k kv. destruct (request_eq_or_not source dest) as [<-|Hne].
      - rewrite Hdst1. destruct (decide (present_to_past name = k)) as [<-|Hneq].
        + rewrite lookup_insert_eq. intros [= <-].
          specialize (Hbound _ _ Hdstname). unfold get_size in *. lia.
        + rewrite lookup_insert_ne by done. apply Hbound.
      - unfold w1. rewrite kvs_with_kvs_other by done. apply Hbound. }
    destruct (decide (present_to_past name = key)) as [<-|Hneq].
    + rewrite Hdstname in Hold. injection Hold as <-.
      rewrite <- Hupd. apply (Hlen Hbound1 (present_to_past name)); [|done].
      by rewrite lookup_insert_eq.
    + apply (Hlen Hbound1 key); [|done]. by rewrite lookup_insert_ne.
Qed.

(** The key/value cache is written in place and only from [kv_pos] on:
    when [update_past_key_value] returns, every tensor of the destination
    still has the positions before [kv_pos] as they were and, for sizes
    within [size_t], its length; tensors that are not the target of an
    output named [...decoder...] are untouched. *)
Theorem cache_update_keeps_earlier_positions source dest kv_pos (w w' : World Slab) evs :
  0 <= kv_pos ->
  update_past_key_value source dest kv_pos w = (Returned tt, w', evs) ->
  let names := outputs (get_request (models w) source) in
  (forall key,
     (forall name, name ∈ names -> contains "decoder" name = true ->
        present_to_past name <> key) ->
     kvs dest w' !! key = kvs dest w !! key)
  /\ (forall key,
        match kvs dest w !! key with
        | Some old => exists new, kvs dest w' !! key = Some new
                        /\ take (Z.to_nat kv_pos) new = take (Z.to_nat kv_pos) old
        | None => kvs dest w' !! key = None
        end)
  /\ ((forall key kv, kvs source w !! key = Some kv -> kv_pos + get_size kv < 2 ^ 64) ->
      forall key old new,
        kvs dest w !! key = Some old -> kvs dest w' !! key = Some new ->
        length new = length old).
Proof.
  intros Hpos. unfold update_past_key_value.
  rewrite WhisperProps.bind_run. cbn [emit].
  rewrite WhisperProps.bind_run. cbn [outputs_of].
  destruct (update_past_loop (outputs (get_request (models w) source)) source dest kv_pos w)
    as [[o2 w2] e2] eqn:Hloop.
  intros [= -> <- _]. by apply (update_past_loop_spec source dest kv_pos _ w w2 e2).
Qed.

Lemma update_past_loop_window source dest kv_pos names : forall (w w' : World Slab) evs,
  0 <= kv_pos ->
  source <> dest
  \/ (forall n n', n ∈ names -> n' ∈ names -> contains "decoder" n = true ->
        contains "decoder" n' = true -> present_to_past n <> n') ->
  NoDup (present_to_past <$> filter (fun n => contains "decoder" n = true) names) ->
  update_past_loop names source dest kv_pos w = (Returned tt, w', evs) ->
  forall name, name ∈ names -> contains "decoder" name = true ->
    exists src old,
      kvs source w !! name = Some src
      /\ kvs dest w !! present_to_past name = Some old
      /\ kvs dest w' !! present_to_past name
         = Some (take (Z.to_nat kv_pos) old ++ src
                 ++ drop (Z.to_nat (u64 (kv_pos + get_size src))) old).
Proof.
  induction names as [|name0 rest IH]; intros w w' evs Hpos Hsep Hnodup.
  { intros _ name Hin. by apply elem_of_nil in Hin. }
  rewrite update_past_round. rewrite filter_cons in Hnodup.
  assert (Hsep' : source <> dest
                  \/ (forall n n', n ∈ rest -> n' ∈ rest -> contains "decoder" n = true ->
                        contains "decoder" n' = true -> present_to_past n <> n')).
  { destruct Hsep as [?|Hsep]; [by left|right].
    intros n n' Hn Hn'. apply Hsep; by right. }
  destruct (contains "decoder" name0) eqn:Hdec; cycle 1.
  { rewrite decide_False in Hnodup by congruence.
    intros Hrun name [->|Hin]%elem_of_cons Hname; [congruence|].
    by apply (IH w w' evs). }
  rewrite decide_True in Hnodup by done.
  rewrite fmap_cons in Hnodup. apply NoDup_cons in Hnodup as [Hfresh Hnodup].
  destruct (kvs source w !! name0) as [src|] eqn:Hsrcname; [|done].
  destruct (kvs dest w !! present_to_past name0) as [dst|] eqn:Hdstname; [|done].
  destruct (copy_to_slice src dst kv_pos _) as [updated| |] eqn:Hcopy; [|done|done].
  apply copy_to_slice_returned in Hcopy as (_ & -> & _); [|done].
  set (w1 := with_kvs dest _ w).
  assert (Hdst1 : kvs dest w1
                  = <[present_to_past name0 :=
                        take (Z.to_nat kv_pos) dst ++ src
                        ++ drop (Z.to_nat (u64 (kv_pos + get_size src))) dst]> (kvs dest w))
    by apply kvs_with_kvs_same.
  intros Hrun.
  assert (Himage : forall n, n ∈ rest -> contains "decoder" n = true ->
                     present_to_past n <> present_to_past name0).
  { intros n Hin Hn Heq. apply Hfresh. rewrite <- Heq.
    apply list_elem_of_fmap. exists n. split; [done|]. by apply list_elem_of_filter. }
  intros name [->|Hin]%elem_of_cons Hname.
  - exists src, dst. split; [done|]. split; [done|].
    destruct (update_past_loop_spec source dest kv_pos rest w1 w' evs Hpos Hrun) as (Hkept & _).
    rewrite Hkept, Hdst1; [by rewrite lookup_insert_eq|].
    intros n Hn Hd. by apply Himage.
  - destruct (IH w1 w' evs Hpos Hsep' Hnodup Hrun name Hin Hname) as (src' & old & Hs & Ho & Hw).
    exists src', old. split; [|split; [|done]].
    + destruct (request_eq_or_not source dest) as [<-|Hne].
      * rewrite Hdst1 in Hs. rewrite lookup_insert_ne in Hs; [done|].
        destruct Hsep as [?|Hsep]; [done|]. apply Hsep; [by left|by right|done|done].
      * unfold w1 in Hs. by rewrite kvs_with_kvs_other in Hs.
    + rewrite Hdst1, lookup_insert_ne in Ho; [done|]. intros Heq. by apply (Himage name).
Qed.

(** What [update_past_key_value] writes: for each output of the source
    named [...decoder...], the destination tensor of the corresponding input
    name holds the slabs of that output from position [kv_pos] on, in place
    of the slabs that were there. The outputs are taken to be renamed to
    different input names, and, when a request is updated from itself, not
    to the name of one of them. *)
Theorem cache_update_writes_the_window source dest kv_pos (w w' : World Slab) evs :
  0 <= kv_pos ->
  let names := outputs (get_request (models w) source) in
  source <> dest
  \/ (forall n n', n ∈ names -> n' ∈ names -> contains "decoder" n = true ->
        contains "decoder" n' = true -> present_to_past n <> n') ->
  NoDup (present_to_past <$> filter (fun n => contains "decoder" n = true) names) ->
  update_past_key_value source dest kv_pos w = (Returned tt, w', evs) ->
  forall name, name ∈ names -> contains "decoder" name = true ->
    exists src old,
      kvs source w !! name = Some src
      /\ kvs dest w !! present_to_past name = Some old
      /\ kvs dest w' !! present_to_past name
         = Some (take (Z.to_nat kv_pos) old ++ src
                 ++ drop (Z.to_nat (u64 (kv_pos + get_size src))) old).
Proof.
  intros Hpos names Hsep Hnodup. unfold update_past_key_value.
  rewrite WhisperProps.bind_run. cbn [emit].
  rewrite WhisperProps.bind_run. cbn [outputs_of]. fold names.
  destruct (update_past_loop names source dest kv_pos w) as [[o2 w2] e2] eqn:Hloop.
  intros [= -> <- _]. by apply (update_past_loop_window source dest kv_pos names w w2 e2).
Qed.

End KeyValues.

Lemma cross_attn_tensors_are_copied_witness :
  let w := mkWorld (mkModels (encoder example_models)
                             (set_tensors (decoder example_models)
                                          (example_decoder empty_tensors))
                             (decoder_with_past example_models)) [] in
  let run := copy_cross_attn_key_value Decoder DecoderWithPast w in
  fst (fst run) = Returned tt
  /\ key_values (tensors (decoder_with_past (models (snd (fst run)))))
       !! "past_key_values.0.encoder.value" = Some [7; 7]
  /\ key_values (tensors (decoder_with_past (models (snd (fst run)))))
       !! "past_key_values.0.decoder.key" = Some (replicate 10 0).
Proof.
  intros w run.
  assert (Hne : Decoder <> DecoderWithPast) by discriminate.
  assert (Ho : fst (fst run) = Returned tt) by (vm_compute; reflexivity).
  assert (Hrun : run = (Returned tt, snd (fst run), snd run)).
  { rewrite <- Ho. generalize run. by intros [[? ?] ?]. }
  destruct (cross_attn_tensors_are_copied Decoder DecoderWithPast w _ _ _ Hne Hrun)
    as (_ & Hreturned).
  destruct (Hreturned eq_refl) as (_ & _ & Hkept).
  split; [by rewrite Hrun|]. split; [vm_compute; reflexivity|].
  change (key_values (tensors (get_request (models (snd (fst run))) DecoderWithPast))
            !! "past_key_values.0.decoder.key" = Some (replicate 10 0)).
  rewrite Hkept; [reflexivity|].
  intros name Hin Henc. cbn in Hin.
  repeat (apply elem_of_cons in Hin as [->|Hin]); [discriminate..|by apply elem_of_nil in Hin].
Defined.

Lemma cache_update_keeps_earlier_positions_witness :
  let w := mkWorld (mkModels (encoder example_models) (decoder example_models)
                             (set_tensors (decoder_with_past example_models)
                                (example_decoder_with_past
                                   (tensors (decoder_with_past example_models))))) [] in
  let run := update_past_key_value DecoderWithPast DecoderWithPast 4 w in
  fst (fst run) = Returned tt
  /\ key_values (tensors (decoder_with_past (models (snd (fst run)))))
       !! "past_key_values.0.decoder.key" = Some [0; 0; 0; 0; 100; 0; 0; 0; 0; 0]
  /\ forall new,
       key_values (tensors (decoder_with_past (models (snd (fst run)))))
         !! "past_key_values.0.decoder.key" = Some new ->
       take 4 new = [0; 0; 0; 0] /\ length new = 10%nat.
Proof.
  intros w run.
  assert (Hpos : 0 <= 4) by lia.
  assert (Ho : fst (fst run) = Returned tt) by (vm_compute; reflexivity).
  assert (Hrun : run = (Returned tt, snd (fst run), snd run)).
  { rewrite <- Ho. generalize run. by intros [[? ?] ?]. }
  destruct (cache_update_keeps_earlier_positions DecoderWithPast DecoderWithPast 4 w _ _ Hpos Hrun)
    as (_ & Hprefix & Hlen).
  split; [by rewrite Hrun|]. split; [vm_compute; reflexivity|].
  intros new Hnew. split.
  - specialize (Hprefix "past_key_values.0.decoder.key").
    change (key_values (tensors (get_request (models w) DecoderWithPast))
              !! "past_key_values.0.decoder.key") with (Some (replicate 10 0)) in Hprefix.
    destruct Hprefix as (new' & Hnew' & Htake).
    change (get_request (models (snd (fst run))) DecoderWithPast)
      with (decoder_with_past (models (snd (fst run)))) in Hnew'.
    rewrite Hnew in Hnew'. injection Hnew' as <-. exact Htake.
  - apply (Hlen) with (key := "past_key_values.0.decoder.key") (old := replicate 10 0);
      [|reflexivity|exact Hnew].
    intros key kv Hkv.
    assert (Hcases : kv = [100] \/ kv = replicate 10 0 \/ kv = [0; 0]).
    { change (key_values (tensors (get_request (models w) DecoderWithPast)))
        with (<["present_key_values.0.decoder.key" := [100]]>
                (<["past_key_values.0.decoder.key" := replicate 10 0]>
                   (<["past_key_values.0.encoder.value" := [0; 0]]> (∅ : gmap string (list Z)))))
        in Hkv.
      apply lookup_insert_Some in Hkv as [[_ <-]|[_ Hkv]]; [by left|].
      apply lookup_insert_Some in Hkv as [[_ <-]|[_ Hkv]]; [by right; left|].
      apply lookup_insert_Some in Hkv as [[_ <-]|[_ Hkv]]; [by right; right|].
      by rewrite lookup_empty in Hkv. }
    destruct Hcases as [->|[->| ->]]; vm_compute; reflexivity.
Defined.

Lemma cache_update_writes_the_window_witness :
  let w := mkWorld (mkModels (encoder example_models)
                             (set_tensors (decoder example_models)
                                          (example_decoder empty_tensors))
                             (decoder_with_past example_models)) [] in
  let run := update_past_key_value Decoder DecoderWithPast 0 w in
  fst (fst run) = Returned tt
  /\ key_values (tensors (decoder_with_past (models (snd (fst run)))))
       !! "past_key_values.0.decoder.key" = Some [10; 11; 12; 13; 0; 0; 0; 0; 0; 0].
Proof.
  intros w run.
  assert (Hpos : 0 <= 0) by lia.
  assert (Hne : Decoder <> DecoderWithPast) by discriminate.
  assert (Ho : fst (fst run) = Returned tt) by (vm_compute; reflexivity).
  assert (Hrun : run = (Returned tt, snd (fst run), snd run)).
  { rewrite <- Ho. generalize run. by intros [[? ?] ?]. }
  assert (Hnodup : NoDup (present_to_past
                            <$> filter (fun n => contains "decoder" n = true)
                                       (outputs (get_request (models w) Decoder))))
    by (vm_compute; apply NoDup_singleton).
  assert (Hin : "present_key_values.0.decoder.key" ∈ outputs (get_request (models w) Decoder)).
  { apply elem_of_cons. right. apply elem_of_cons. by left. }
  assert (Hdec : contains "decoder" "present_key_values.0.decoder.key" = true)
    by (vm_compute; reflexivity).
  assert (Hsrc0 : key_values (tensors (get_request (models w) Decoder))
                    !! "present_key_values.0.decoder.key" = Some [10; 11; 12; 13])
    by (vm_compute; reflexivity).
  assert (Hold0 : key_values (tensors (get_request (models w) DecoderWithPast))
                    !! present_to_past "present_key_values.0.decoder.key"
                  = Some (replicate 10 0))
    by (vm_compute; reflexivity).
  assert (Hname : present_to_past "present_key_values.0.decoder.key"
                  = "past_key_values.0.decoder.key") by (vm_compute; reflexivity).
  pose proof (cache_update_writes_the_window Decoder DecoderWithPast 0 w (snd (fst run))
                (snd run) Hpos (or_introl Hne) Hnodup Hrun
                "present_key_values.0.decoder.key" Hin Hdec) as Hwindow.
  split; [by rewrite Hrun|].
  clearbody run. clearbody w.
  destruct Hwindow as (src & old & Hsrc & Hold & Hnew).
  rewrite Hsrc0 in Hsrc. rewrite Hold0 in Hold.
  injection Hsrc as <-. injection Hold as <-.
  rewrite Hname in Hnew. exact Hnew.
Defined.

End WhisperBehaviour.
